(** * Ledger balance verifier of the Pinnacle Pacific data generator

    Shallow embedding of [verify_financials]
    (generate_pinnacle_data.py), of the constants and helpers of
    part01_constants.py, and of [generate_invoices] and
    [generate_journal_entries] (part07_financials.py).

    Modelling conventions.
    - A Python row (a [dict] from column name to [str]) is a
      [gmap string string].
    - Python exceptions are explicit: a computation that may raise returns
      a [result], and [x <- e; k] propagates the first exception.
    - The control and data flow of the verifier is written once, over an
      abstract arithmetic [Arith F] that provides the operations the code
      applies to its [float] values.  Theorems about where amounts are
      posted hold for every such arithmetic.  Theorems that need algebra
      (sums that do not depend on the order of additions, cancellation) are
      proved for the instance of exact rationals [Qc]: monetary values are
      read as the decimal numbers they denote and arithmetic on them is
      exact.  Rounding of binary floating point is outside this model.
    - [print] is modelled by returning the list of printed lines, each line
      a constructor that carries the values the format string displays.
      The progress lines the two generators print are left out.
    - [int] and [float] are modelled on the literals the program handles:
      optionally signed decimal digits, with one optional point for
      [float].
    - The values drawn from [random] by [generate_invoices] are a
      parameter ([draws]): theorems about the generated invoices hold for
      every outcome of the draws. *)

From Stdlib Require Import Ascii String QArith Qcanon Qround DecimalString DecimalZ
  Lqa.
From stdpp Require Import gmap strings sorting numbers.

#[local] Set Warnings "-clear-no-such-hyp".

Local Open Scope string_scope.
Local Open Scope list_scope.
Local Open Scope Z_scope.

(** ** Python values and exceptions *)

Module Py.

Inductive exn : Type :=
| KeyError (key : string)
| ValueError (literal : string)
| IndexError
| ZeroDivisionError
| AssertionError (msg : string).

Inductive result (A : Type) : Type :=
| Ok (a : A)
| Raise (e : exn).
Arguments Ok {A} a.
Arguments Raise {A} e.

Definition bind {A B} (r : result A) (k : A → result B) : result B :=
  match r with
  | Ok a => k a
  | Raise e => Raise e
  end.

(** [for x in l: body] over a body that may raise. *)
Fixpoint for_each {A S} (body : A → S → result S) (l : list A) (s : S)
  : result S :=
  match l with
  | [] => Ok s
  | x :: l' => bind (body x s) (for_each body l')
  end.

Definition is_ok {A} (r : result A) : Prop := ∃ a, r = Ok a.

(** The same as a test, and the value returned ([d] after an exception). *)
Definition is_okb {A} (r : result A) : bool :=
  match r with
  | Ok _ => true
  | Raise _ => false
  end.

Definition value_or {A} (d : A) (r : result A) : A :=
  match r with
  | Ok a => a
  | Raise _ => d
  end.

(** A Python row. *)
Abbreviation row := (gmap string string).

(** [r[k]] *)
Definition getitem (r : row) (k : string) : result string :=
  match r !! k with
  | Some v => Ok v
  | None => Raise (KeyError k)
  end.

(** [r.get(k)], with [None] for a missing key. *)
Definition get (r : row) (k : string) : option string := r !! k.

(** [d[k]] for a dict with integer keys, given by its items. *)
Fixpoint item {A} (d : list (Z * A)) (k : Z) : result A :=
  match d with
  | [] => Raise (KeyError (NilZero.string_of_int (Z.to_int k)))
  | (k', v) :: d' => if decide (k' = k) then Ok v else item d' k
  end.

(** [l[i]] for a list and [0 <= i]. *)
Definition index {A} (l : list A) (i : nat) : result A :=
  match l !! i with
  | Some v => Ok v
  | None => Raise IndexError
  end.

(** Truth value of a [str]: the empty string is false. *)
Definition truthy (s : string) : bool :=
  match s with
  | EmptyString => false
  | String _ _ => true
  end.

(** [str(n)] for an [int].  (CPython 3.11 refuses to print an integer of
more than 4300 digits; the integers the program prints are account
numbers, counters and amounts of at most nine digits.) *)
Definition str (n : Z) : string := NilZero.string_of_int (Z.to_int n).

(** [int(s)] for a [str], on the literals made of an optional minus sign
and one or more decimal digits, of at most 4300 characters as CPython 3.11
requires.  Python accepts more (a plus sign, surrounding blanks,
underscores); on those this model answers [ValueError], so only its [Ok]
answers are statements about Python. *)
Definition int (s : string) : result Z :=
  if decide (String.length s ≤ 4300)%nat then
    match NilZero.int_of_string s with
    | Some d => Ok (Z.of_int d)
    | None => Raise (ValueError s)
    end
  else Raise (ValueError s).

(** Splits a string at its first dot. *)
Fixpoint split_dot (s : string) : string * option string :=
  match s with
  | EmptyString => (EmptyString, None)
  | String c s' =>
      if Ascii.eqb c "."%char then (EmptyString, Some s')
      else let '(i, f) := split_dot s' in (String c i, f)
  end.

(** A decimal literal [sign digits] or [sign digits . digits] read as the
    pair [(m, e)] that stands for [m / 10^e]. *)
Definition decimal_of_string (s : string) : option (Z * nat) :=
  let '(neg, body) :=
    match s with
    | String c s' =>
        if Ascii.eqb c "-"%char then (true, s') else (false, s)
    | EmptyString => (false, s)
    end in
  let '(ip, fp) := split_dot body in
  match NilZero.uint_of_string ip with
  | None => None
  | Some i =>
      match fp with
      | None => Some (if neg then - Z.of_uint i else Z.of_uint i, 0%nat)
      | Some f =>
          match NilZero.uint_of_string f with
          | None => None
          | Some u =>
              let m := Z.of_uint i * 10 ^ Z.of_nat (String.length f)
                       + Z.of_uint u in
              Some (if neg then - m else m, String.length f)
          end
      end
  end.

End Py.

Export Py.

Notation "x <- e ; k" := (Py.bind e (fun x => k))
  (at level 100, e at next level, k at level 200, right associativity).

(** ** The arithmetic of the verifier

    The operations [verify_financials] applies to amounts: [+], binary and
    unary [-], [abs], the comparison [<], and the value of a decimal
    literal ([of_dec m e] is the number written [m / 10^e], as a literal of
    the program or as the argument of [float()]). *)

Class Arith (F : Type) : Type := {
  fzero : F;
  fadd : F → F → F;
  fsub : F → F → F;
  fneg : F → F;
  fabs : F → F;
  flt : F → F → bool;
  of_dec : Z → nat → F
}.

(** Exact rationals. *)
Definition Qc_ltb (x y : Qc) : bool :=
  match (x ?= y)%Qc with Lt => true | _ => false end.

Definition Qc_abs (x : Qc) : Qc := if Qc_ltb x 0%Qc then (- x)%Qc else x.

Definition pow10 (e : nat) : positive := Nat.iter e (Pos.mul 10) 1%positive.

Definition Qc_of_dec (m : Z) (e : nat) : Qc := Q2Qc (m # pow10 e).

#[export] Instance Qc_arith : Arith Qc := {
  fzero := 0%Qc;
  fadd := Qcplus;
  fsub := Qcminus;
  fneg := Qcopp;
  fabs := Qc_abs;
  flt := Qc_ltb;
  of_dec := Qc_of_dec
}.

(** ** part01_constants.py *)

Module Constants.

(** The entries of the dicts [AIRPORT] and [CONDO] that the financial
    sheets use. *)
Definition AIRPORT_name : string := "DFW Metroplex Airport Terminal 6".
Definition AIRPORT_client : string := "DFW Airport Board".
Definition CONDO_name : string := "Pinnacle Bay Condominiums".
Definition CONDO_client : string := "Pinnacle Bay Development LLC".

Definition MONTHS : list string :=
  ["01"; "02"; "03"; "04"; "05"; "06"; "07"; "08"; "09"; "10"; "11"; "12"].

Definition MONTH_ENDS : list string :=
  ["2025-01-31"; "2025-02-28"; "2025-03-31"; "2025-04-30";
   "2025-05-31"; "2025-06-30"; "2025-07-31"; "2025-08-31";
   "2025-09-30"; "2025-10-31"; "2025-11-30"; "2025-12-31"].

Definition MONTH_NAMES : list string :=
  ["January"; "February"; "March"; "April"; "May"; "June";
   "July"; "August"; "September"; "October"; "November"; "December"].

Definition AIRPORT_MONTHLY_REV : list Z :=
  [16500000; 16800000; 17200000; 17500000; 16800000; 16200000;
   15800000; 16500000; 17000000; 16200000; 15800000; 15700000].

Definition CONDO_MONTHLY_REV : list Z :=
  [5800000; 5600000; 5400000; 5200000; 4800000; 4500000;
   4200000; 3800000; 3600000; 3200000; 800000; 800000].

Definition RENTAL_MONTHLY : list Z :=
  [650000; 680000; 720000; 760000; 800000; 840000;
   880000; 920000; 950000; 980000; 1010000; 1010000].

Definition TOTAL_REVENUE : Z := 198000000 + 47700000 + 10200000 + 8500000.

(** The three cost tables are dicts from account number to (name,
    annual amount); their [items()] come in insertion order. *)
Definition DIRECT_COST_ACCOUNTS : list (Z * (string * Z)) :=
  [(5000, ("Subcontractor Costs - Structural", 98000000));
   (5010, ("Subcontractor Costs - MEP", 42000000));
   (5020, ("Subcontractor Costs - Concrete", 28000000));
   (5030, ("Subcontractor Costs - Steel & Metals", 18000000));
   (5100, ("Materials - Concrete & Aggregate", 12000000));
   (5110, ("Materials - Steel & Rebar", 8500000));
   (5120, ("Materials - Lumber & Framing", 3200000));
   (5130, ("Materials - Electrical & Plumbing", 4800000));
   (5200, ("Direct Labor - Field", 6500000));
   (5210, ("Direct Labor - Payroll Taxes", 1300000));
   (5300, ("Equipment Operations", 2700000))].

Definition sum_annual (t : list (Z * (string * Z))) : Z :=
  foldl Z.add 0 (map (λ e, e.2.2) t).

Definition TOTAL_DIRECT : Z := sum_annual DIRECT_COST_ACCOUNTS.

Definition PROPERTY_MGMT_ACCOUNTS : list (Z * (string * Z)) :=
  [(6200, ("Property Management Fees", 1200000));
   (6210, ("Property Insurance", 960000));
   (6220, ("Property Taxes", 1440000));
   (6230, ("Utilities - Common Areas", 720000));
   (6240, ("Repairs & Maintenance - Property", 480000))].

Definition TOTAL_PROP_MGMT : Z := sum_annual PROPERTY_MGMT_ACCOUNTS.

Definition OVERHEAD_ACCOUNTS : list (Z * (string * Z)) :=
  [(6000, ("Officer & Admin Salaries", 5400000));
   (6010, ("G&A Payroll Taxes & Benefits", 1620000));
   (6020, ("Office Rent & Utilities", 1080000));
   (6030, ("Professional Services", 2400000));
   (6040, ("Insurance - General Liability", 3600000));
   (6050, ("IT & Software", 960000));
   (6060, ("Marketing & Business Dev", 540000));
   (6070, ("Travel & Entertainment", 360000));
   (6080, ("Bonds & Surety", 2240000))].

Definition TOTAL_OVERHEAD : Z := sum_annual OVERHEAD_ACCOUNTS.

Definition DEPRECIATION : Z := 2400000.
Definition INTEREST_EXPENSE : Z := 4800000.

Definition NET_INCOME : Z :=
  TOTAL_REVENUE - TOTAL_DIRECT - TOTAL_PROP_MGMT - TOTAL_OVERHEAD
  - DEPRECIATION - INTEREST_EXPENSE.

(** Opening balances: positive is a debit balance, negative a credit
    balance. *)
Definition OB : list (Z * Z) :=
  [(1000, 28500000); (1030, 6200000); (1040, 3800000); (1050, 850000);
   (1100, 22400000); (1110, -4800000); (1120, 145000000);
   (1130, -8200000); (1200, 32000000); (1300, 1800000);
   (2020, -3600000); (2030, -4800000); (2050, -2400000);
   (2060, -1200000); (2100, -4200000); (2200, -18000000);
   (2210, -95000000); (3000, -85000000); (3010, -13350000)].

(** *** Helpers, on exact decimal values *)

(** [round(x)]: the nearest integer, ties to the even one. *)
Definition round_half_even (x : Qc) : Z :=
  let f := Qfloor x in
  match (x - Qc_of_Z f ?= Q2Qc (1 # 2))%Qc with
  | Lt => f
  | Gt => f + 1
  | Eq => if Z.even f then f else f + 1
  end.

(** [round(x, 2)] *)
Definition round2 (x : Qc) : Qc :=
  Q2Qc (round_half_even (x * Qc_of_Z 100)%Qc # 100).

(** [s.zfill(w)] for a string of digits. *)
Definition zfill (w : nat) (s : string) : string :=
  string_of_list_ascii (replicate (w - String.length s) "0"%char) +:+ s.

(** [f"{x:.2f}"] *)
Definition format_2f (x : Qc) : string :=
  let n := Z.abs (round_half_even (x * Qc_of_Z 100)%Qc) in
  (if Qc_ltb x 0%Qc then "-" else EmptyString)
  +:+ Py.str (n / 100) +:+ "." +:+ zfill 2 (Py.str (n mod 100)).

(** [fmt]: the amount with two decimals, or the empty string for zero. *)
Definition fmt (amount : Qc) : string :=
  if decide (amount = 0%Qc) then EmptyString else format_2f amount.

Definition sumZ (l : list Z) : Z := foldl Z.add 0 l.
Definition sumQc (l : list Qc) : Qc := foldl Qcplus 0%Qc l.

(** One turn of the loop of [allocate_to_months]; the state is [result]
    and [running]. *)
Definition allocate_step (annual : Z) (weights : list Z) (total_w : Z)
  (i : nat) (st : list Qc * Qc) : result (list Qc * Qc) :=
  let '(result, running) := st in
  if decide (i < 11)%nat then
    w <- Py.index weights i;
    if decide (total_w = 0) then Raise ZeroDivisionError
    else
      let val := round2 (Qc_of_Z (annual * w) / Qc_of_Z total_w)%Qc in
      Ok (result ++ [val], (running + val)%Qc)
  else Ok (result ++ [round2 (Qc_of_Z annual - running)%Qc], running).

(** Distributes an annual total over the twelve months in proportion to
    [weights]; December takes the remainder. *)
Definition allocate_to_months (annual : Z) (weights : list Z)
  : result (list Qc) :=
  st <- Py.for_each (allocate_step annual weights (sumZ weights))
                    (seq 0 12) ([], 0%Qc);
  Ok st.1.

End Constants.

(** ** generate_pinnacle_data.py: [verify_financials] *)

Module Verify.

(** Names shown in the trial balance: the dict literal [acct_names]. *)
Definition acct_names : list (Z * string) :=
  [(1000, "Cash & Equivalents"); (1010, "Accounts Receivable");
   (1020, "Retainage Receivable"); (1030, "Costs in Excess");
   (1040, "Prepaid Expenses"); (1050, "Rent Receivable");
   (1100, "Equipment & Vehicles"); (1110, "Accum Dep - Equipment");
   (1120, "Buildings & Improvements"); (1130, "Accum Dep - Buildings");
   (1200, "Land"); (1300, "Security Deposits");
   (2000, "Accounts Payable"); (2010, "Retainage Payable");
   (2020, "Accrued Payroll"); (2030, "Accrued Expenses");
   (2040, "Billings in Excess"); (2050, "Sales Tax Payable");
   (2060, "Deferred Rental Revenue"); (2100, "Equipment Financing");
   (2200, "Construction LOC"); (2210, "Mortgage Payable");
   (3000, "Owners Capital"); (3010, "Retained Earnings");
   (4000, "Contract Revenue - Airport"); (4010, "Contract Revenue - Condo");
   (4100, "Rental Income"); (4200, "Change Order Revenue");
   (6100, "Depreciation - Equipment"); (6110, "Depreciation - Buildings");
   (7000, "Interest Expense")].

(** First entry of an items list with the given key. *)
Fixpoint assoc {A} (k : Z) (l : list (Z * A)) : option A :=
  match l with
  | [] => None
  | (k', v) :: l' => if decide (k' = k) then Some v else assoc k l'
  end.

(** The name of an account: [str(acct)], replaced by the name of the
    first matching row of the three cost tables, replaced by the entry
    of [acct_names]. *)
Definition account_name (acct : Z) : string :=
  let name := Py.str acct in
  let name :=
    match assoc acct (Constants.DIRECT_COST_ACCOUNTS
                      ++ Constants.PROPERTY_MGMT_ACCOUNTS
                      ++ Constants.OVERHEAD_ACCOUNTS) with
    | Some (row_name, _) => row_name
    | None => name
    end in
  match assoc acct acct_names with
  | Some n => n
  | None => name
  end.

Section verify_financials.
Context {F : Type} {AF : Arith F}.

(** The printed lines, one per call of [print]: a line of seventy signs,
the words of a fixed line (without its padding), or a line that displays
values. *)
Inductive line : Type :=
| Rule (sign : ascii)
| Text (s : string)
| UnbalancedJE (je : string) (dr cr : F)
| AllBalance (n : nat)
| FailUnbalanced (n : nat)
| DebitRow (acct : Z) (name : string) (bal : F)
| CreditRow (acct : Z) (name : string) (bal : F)
| Totals (total_dr total_cr : F)
| Difference (diff : F)
| BalanceOk
| BalanceWarn (diff : F)
| TotalRevenue (revenue : F)
| TotalExpenses (expenses : F)
| NetIncome (net_income : F)
| TargetNI (target : F)
| NetIncomeOk (ni_diff : F)
| NetIncomeWarn (ni_diff : F).

(** [float(s)], on the decimal literals of [decimal_of_string]. *)
Definition float (s : string) : result F :=
  match Py.decimal_of_string s with
  | Some (m, e) => Ok (of_dec m e)
  | None => Raise (ValueError s)
  end.

(** [float(r[k]) if r[k] else 0] *)
Definition float_or_zero (r : row) (k : string) : result F :=
  s <- Py.getitem r k;
  if Py.truthy s then float s else Ok fzero.

(** *** 1. Every journal entry balances *)

(** [je_totals]: a [defaultdict(lambda: [0.0, 0.0])], kept in insertion
    order as Python dicts are. *)
Abbreviation totals := (list (string * (F * F))).

(** [je_totals[k][0] += dr; je_totals[k][1] += cr] *)
Fixpoint totals_add (k : string) (dr cr : F) (t : totals) : totals :=
  match t with
  | [] => [(k, (fadd fzero dr, fadd fzero cr))]
  | (k', (d, c)) :: t' =>
      if decide (k' = k) then (k', (fadd d dr, fadd c cr)) :: t'
      else (k', (d, c)) :: totals_add k dr cr t'
  end.

Definition je_totals_step (r : row) (t : totals) : result totals :=
  dr <- float_or_zero r "debit";
  cr <- float_or_zero r "credit";
  k <- Py.getitem r "entry_number";
  Ok (totals_add k dr cr t).

Definition je_totals (je_rows : list row) : result totals :=
  Py.for_each je_totals_step je_rows [].

(** [abs(dr - cr) > 0.02] *)
Definition out_of_balance (dr cr : F) : bool :=
  flt (of_dec 2 2) (fabs (fsub dr cr)).

(** The loop over [je_totals.items()]: the lines printed and the
    counter [unbalanced]. *)
Definition check_entry (st : list line * nat) (e : string * (F * F))
  : list line * nat :=
  let '(je, (dr, cr)) := e in
  if out_of_balance dr cr
  then (st.1 ++ [UnbalancedJE je dr cr], S st.2)
  else st.

Definition check_entries (t : totals) : list line * nat :=
  foldl check_entry ([], 0%nat) t.

Definition unbalanced (t : totals) : nat := (check_entries t).2.

Definition balance_summary (t : totals) : line :=
  if decide (unbalanced t = 0%nat) then AllBalance (length t)
  else FailUnbalanced (unbalanced t).

(** *** 2. Trial balance from the journal lines *)

(** [gl_balances]: a [defaultdict(float)]; reading a missing account
    gives [0.0]. *)
Definition balance (gl_balances : gmap Z F) (acct : Z) : F :=
  default fzero (gl_balances !! acct).

(** [gl_balances[acct] += v] *)
Definition post (acct : Z) (v : F) (gl_balances : gmap Z F) : gmap Z F :=
  <[acct := fadd (balance gl_balances acct) v]> gl_balances.

(** [gl_balances[acct] -= v] *)
Definition unpost (acct : Z) (v : F) (gl_balances : gmap Z F)
  : gmap Z F :=
  <[acct := fsub (balance gl_balances acct) v]> gl_balances.

Definition je_balance_step (r : row) (gl_balances : gmap Z F)
  : result (gmap Z F) :=
  a <- Py.getitem r "account_number";
  acct <- Py.int a;
  dr <- float_or_zero r "debit";
  cr <- float_or_zero r "credit";
  Ok (post acct (fsub dr cr) gl_balances).

(** *** 3. Impact of the invoices *)

(** The local variables of the loop body. *)
Record invoice : Type := {
  amt : F;
  ret : F;
  gl : option Z;
  is_paid : bool;
  invoice_type : string
}.

Definition read_invoice (inv : row) : result invoice :=
  a <- Py.getitem inv "amount";
  amt <- float a;
  ret <- match Py.get inv "retainage_held" with
         | Some s => if Py.truthy s then float s else Ok fzero
         | None => Ok fzero
         end;
  gl <- match Py.get inv "gl_account" with
        | Some s =>
            if Py.truthy s then (g <- Py.int s; Ok (Some g)) else Ok None
        | None => Ok None
        end;
  status <- Py.getitem inv "status";
  ty <- Py.getitem inv "invoice_type";
  Ok {| amt := amt; ret := ret; gl := gl;
        is_paid := bool_decide (status = "paid");
        invoice_type := ty |}.

(** [if gl:] holds for an account number other than zero. *)
Definition gl_set (gl : option Z) : option Z :=
  match gl with
  | Some g => if decide (g = 0) then None else Some g
  | None => None
  end.

Definition project (i : invoice) (gl_balances : gmap Z F) : gmap Z F :=
  if decide (invoice_type i = "receivable") then
    let net_ar := fsub (amt i) (ret i) in
    let b := post 1010 net_ar gl_balances in
    let b := if flt fzero (ret i) then post 1020 (ret i) b else b in
    let b := match gl_set (gl i) with
             | Some g => unpost g (amt i) b
             | None => b
             end in
    if is_paid i then unpost 1010 net_ar (post 1000 net_ar b) else b
  else if decide (invoice_type i = "payable") then
    let net_ap := fsub (amt i) (ret i) in
    let b := match gl_set (gl i) with
             | Some g => post g (amt i) gl_balances
             | None => gl_balances
             end in
    let b := unpost 2000 net_ap b in
    let b := if flt fzero (ret i) then unpost 2010 (ret i) b else b in
    if is_paid i then unpost 1000 net_ap (post 2000 net_ap b) else b
  else gl_balances.

Definition invoice_step (inv : row) (gl_balances : gmap Z F)
  : result (gmap Z F) :=
  i <- read_invoice inv;
  Ok (project i gl_balances).

(** Steps 2 and 3: the accumulator after the journal lines and the
    invoices. *)
Definition trial_balance (je_rows invoices : list row)
  : result (gmap Z F) :=
  gl_balances <- Py.for_each je_balance_step je_rows ∅;
  Py.for_each invoice_step invoices gl_balances.

(** *** 4. The printed trial balance *)

(** One turn of [for acct in sorted(gl_balances.keys())]; the state is
    the lines printed so far, [total_dr] and [total_cr]. *)
Definition tb_step (gl_balances : gmap Z F) (st : list line * F * F)
  (acct : Z) : list line * F * F :=
  let '(lines, total_dr, total_cr) := st in
  let bal := balance gl_balances acct in
  if flt (fabs bal) (of_dec 1 2) then st
  else
    let name := account_name acct in
    if flt fzero bal
    then (lines ++ [DebitRow acct name bal], fadd total_dr bal, total_cr)
    else (lines ++ [CreditRow acct name (fneg bal)],
          total_dr, fadd total_cr (fneg bal)).

Definition sorted_accounts (gl_balances : gmap Z F) : list Z :=
  merge_sort Z.le (elements (dom gl_balances)).

Definition tb_loop (gl_balances : gmap Z F) : list line * F * F :=
  foldl (tb_step gl_balances) ([], fzero, fzero)
        (sorted_accounts gl_balances).

Definition total_dr (gl_balances : gmap Z F) : F :=
  (tb_loop gl_balances).1.2.
Definition total_cr (gl_balances : gmap Z F) : F :=
  (tb_loop gl_balances).2.
Definition diff (gl_balances : gmap Z F) : F :=
  fsub (total_dr gl_balances) (total_cr gl_balances).

(** [abs(diff) < 1.0] *)
Definition balanced (gl_balances : gmap Z F) : bool :=
  flt (fabs (diff gl_balances)) (of_dec 10 1).

Definition trial_balance_report (gl_balances : gmap Z F) : list line :=
  [Text "TRIAL BALANCE (Estimated Post-Import)"; Rule "-";
   Text "Account  Name  Debit  Credit"; Rule "-"]
  ++ (tb_loop gl_balances).1.1
  ++ [Rule "-"; Totals (total_dr gl_balances) (total_cr gl_balances);
      Difference (diff gl_balances);
      if balanced gl_balances then BalanceOk
      else BalanceWarn (diff gl_balances)].

(** *** 5. Income statement summary *)

(** [for acct in range(4000, 5000): if acct in gl_balances:
    revenue += -gl_balances[acct]] *)
Definition revenue (gl_balances : gmap Z F) : F :=
  foldl (λ revenue acct,
           if decide (is_Some (gl_balances !! acct))
           then fadd revenue (fneg (balance gl_balances acct))
           else revenue)
        fzero (seqZ 4000 1000).

(** [for acct in range(5000, 8000): if acct in gl_balances:
    expenses += gl_balances[acct]] *)
Definition expenses (gl_balances : gmap Z F) : F :=
  foldl (λ expenses acct,
           if decide (is_Some (gl_balances !! acct))
           then fadd expenses (balance gl_balances acct)
           else expenses)
        fzero (seqZ 5000 3000).

Definition net_income (gl_balances : gmap Z F) : F :=
  fsub (revenue gl_balances) (expenses gl_balances).

(** [abs(net_income - target) < 100000] *)
Definition net_income_within_target (target : F) (gl_balances : gmap Z F)
  : bool :=
  flt (fabs (fsub (net_income gl_balances) target)) (of_dec 100000 0).

Definition income_statement_report (target : F) (gl_balances : gmap Z F)
  : list line :=
  let ni_diff := fsub (net_income gl_balances) target in
  [Text "INCOME STATEMENT SUMMARY (Estimated)"; Rule "-";
   TotalRevenue (revenue gl_balances);
   TotalExpenses (expenses gl_balances);
   NetIncome (net_income gl_balances);
   TargetNI target;
   if net_income_within_target target gl_balances
   then NetIncomeOk ni_diff else NetIncomeWarn ni_diff].

(** *** The whole function: the lines it prints, or the exception. *)
Definition verify_financials (je_rows invoices : list row)
  : result (list line) :=
  t <- je_totals je_rows;
  gl_balances <- trial_balance je_rows invoices;
  Ok ([Rule "="; Text "FINANCIAL VERIFICATION"; Rule "="]
      ++ (check_entries t).1
      ++ [balance_summary t]
      ++ trial_balance_report gl_balances
      ++ income_statement_report (of_dec Constants.NET_INCOME 0)
                                 gl_balances).

End verify_financials.

Arguments line F : clear implicits.
Arguments invoice F : clear implicits.

End Verify.

(** ** part07_financials.py *)

Module Financials.
Import Constants.

Local Open Scope Qc_scope.

(** *** [generate_journal_entries] *)

(** A line of a journal entry: (account, debit, credit, description). *)
Abbreviation je_line := (Z * Qc * Qc * string)%type.

Definition line_dr (l : je_line) : Qc := l.1.1.2.
Definition line_cr (l : je_line) : Qc := l.1.2.

(** [f"JE-{num:04d}"] *)
Definition entry_number (num : Z) : string :=
  "JE-" +:+ zfill 4 (Py.str num).

Definition je_row (num : Z) (je_date desc ref : string) (l : je_line)
  : row :=
  let '(acct, dr, cr, ldesc) := l in
  list_to_map
    [("entry_number", entry_number num); ("entry_date", je_date);
     ("description", desc); ("reference", ref);
     ("account_number", Py.str acct);
     ("debit", fmt dr); ("credit", fmt cr);
     ("line_description", ldesc)].

Definition total_debit (lines : list je_line) : Qc :=
  sumQc (map line_dr lines).
Definition total_credit (lines : list je_line) : Qc :=
  sumQc (map line_cr lines).

(** The condition of the [assert] of [add_je]. *)
Definition je_balanced (lines : list je_line) : bool :=
  Qc_ltb (Qc_abs (total_debit lines - total_credit lines)) (Qc_of_dec 2 2).

(** [add_je]: the rows grow by one row per line, unless the assertion
    fails. *)
Definition add_je (num : Z) (je_date desc ref : string)
  (lines : list je_line) (rows : list row) : result (list row) :=
  if je_balanced lines
  then Ok (rows ++ map (je_row num je_date desc ref) lines)
  else Raise (AssertionError (entry_number num +:+ " unbalanced")).

(** The generator state: [rows] and [je_num]. *)
Abbreviation je_state := (list row * Z)%type.

(** [add_je(je_num, ...); je_num += 1] *)
Definition emit (je_date desc ref : string) (lines : list je_line)
  (st : je_state) : result je_state :=
  rows <- add_je st.2 je_date desc ref lines st.1;
  Ok (rows, (st.2 + 1)%Z).

(** The opening balance lines, before the plug. *)
Definition ob_line (e : Z * Z) : list je_line :=
  let '(acct, bal) := e in
  if decide (acct ∈ [1010; 1020; 2000; 2010]%Z) then []
  else if decide (0 < bal)%Z then
    [(acct, Qc_of_Z bal, 0, "Opening balance account " +:+ Py.str acct)]
  else if decide (bal < 0)%Z then
    [(acct, 0, Qc_of_Z (- bal), "Opening balance account " +:+ Py.str acct)]
  else [].

(** The order of [sorted] on (account, balance) pairs. *)
Definition item_le (a b : Z * Z) : Prop :=
  (a.1 < b.1 ∨ (a.1 = b.1 ∧ a.2 ≤ b.2))%Z.

#[local] Instance item_le_dec a b : Decision (item_le a b).
Proof. unfold item_le. apply _. Defined.

Definition ob_lines : list je_line :=
  mbind ob_line (merge_sort item_le OB).

Definition plug (lines : list je_line) : Qc :=
  total_debit lines - total_credit lines.

Definition with_plug (lines : list je_line) : list je_line :=
  let p := plug lines in
  if Qc_ltb 0 p then
    lines ++ [(3010%Z, 0, p, "Opening balance plug - AR/AP via invoices")]
  else if Qc_ltb p 0 then
    lines ++ [(3010%Z, - p, 0, "Opening balance plug - AR/AP via invoices")]
  else lines.

Definition monthly_rev_totals : list Z :=
  zip_with Z.add AIRPORT_MONTHLY_REV CONDO_MONTHLY_REV.

(** [{acct: allocate_to_months(annual, weights) for acct, (name, annual)
    in table.items()}] *)
Definition allocate_table (table : list (Z * (string * Z)))
  (weights : list Z) : result (list (Z * list Qc)) :=
  Py.for_each
    (λ '(acct, (_, annual)) acc,
       m <- allocate_to_months annual weights;
       Ok (acc ++ [(acct, m)]))
    table [].

(** [table[acct][mi]] *)
Definition monthly (table : list (Z * list Qc)) (acct : Z) (mi : nat)
  : result Qc :=
  m <- Py.item table acct;
  Py.index m mi.

(** The lines [(acct, amt, 0, name)] of the accounts with a positive
    amount in month [mi], and their total. *)
Definition expense_lines (names : list (Z * (string * Z)))
  (table : list (Z * list Qc)) (mi : nat) (accts : list Z)
  : result (list je_line * Qc) :=
  Py.for_each
    (λ acct '(lines, total),
       amt <- monthly table acct mi;
       if Qc_ltb 0 amt then
         n <- Py.item names acct;
         Ok (lines ++ [(acct, amt, 0, n.1)], total + amt)
       else Ok (lines, total))
    accts ([], 0).

Record allocations : Type := {
  monthly_direct_costs : list (Z * list Qc);
  monthly_prop_mgmt : list (Z * list Qc);
  monthly_overhead : list (Z * list Qc);
  monthly_depreciation : list Qc;
  monthly_interest : list Qc
}.

Definition allocate_all : result allocations :=
  dc <- allocate_table DIRECT_COST_ACCOUNTS monthly_rev_totals;
  pm <- allocate_table PROPERTY_MGMT_ACCOUNTS (replicate 12 1%Z);
  oh <- allocate_table OVERHEAD_ACCOUNTS (replicate 12 1%Z);
  dep <- allocate_to_months DEPRECIATION (replicate 12 1%Z);
  int <- allocate_to_months INTEREST_EXPENSE (replicate 12 1%Z);
  Ok {| monthly_direct_costs := dc; monthly_prop_mgmt := pm;
        monthly_overhead := oh; monthly_depreciation := dep;
        monthly_interest := int |}.

(** The entries of month [mi] (from 0). *)
Definition month_entries (a : allocations) (mi : nat) (st : je_state)
  : result je_state :=
  d <- Py.index MONTH_ENDS mi;
  mname <- Py.index MONTH_NAMES mi;
  mnum <- Py.index MONTHS mi;
  (* 1. payroll accrual *)
  direct_labor <- monthly (monthly_direct_costs a) 5200 mi;
  direct_tax <- monthly (monthly_direct_costs a) 5210 mi;
  ga_salaries <- monthly (monthly_overhead a) 6000 mi;
  ga_tax <- monthly (monthly_overhead a) 6010 mi;
  let total_payroll := direct_labor + direct_tax + ga_salaries + ga_tax in
  st <- emit d ("Payroll Accrual " +:+ mname +:+ " 2025")
          ("PR-2025-" +:+ mnum)
          [(5200%Z, direct_labor, 0, "Direct labor - field crews");
           (5210%Z, direct_tax, 0, "Direct labor payroll taxes");
           (6000%Z, ga_salaries, 0, "Officer & admin salaries");
           (6010%Z, ga_tax, 0, "G&A payroll taxes & benefits");
           (2020%Z, 0, total_payroll, "Accrued payroll")] st;
  (* 2. payroll disbursement *)
  st <- emit d ("Payroll Disbursement " +:+ mname +:+ " 2025")
          ("PR-DISB-2025-" +:+ mnum)
          [(2020%Z, total_payroll, 0, "Clear accrued payroll");
           (1000%Z, 0, total_payroll, "Cash disbursement - payroll")] st;
  (* 3. overhead expenses *)
  oh <- expense_lines OVERHEAD_ACCOUNTS (monthly_overhead a) mi
          [6020; 6030; 6040; 6050; 6060; 6070; 6080]%Z;
  st <- emit d ("G&A Overhead Expenses " +:+ mname +:+ " 2025")
          ("OH-2025-" +:+ mnum)
          (oh.1 ++ [(1000%Z, 0, oh.2, "Cash - overhead expenses")]) st;
  (* 4. rental income *)
  rent <- Py.index RENTAL_MONTHLY mi;
  st <- (if decide (0 < rent)%Z then
           emit d ("Rental Income Collection " +:+ mname +:+ " 2025")
             ("RENT-2025-" +:+ mnum)
             [(1000%Z, Qc_of_Z rent, 0, "Cash received - tenant rent");
              (4100%Z, 0, Qc_of_Z rent, "Rental income - Pinnacle Bay")] st
         else Ok st);
  (* 5. property management expenses *)
  pm <- expense_lines PROPERTY_MGMT_ACCOUNTS (monthly_prop_mgmt a) mi
          (merge_sort Z.le (PROPERTY_MGMT_ACCOUNTS.*1));
  st <- emit d ("Property Management Expenses " +:+ mname +:+ " 2025")
          ("PM-2025-" +:+ mnum)
          (pm.1 ++ [(1000%Z, 0, pm.2,
                     "Cash - property management expenses")]) st;
  (* 6. depreciation, at the end of each quarter; the slice
     [mi-2:mi+1] is taken for [2 <= mi] only *)
  st <- (if decide ((mi + 1) mod 3 = 0)%nat then
           let dep := sumQc (take 3 (drop (mi - 2)
                                        (monthly_depreciation a))) in
           let equip_dep := round2 (dep * Qc_of_dec 6 1) in
           let bldg_dep := round2 (dep - equip_dep) in
           let q := Py.str (Z.of_nat ((mi + 1) / 3)) in
           emit d ("Depreciation Q" +:+ q +:+ " 2025")
             ("DEP-2025-Q" +:+ q)
             [(6100%Z, equip_dep, 0, "Depreciation expense - equipment");
              (6110%Z, bldg_dep, 0, "Depreciation expense - buildings");
              (1110%Z, 0, equip_dep,
               "Accumulated depreciation - equipment");
              (1130%Z, 0, bldg_dep,
               "Accumulated depreciation - buildings")] st
         else Ok st);
  (* 7. interest expense *)
  interest <- Py.index (monthly_interest a) mi;
  if Qc_ltb 0 interest then
    emit d ("Interest Expense " +:+ mname +:+ " 2025")
      ("INT-2025-" +:+ mnum)
      [(7000%Z, interest, 0, "Interest expense");
       (1000%Z, 0, interest, "Cash - interest payments")] st
  else Ok st.

(** The equipment operations entry of month [mi]. *)
Definition equipment_entry (a : allocations) (mi : nat) (st : je_state)
  : result je_state :=
  d <- Py.index MONTH_ENDS mi;
  mname <- Py.index MONTH_NAMES mi;
  mnum <- Py.index MONTHS mi;
  amt <- monthly (monthly_direct_costs a) 5300 mi;
  if Qc_ltb 0 amt then
    emit d ("Equipment Operations Costs " +:+ mname +:+ " 2025")
      ("EQ-OPS-2025-" +:+ mnum)
      [(5300%Z, amt, 0, "Equipment operations & fuel");
       (1000%Z, 0, amt, "Cash - equipment costs")] st
  else Ok st.

(** The generator, with its state: the rows and [je_num]. *)
Definition journal_entries : result je_state :=
  st <- emit "2025-01-01"
          "Opening Balance - Pinnacle Pacific Builders 2025" "OB-2025"
          (with_plug ob_lines) ([], 1%Z);
  a <- allocate_all;
  st <- Py.for_each (month_entries a) (seq 0 12) st;
  st <- emit "2025-12-31" "Change Order Revenue Recognition FY2025"
          "CO-REV-2025"
          [(1030%Z, Qc_of_Z 8500000, 0,
            "Costs in excess - approved change orders");
           (4200%Z, 0, Qc_of_Z 8500000,
            "Change order revenue recognized")] st;
  Py.for_each (equipment_entry a) (seq 0 12) st.

Definition generate_journal_entries : result (list row) :=
  st <- journal_entries;
  Ok st.1.

(** *** [generate_invoices] *)

(** Calendar dates, for [date.fromisoformat(d) + timedelta(days=30)]. *)
Definition days_in_month (y m : Z) : Z :=
  if decide (m = 2)%Z then
    if decide ((y mod 4 = 0 ∧ y mod 100 ≠ 0) ∨ y mod 400 = 0)%Z
    then 29%Z else 28%Z
  else if decide (m ∈ [4; 6; 9; 11]%Z) then 30%Z else 31%Z.

Definition next_day (dt : Z * Z * Z) : Z * Z * Z :=
  let '(y, m, d) := dt in
  if decide (d < days_in_month y m)%Z then (y, m, (d + 1)%Z)
  else if decide (m < 12)%Z then (y, (m + 1)%Z, 1%Z)
  else ((y + 1)%Z, 1%Z, 1%Z).

Definition fromisoformat (s : string) : result (Z * Z * Z) :=
  y <- Py.int (substring 0 4 s);
  m <- Py.int (substring 5 2 s);
  d <- Py.int (substring 8 2 s);
  Ok (y, m, d).

Definition isoformat (dt : Z * Z * Z) : string :=
  let '(y, m, d) := dt in
  zfill 4 (Py.str y) +:+ "-" +:+ zfill 2 (Py.str m)
  +:+ "-" +:+ zfill 2 (Py.str d).

Definition due_in_30_days (d : string) : result string :=
  dt <- fromisoformat d;
  Ok (isoformat (Nat.iter 30 next_day dt)).

(** [sub in s] for strings. *)
Fixpoint contains (sub s : string) : bool :=
  String.prefix sub s ||
  match s with
  | EmptyString => false
  | String _ s' => contains sub s'
  end.

Definition invoice_row
  (number ty date amount due desc status vendor client project gl pct held
   : string) : row :=
  list_to_map
    [("invoice_number", number); ("invoice_type", ty);
     ("invoice_date", date); ("amount", amount); ("tax_amount", "0");
     ("due_date", due); ("description", desc); ("status", status);
     ("vendor_name", vendor); ("client_name", client);
     ("project_name", project); ("gl_account", gl);
     ("retainage_pct", pct); ("retainage_held", held)].

(** The generator state: [rows] and [inv_num]. *)
Abbreviation inv_state := (list row * Z)%type.

(** [rows.append(row); inv_num += 1], the row built from [inv_num]. *)
Definition push (mk : Z → row) (st : inv_state) : inv_state :=
  (st.1 ++ [mk st.2], (st.2 + 1)%Z).

Definition ob_recv : list (Z * string * string * string) :=
  [(18500000%Z, AIRPORT_client, AIRPORT_name,
    "Prior year Progress Billing #18 - Terminal foundation");
   (12400000%Z, AIRPORT_client, AIRPORT_name,
    "Prior year Progress Billing #19 - Deep foundations");
   (8200000%Z, CONDO_client, CONDO_name,
    "Prior year Progress Billing #22 - Tower structure floors 3-18");
   (5600000%Z, CONDO_client, CONDO_name,
    "Prior year Progress Billing #23 - MEP rough-in lower floors")].

Definition ob_recv_row (e : Z * string * string * string) (inv_num : Z)
  : row :=
  let '(amt, client, proj, desc) := e in
  invoice_row ("INV-OB-R" +:+ zfill 3 (Py.str inv_num)) "receivable"
    "2024-12-31" (Py.str amt) "2025-01-30" desc "paid" EmptyString client
    proj "3010" "0" "0".

Definition ob_pay : list (Z * string * string * string) :=
  [(8500000%Z, "Delgado Concrete Inc", AIRPORT_name,
    "Prior year Payment App #12 - Concrete foundation");
   (6200000%Z, "Morrison Steel Fabricators", AIRPORT_name,
    "Prior year Payment App #8 - Steel fabrication");
   (5800000%Z, "Austin Commercial LP", CONDO_name,
    "Prior year Payment App #15 - Tower structure");
   (4200000%Z, "Trinity Plumbing & Fire", CONDO_name,
    "Prior year Payment App #6 - MEP rough-in");
   (3400000%Z, "Lone Star MEP Services", AIRPORT_name,
    "Prior year Payment App #4 - MEP systems")].

Definition ob_pay_row (e : Z * string * string * string) (inv_num : Z)
  : row :=
  let '(amt, vendor, proj, desc) := e in
  invoice_row ("INV-OB-P" +:+ zfill 3 (Py.str inv_num)) "payable"
    "2024-12-31" (Py.str amt) "2025-01-30" desc "paid" vendor EmptyString
    proj "3010" "0" "0".

(** [str(round(amt * pct))] for a retainage rate written [pct / 100]. *)
Definition retainage (amt : Z) (pct : Z) : string :=
  Py.str (round_half_even (Qc_of_Z amt * Qc_of_dec pct 2)).

(** The progress billings of month [mi]. *)
Definition receivable_month (mi : nat) (st : inv_state) : result inv_state :=
  d <- Py.index MONTH_ENDS mi;
  mname <- Py.index MONTH_NAMES mi;
  amt <- Py.index AIRPORT_MONTHLY_REV mi;
  due <- due_in_30_days d;
  let st :=
    push (λ inv_num,
            invoice_row ("INV-R" +:+ zfill 3 (Py.str inv_num)) "receivable"
              d (Py.str amt) due
              ("Progress Billing #" +:+ Py.str (Z.of_nat mi + 20) +:+ " - "
               +:+ mname +:+ " 2025 - DFW Terminal 6")
              (if decide (mi < 10)%nat then "paid" else "pending")
              EmptyString AIRPORT_client AIRPORT_name "4000" "5"
              (retainage amt 5)) st in
  amt <- Py.index CONDO_MONTHLY_REV mi;
  if decide (0 < amt)%Z then
    due <- due_in_30_days d;
    Ok (push (λ inv_num,
                invoice_row ("INV-R" +:+ zfill 3 (Py.str inv_num))
                  "receivable" d (Py.str amt) due
                  ("Progress Billing #" +:+ Py.str (Z.of_nat mi + 24)
                   +:+ " - " +:+ mname +:+ " 2025 - Pinnacle Bay")
                  (if decide (mi < 10)%nat then "paid" else "pending")
                  EmptyString CONDO_client CONDO_name "4010" "10"
                  (retainage amt 10)) st)
  else Ok st.

(** (vendor name, account, share) *)
Abbreviation vendor := (string * Z * Qc)%type.

Definition vendor_splits : list vendor :=
  [("Delgado Concrete Inc", 5000%Z, Qc_of_dec 22 2);
   ("Morrison Steel Fabricators", 5030%Z, Qc_of_dec 8 2);
   ("Lone Star MEP Services", 5010%Z, Qc_of_dec 19 2);
   ("Southwest Curtain Wall", 5030%Z, Qc_of_dec 4 2);
   ("DFW Electric Co", 5010%Z, Qc_of_dec 6 2);
   ("Austin Commercial LP", 5000%Z, Qc_of_dec 14 2);
   ("Trinity Plumbing & Fire", 5010%Z, Qc_of_dec 6 2);
   ("Dallas Glass & Glazing", 5030%Z, Qc_of_dec 3 2);
   ("Texas Drywall & Acoustics", 5120%Z, Qc_of_dec 2 2);
   ("Crossland Heavy Civil", 5020%Z, Qc_of_dec 4 2);
   ("Vulcan Materials DFW", 5100%Z, Qc_of_dec 5 2);
   ("CEMEX Texas Operations", 5100%Z, Qc_of_dec 4 2);
   ("HD Supply Waterworks", 5130%Z, Qc_of_dec 3 2)].

Definition INVOICE_DIRECT_TOTAL : Z :=
  (TOTAL_DIRECT - 6500000 - 1300000 - 2700000)%Z.

(** The draws the function takes from the module [random]: in month
    [mi], [sample mi] is the result of
    [random.sample(vendor_splits, random.randint(4, 5))], and
    [coin mi k] that of [random.random() < 0.4] at the vendor in
    position [k] of it. *)
Record draws : Type := {
  sample : nat → list vendor;
  coin : nat → nat → bool
}.

(** What [random.sample] and [random.randint] guarantee. *)
Definition sample_ok (selected : list vendor) : Prop :=
  selected ⊆ vendor_splits ∧ NoDup selected
  ∧ (length selected = 4 ∨ length selected = 5)%nat.

(** One turn of [for vendor_name, gl_acct, pct in selected]. *)
Definition payable_vendor (rnd : draws) (mi : nat) (d mname : string)
  (month_total total_pct : Qc) (kv : nat * vendor) (st : inv_state)
  : result inv_state :=
  let '(k, (vendor_name, gl_acct, pct)) := kv in
  if decide (total_pct = 0) then Raise ZeroDivisionError
  else
    let amt := round_half_even (month_total * pct / total_pct) in
    if decide (amt < 10000)%Z then Ok st
    else
      let proj :=
        if bool_decide (gl_acct ∈ [5010; 5020]%Z)
           || contains "DFW" vendor_name
           || contains "Crossland" vendor_name
        then AIRPORT_name else CONDO_name in
      let proj :=
        if coin rnd mi k then
          if decide (proj = AIRPORT_name) then CONDO_name else AIRPORT_name
        else proj in
      due <- due_in_30_days d;
      Ok (push (λ inv_num,
                  invoice_row ("INV-P" +:+ zfill 3 (Py.str inv_num))
                    "payable" d (Py.str amt) due
                    ("Payment Application - " +:+ mname +:+ " 2025 - "
                     +:+ vendor_name)
                    (if decide (mi < 10)%nat then "paid" else "approved")
                    vendor_name EmptyString proj (Py.str gl_acct) "5"
                    (retainage amt 5)) st).

(** The subcontractor payments of month [mi]. *)
Definition payable_month (rnd : draws) (monthly_direct : list Qc)
  (mi : nat) (st : inv_state) : result inv_state :=
  d <- Py.index MONTH_ENDS mi;
  mname <- Py.index MONTH_NAMES mi;
  month_total <- Py.index monthly_direct mi;
  let selected := sample rnd mi in
  let total_pct := sumQc (map (λ s : vendor, s.2) selected) in
  Py.for_each (payable_vendor rnd mi d mname month_total total_pct)
              (zip (seq 0 (length selected)) selected) st.

Definition invoices (rnd : draws) : result inv_state :=
  let st := foldl (λ st e, push (ob_recv_row e) st) ([], 1%Z) ob_recv in
  let st := foldl (λ st e, push (ob_pay_row e) st) st ob_pay in
  st <- Py.for_each receivable_month (seq 0 12) st;
  monthly_direct <- allocate_to_months INVOICE_DIRECT_TOTAL
                      monthly_rev_totals;
  Py.for_each (payable_month rnd monthly_direct) (seq 0 12) st.

Definition generate_invoices (rnd : draws) : result (list row) :=
  st <- invoices rnd;
  Ok st.1.

End Financials.

(** ** Vocabulary of the specification *)

Module Spec.
Import Verify.

Section postings.
Context {F : Type} {AF : Arith F}.

(** "account += v" and "account -= v" on the optional balance of one
    account, applied when [c] holds; an account never posted to has
    balance zero. *)
Definition increase_if (c : bool) (v : F) (b : option F) : option F :=
  if c then Some (fadd (default fzero b) v) else b.

Definition decrease_if (c : bool) (v : F) (b : option F) : option F :=
  if c then Some (fsub (default fzero b) v) else b.

(** [gl_account] holds the account [acct], and [acct] is not zero. *)
Definition gl_is (i : invoice F) (acct : Z) : bool :=
  bool_decide (gl i = Some acct ∧ acct ≠ 0).
End postings.

(** The invoices of section 8 of the specification. *)
Definition receivable_example : row :=
  list_to_map
    [("invoice_type", "receivable"); ("amount", "100");
     ("retainage_pct", "5"); ("retainage_held", "5");
     ("status", "paid"); ("gl_account", "4000")].

Definition payable_example : row :=
  list_to_map
    [("invoice_type", "payable"); ("amount", "200");
     ("retainage_held", "10"); ("status", "approved");
     ("gl_account", "5000")].

(** The local variables of the loop body at these two invoices. *)
Definition receivable_example_read : invoice Qc :=
  {| amt := of_dec 100 0; ret := of_dec 5 0; gl := Some 4000;
     is_paid := true; invoice_type := "receivable" |}.

Definition payable_example_read : invoice Qc :=
  {| amt := of_dec 200 0; ret := of_dec 10 0; gl := Some 5000;
     is_paid := false; invoice_type := "payable" |}.

(** A receivable invoice posted to account number 0. *)
Definition receivable_gl_zero : row :=
  list_to_map
    [("invoice_type", "receivable"); ("amount", "100");
     ("retainage_held", "0"); ("status", "pending");
     ("gl_account", "0")].

(** A payable invoice posted to account number 0. *)
Definition payable_gl_zero : row :=
  list_to_map
    [("invoice_type", "payable"); ("amount", "100");
     ("retainage_held", "0"); ("status", "approved");
     ("gl_account", "0")].

(** A receivable invoice without retainage, posted to account 1020. *)
Definition receivable_gl_1020 : row :=
  list_to_map
    [("invoice_type", "receivable"); ("amount", "100");
     ("retainage_held", "0"); ("status", "pending");
     ("gl_account", "1020")].

(** An opening receivable without gl_account. *)
Definition receivable_no_gl : invoice Qc :=
  {| amt := of_dec 100 0; ret := of_dec 0 0; gl := None;
     is_paid := false; invoice_type := "receivable" |}.

(** *** Well-formed records (section 3 of the specification) *)

(** A decimal literal, an integer literal. *)
Definition numeric (s : string) : Prop :=
  is_Some (Py.decimal_of_string s).
Definition integer (s : string) : Prop :=
  is_Some (NilZero.int_of_string s) ∧ (String.length s ≤ 4300)%nat.

(** A debit or credit cell: present, and empty or a decimal. *)
Definition amount_cell (c : option string) : Prop :=
  ∃ s, c = Some s ∧ (Py.truthy s = false ∨ numeric s).

Definition journal_line_ok (r : row) : Prop :=
  is_Some (r !! "entry_number")
  ∧ (∃ a, r !! "account_number" = Some a ∧ integer a)
  ∧ amount_cell (r !! "debit")
  ∧ amount_cell (r !! "credit").

(** An invoice: a decimal amount; retainage_held and gl_account absent,
    empty, or a decimal and an integer; a status and a type. *)
Definition invoice_ok (inv : row) : Prop :=
  (∃ a, inv !! "amount" = Some a ∧ numeric a)
  ∧ (∀ s, inv !! "retainage_held" = Some s →
          Py.truthy s = false ∨ numeric s)
  ∧ (∀ s, inv !! "gl_account" = Some s → Py.truthy s = false ∨ integer s)
  ∧ is_Some (inv !! "status")
  ∧ is_Some (inv !! "invoice_type").

(** A journal whose only entry is out of balance, and the invoice of the
    first example: all three warnings fire. *)
Definition unbalanced_line : row :=
  list_to_map
    [("entry_number", "JE-0001"); ("account_number", "1000");
     ("debit", "500.00"); ("credit", EmptyString)].

(** *** Sums over an accumulator, in exact arithmetic *)

(** The postings of one invoice, as (account, signed amount) pairs in
    the order of the code. *)
Definition postings (i : invoice Qc) : list (Z * Qc) :=
  let net := (amt i - ret i)%Qc in
  if decide (invoice_type i = "receivable") then
    [(1010, net)]
    ++ (if flt fzero (ret i) then [(1020, ret i)] else [])
    ++ match gl_set (gl i) with
       | Some g => [(g, (- amt i)%Qc)]
       | None => []
       end
    ++ (if is_paid i then [(1000, net); (1010, (- net)%Qc)] else [])
  else if decide (invoice_type i = "payable") then
    match gl_set (gl i) with
    | Some g => [(g, amt i)]
    | None => []
    end
    ++ [(2000, (- net)%Qc)]
    ++ (if flt fzero (ret i) then [(2010, (- ret i)%Qc)] else [])
    ++ (if is_paid i then [(2000, net); (1000, (- net)%Qc)] else [])
  else [].

(** Posting a list of pairs, first to last. *)
Definition post_all (ps : list (Z * Qc)) (gl_balances : gmap Z Qc)
  : gmap Z Qc :=
  foldl (λ b p, post p.1 p.2 b) gl_balances ps.

(** The sum of all balances. *)
Definition sum_balances (gl_balances : gmap Z Qc) : Qc :=
  Constants.sumQc (map_to_list gl_balances).*2.

(** Two runs end alike: with equal accumulators, or both with an
    exception. *)
Definition same_outcome {A} (r1 r2 : result A) : Prop :=
  match r1, r2 with
  | Ok a, Ok b => a = b
  | Raise _, Raise _ => True
  | _, _ => False
  end.

(** The projector run twice, each time from a fresh accumulator. *)
Definition project_twice (invoices : list row)
  : result (gmap Z Qc * gmap Z Qc) :=
  b1 <- Py.for_each invoice_step invoices ∅;
  b2 <- Py.for_each invoice_step invoices ∅;
  Ok (b1, b2).

(** Two invoices to permute. *)
Definition two_invoices : list row :=
  [receivable_example; payable_example].

(** *** The balance checker, in the words of the specification *)

(** A journal line as the checker reads it: entry number, debit, credit. *)
Abbreviation je_reading := (string * (Qc * Qc))%type.

Definition read_je_line (r : row) : result je_reading :=
  dr <- float_or_zero r "debit";
  cr <- float_or_zero r "credit";
  k <- Py.getitem r "entry_number";
  Ok (k, (dr, cr)).

(** Reads every element of a list, up to the first exception. *)
Fixpoint read_all {A B} (f : A → result B) (l : list A) : result (list B) :=
  match l with
  | [] => Ok []
  | x :: l' => y <- f x; ys <- read_all f l'; Ok (y :: ys)
  end.

(** The sum of the debit amounts and of the credit amounts of the lines
of one entry. *)
Definition entry_debits (id : string) (ls : list je_reading) : Qc :=
  Constants.sumQc ((λ l : je_reading, l.2.1)
                   <$> filter (λ l : je_reading, l.1 = id) ls).

Definition entry_credits (id : string) (ls : list je_reading) : Qc :=
  Constants.sumQc ((λ l : je_reading, l.2.2)
                   <$> filter (λ l : je_reading, l.1 = id) ls).

(** The entry identifiers that occur, each once. *)
Definition entry_ids (ls : list je_reading) : list string :=
  remove_dups ls.*1.

(** The number of entry identifiers with |total_debit - total_credit|
above 0.02. *)
Definition unbalanced_ids (ls : list je_reading) : list string :=
  filter (λ id, out_of_balance (entry_debits id ls) (entry_credits id ls)
                = true)
         (entry_ids ls).

(** The pair of totals that [je_totals] holds for an entry. *)
Fixpoint totals_of (id : string) (t : list (string * (Qc * Qc)))
  : option (Qc * Qc) :=
  match t with
  | [] => None
  | (k, p) :: t' => if decide (k = id) then Some p else totals_of id t'
  end.

(** The totals after the lines [ls], from the totals [t]. *)
Definition tally (t : list (string * (Qc * Qc))) (ls : list je_reading)
  : list (string * (Qc * Qc)) :=
  foldl (λ t l, totals_add l.1 l.2.1 l.2.2 t) t ls.

(** Two lines of one balanced entry, to permute. *)
Definition balanced_lines : list row :=
  [list_to_map [("entry_number", "JE-0007"); ("account_number", "6020");
                ("debit", "90000.00"); ("credit", EmptyString)];
   list_to_map [("entry_number", "JE-0007"); ("account_number", "1000");
                ("debit", EmptyString); ("credit", "90000.00")]].

(** *** The reporter, in the words of the specification *)

(** The balances of an accumulator, and those with the account number
in a range. *)
Definition balances_of (gl_balances : gmap Z Qc) : list Qc :=
  (map_to_list gl_balances).*2.

Definition balances_in (lo hi : Z) (gl_balances : gmap Z Qc) : list Qc :=
  (filter (λ e : Z * Qc, lo ≤ e.1 ≤ hi) (map_to_list gl_balances)).*2.

(** The balances the trial balance prints: those at least 0.01 away from
zero. *)
Definition printed (gl_balances : gmap Z Qc) : list Qc :=
  filter (λ b : Qc, ¬ (Qc_abs b < Qc_of_dec 1 2)%Qc) (balances_of gl_balances).

(** The total of the positive (debit) balances, and the total of the
absolute values of the negative (credit) balances. *)
Definition positive_total (bs : list Qc) : Qc :=
  Constants.sumQc (filter (λ b : Qc, (0 < b)%Qc) bs).

Definition negative_total (bs : list Qc) : Qc :=
  Constants.sumQc (Qc_abs <$> filter (λ b : Qc, (b < 0)%Qc) bs).

(** What one balance adds to [total_dr] and to [total_cr]. *)
Definition debit_part (b : Qc) : Qc :=
  if Qc_ltb (Qc_abs b) (Qc_of_dec 1 2) then 0%Qc
  else if Qc_ltb 0%Qc b then b else 0%Qc.

Definition credit_part (b : Qc) : Qc :=
  if Qc_ltb (Qc_abs b) (Qc_of_dec 1 2) then 0%Qc
  else if Qc_ltb 0%Qc b then 0%Qc else (- b)%Qc.

(** An accumulator with five dollars in account 1000. *)
Definition five_in_cash : gmap Z Qc := {[ 1000 := Qc_of_dec 5 0 ]}.

(** Accumulators on which the claim C4 fails: one balance of half a cent;
two hundred balances of 0.009. *)
Definition half_cent : gmap Z Qc := {[ 1000 := Qc_of_dec 5 3 ]}.

Definition many_small : gmap Z Qc :=
  list_to_map ((λ k : Z, (k, Qc_of_dec 9 3)) <$> seqZ 1 200).

(** *** The generated journal *)

(** The rows [generate_journal_entries] returns, their totals by entry and
the accumulator they give. *)
Definition generated_journal : list row :=
  Py.value_or [] Financials.generate_journal_entries.

Definition generated_totals : list (string * (Qc * Qc)) :=
  Py.value_or [] (je_totals generated_journal).

Definition journal_balances : gmap Z Qc :=
  Py.value_or ∅ (Py.for_each je_balance_step generated_journal ∅).

(** *** The generated invoices *)

(** An invoice whose postings add up to zero. *)
Definition neutral (inv : row) : Prop :=
  ∃ i : invoice Qc,
    read_invoice inv = Ok i ∧ Constants.sumQc (postings i).*2 = 0%Qc.

Definition neutralb (inv : row) : bool :=
  match read_invoice (F:=Qc) inv with
  | Ok i => Qeq_bool (Constants.sumQc (postings i).*2) 0
  | Raise _ => false
  end.

(** The state of [generate_invoices] before the opening balance loops,
after them, and after the loop of the progress billings; the monthly
totals of the subcontractor payments. *)
Definition opening_state : Financials.inv_state :=
  foldl (λ st e, Financials.push (Financials.ob_pay_row e) st)
    (foldl (λ st e, Financials.push (Financials.ob_recv_row e) st)
       ([], 1) Financials.ob_recv)
    Financials.ob_pay.

Definition receivables_state : Financials.inv_state :=
  Py.value_or ([], 0)
    (Py.for_each Financials.receivable_month (seq 0 12) opening_state).

Definition monthly_direct : list Qc :=
  Py.value_or []
    (Constants.allocate_to_months Financials.INVOICE_DIRECT_TOTAL
       Financials.monthly_rev_totals).

(** Draws to run the generator on: the first four or five vendors, and a
coin that alternates. *)
Definition first_vendors : Financials.draws :=
  {| Financials.sample := λ mi,
       take (4 + mi mod 2) Financials.vendor_splits;
     Financials.coin := λ mi k, Nat.even (mi + k) |}.

(** [int] reads an account number back from its print. *)
Definition reads_back (g : Z) : bool :=
  match Py.int (Py.str g) with
  | Ok g' => bool_decide (g' = g)
  | Raise _ => false
  end.

(** Debits equal credits, as a test. *)
Definition debits_eq_credits (e : string * (Qc * Qc)) : bool :=
  Qeq_bool e.2.1 e.2.2.

End Spec.

(** ** Vocabulary of the further properties *)

Module Props.
Import Verify Spec Constants Financials.

Section allocation.
Local Open Scope Qc_scope.

(** A whole number of cents. *)
Definition cents (x : Qc) : Prop := ∃ z : Z, x = Qc_of_dec z 2.

(** The share of each of the first eleven months. *)
Definition share (annual total_w w : Z) : Qc :=
  round2 (Qc_of_Z (annual * w) / Qc_of_Z total_w).

End allocation.

Section formatting.
Import Decimal.

Definition zeros (k : nat) : string :=
  string_of_list_ascii (replicate k "0"%char).

Definition two_digits_ok (r : Z) : bool :=
  match NilZero.uint_of_string (zfill 2 (Py.str r)) with
  | Some u => bool_decide (Z.of_uint u = r)
              && bool_decide (String.length (zfill 2 (Py.str r)) = 2%nat)
  | None => false
  end.

End formatting.

Section journal_rows.
Local Open Scope Qc_scope.

(** Two lines of five dollars. *)
Definition two_lines : list je_line :=
  [(1000%Z, Qc_of_dec 500 2, 0, "Cash"); (4100%Z, 0, Qc_of_dec 500 2, "Rent")].

End journal_rows.

(** A credit memo: an invoice of a type the verifier does not know. *)
Definition credit_memo : row :=
  list_to_map
    [("invoice_type", "credit_memo"); ("amount", "100");
     ("status", "paid"); ("gl_account", "4000")].

(** What one invoice adds to the sum of all balances. *)
Definition imbalance (i : invoice Qc) : Qc :=
  let unposted := match gl_set (gl i) with
                  | Some _ => 0%Qc
                  | None => amt i
                  end in
  let unheld := if Qc_ltb 0 (ret i) then 0%Qc else ret i in
  if decide (invoice_type i = "receivable") then (unposted - unheld)%Qc
  else if decide (invoice_type i = "payable") then (unheld - unposted)%Qc
  else 0%Qc.

(** The sum over the entries of debits minus credits. *)
Definition net_debits (t : list (string * (Qc * Qc))) : Qc :=
  sumQc ((λ e : string * (Qc * Qc), (e.2.1 - e.2.2)%Qc) <$> t).

Section report_rows.
Context {F : Type} {AF : Arith F}.

(** An account whose balance the trial balance prints: [abs(bal) < 0.01]
    does not hold. *)
Definition shown (gl_balances : gmap Z F) (acct : Z) : bool :=
  negb (flt (fabs (balance gl_balances acct)) (of_dec 1 2)).

(** The row printed for an account: the balance in the debit column when
    [bal > 0], else its opposite in the credit column. *)
Definition tb_row (gl_balances : gmap Z F) (acct : Z) : line F :=
  let bal := balance gl_balances acct in
  if flt fzero bal then DebitRow acct (account_name acct) bal
  else CreditRow acct (account_name acct) (fneg bal).

End report_rows.

Section payable_amounts.
Local Open Scope Qc_scope.

(** A payable invoice of the generator: its number, the account it is
    posted to and its amount, and what [verify_financials] reads in it. *)
Definition payable_invoice (number gl_acct amount : Z) (inv : row) : Prop :=
  inv !! "invoice_number" = Some ("INV-P" +:+ zfill 3 (Py.str number))
  ∧ inv !! "gl_account" = Some (Py.str gl_acct)
  ∧ inv !! "amount" = Some (Py.str amount)
  ∧ ∃ (held : Z) (paid : bool),
      (0 ≤ held)%Z
      ∧ read_invoice inv
        = Ok {| amt := Qc_of_Z amount; ret := Qc_of_Z held;
                gl := Some gl_acct; is_paid := paid;
                invoice_type := "payable" |}.

(** The number, the account and the amount of the payable invoices of one
    month, for the selected vendors and the first free invoice number. *)
Fixpoint payable_specs (number : Z) (M P : Qc) (selected : list vendor)
  : list (Z * Z * Z) :=
  match selected with
  | [] => []
  | v :: selected' =>
      (number, v.1.2, round_half_even (M * v.2 / P))
      :: payable_specs (number + 1) M P selected'
  end.

Definition is_payable (s : Z * Z * Z) (inv : row) : Prop :=
  payable_invoice s.1.1 s.1.2 s.2 inv.

(** The number of payable invoices of the first [i] months. *)
Definition payables_until (rnd : draws) (i : nat) : nat :=
  sum_list_with (λ mi, length (sample rnd mi)) (seq 0 i).

End payable_amounts.

Section ranges.
Local Open Scope Qc_scope.

(** The sum of the balances of the accounts from [lo] to [hi]. *)
Definition range_sum (lo hi : Z) (gl_balances : gmap Z Qc) : Qc :=
  sumQc (balances_in lo hi gl_balances).

(** The postings to the accounts of a range. *)
Definition posted_in (lo hi : Z) (ps : list (Z * Qc)) : Qc :=
  sumQc (filter (λ p : Z * Qc, (lo ≤ p.1 ≤ hi)%Z) ps).*2.

(** Every balance is a whole number of cents. *)
Definition all_cents (gl_balances : gmap Z Qc) : Prop :=
  ∀ k b, gl_balances !! k = Some b → cents b.

End ranges.

(** The accumulator after the journal lines, the opening balance invoices
    and the progress billings. *)
Definition receivables_balances : gmap Z Qc :=
  Py.value_or ∅
    (Py.for_each invoice_step receivables_state.1 journal_balances).

(** A whole number of cents, as a test. *)
Definition centsb (b : Qc) : bool := Qeq_bool (round2 b) b.

(** The prefixes of the invoice numbers. *)
Definition invoice_prefixes : list string :=
  ["INV-OB-R"; "INV-OB-P"; "INV-R"; "INV-P"].

(** The invoice in position [k] (from 0) has the number [k + 1]. *)
Definition numbered (k : nat) (inv : row) : Prop :=
  ∃ p, p ∈ invoice_prefixes
       ∧ inv !! "invoice_number"
         = Some (p +:+ zfill 3 (Py.str (Z.of_nat k + 1))).

Definition numberedb (k : nat) (inv : row) : bool :=
  bool_decide
    (inv !! "invoice_number"
     ∈ (λ p, Some (p +:+ zfill 3 (Py.str (Z.of_nat k + 1))))
       <$> invoice_prefixes).

(** The account an invoice is posted to is retained earnings, a contract
    revenue account or a direct cost account. *)
Definition posted_to_revenue_or_cost (inv : row) : Prop :=
  ∃ (i : invoice Qc) (g : Z),
    read_invoice inv = Ok i ∧ gl i = Some g
    ∧ (g ∈ [3010; 4000; 4010] ∨ 5000 ≤ g ≤ 5130).

Definition posted_to_revenue_or_costb (inv : row) : bool :=
  match read_invoice (F:=Qc) inv with
  | Ok i => match gl i with
            | Some g => bool_decide (g ∈ [3010; 4000; 4010])
            | None => false
            end
  | Raise _ => false
  end.

(** The accounts that the invoices drive: receivables, payables and the
    two retainage accounts. *)
Definition control_accounts : list Z := [1010; 1020; 2000; 2010].

(** A journal line on an account that is not a control account. *)
Definition off_control (r : row) : Prop :=
  ∃ a acct, r !! "account_number" = Some a ∧ Py.int a = Ok acct
            ∧ acct ∉ control_accounts.

Definition off_controlb (r : row) : bool :=
  match r !! "account_number" with
  | Some a => match Py.int a with
              | Ok acct => bool_decide (acct ∉ control_accounts)
              | Raise _ => false
              end
  | None => false
  end.

(** The order of [sorted] on the items of a cost table: tuples compare by
    the account number, then by the name, then by the amount. *)
Definition cost_item_leb (a b : Z * (string * Z)) : bool :=
  (a.1 <? b.1)
  || ((a.1 =? b.1)
      && (String.ltb a.2.1 b.2.1
          || (String.eqb a.2.1 b.2.1 && (a.2.2 <=? b.2.2)))).

Definition sorted_items (t : list (Z * (string * Z)))
  : list (Z * (string * Z)) :=
  merge_sort (λ a b, Is_true (cost_item_leb a b)) t.

(** [generate_chart_of_accounts] of part02_foundation.py; [add] is its
    local function, with the list it appends to as an argument. *)
Definition generate_chart_of_accounts : list row :=
  let add (num : Z) (name atype sub desc : string) (rows : list row)
    : list row :=
    rows ++ [list_to_map
               [("account_number", Py.str num); ("name", name);
                ("account_type", atype); ("sub_type", sub);
                ("description", desc)]] in
  let rows := [] in
  let rows := add 1000 "Cash & Equivalents"
                "asset" "Current Asset"
                "Operating cash and short-term deposits" rows in
  let rows := add 1010 "Accounts Receivable"
                "asset" "Current Asset"
                "Amounts owed by clients for completed work" rows in
  let rows := add 1020 "Retainage Receivable"
                "asset" "Current Asset"
                "Retainage withheld by owners on progress billings" rows in
  let rows := add 1030 "Costs in Excess of Billings"
                "asset" "Current Asset"
                "Under-billed construction costs" rows in
  let rows := add 1040 "Prepaid Expenses"
                "asset" "Current Asset"
                "Insurance premiums and prepaid items" rows in
  let rows := add 1050 "Rent Receivable"
                "asset" "Current Asset"
                "Tenant rent amounts due" rows in
  let rows := add 1100 "Equipment & Vehicles"
                "asset" "Fixed Asset"
                "Construction equipment and company vehicles" rows in
  let rows := add 1110 "Accumulated Depreciation - Equipment"
                "asset" "Fixed Asset"
                "Contra asset for equipment depreciation" rows in
  let rows := add 1120 "Buildings & Improvements"
                "asset" "Fixed Asset"
                "Owned buildings and tenant improvements" rows in
  let rows := add 1130 "Accumulated Depreciation - Buildings"
                "asset" "Fixed Asset"
                "Contra asset for building depreciation" rows in
  let rows := add 1200 "Land"
                "asset" "Fixed Asset"
                "Land held for development or operations" rows in
  let rows := add 1300 "Security Deposits - Held"
                "asset" "Other Asset"
                "Tenant security deposits held in escrow" rows in
  let rows := add 2000 "Accounts Payable"
                "liability" "Current Liability"
                "Amounts owed to subcontractors and vendors" rows in
  let rows := add 2010 "Retainage Payable"
                "liability" "Current Liability"
                "Retainage withheld from subcontractors" rows in
  let rows := add 2020 "Accrued Payroll"
                "liability" "Current Liability"
                "Wages and salaries earned but not yet paid" rows in
  let rows := add 2030 "Accrued Expenses"
                "liability" "Current Liability"
                "Other accrued liabilities" rows in
  let rows := add 2040 "Billings in Excess of Costs"
                "liability" "Current Liability"
                "Over-billed construction revenue" rows in
  let rows := add 2050 "Sales Tax Payable"
                "liability" "Current Liability"
                "Sales and use tax collected pending remittance" rows in
  let rows := add 2055 "Sales Tax Receivable"
                "asset" "Current Asset"
                "Input tax credits recoverable from vendors" rows in
  let rows := add 2060 "Deferred Rental Revenue"
                "liability" "Current Liability"
                "Prepaid rent from tenants" rows in
  let rows := add 2070 "Tenant Security Deposits Liability"
                "liability" "Current Liability"
                "Security deposits owed back to tenants" rows in
  let rows := add 2100 "Equipment Financing"
                "liability" "Long-Term Liability"
                "Loans on equipment purchases" rows in
  let rows := add 2200 "Construction Line of Credit"
                "liability" "Long-Term Liability"
                "Revolving credit facility for construction" rows in
  let rows := add 2210 "Mortgage Payable"
                "liability" "Long-Term Liability"
                "Mortgage on Pinnacle Bay property" rows in
  let rows := add 3000 "Owners Capital"
                "equity" "Equity"
                "Partner capital contributions" rows in
  let rows := add 3010 "Retained Earnings"
                "equity" "Equity"
                "Accumulated net income from prior years" rows in
  let rows := add 4000 "Contract Revenue - Airport"
                "revenue" "Operating Revenue"
                "Revenue from DFW Terminal 6 construction" rows in
  let rows := add 4010 "Contract Revenue - Condo Construction"
                "revenue" "Operating Revenue"
                "Revenue from Pinnacle Bay construction" rows in
  let rows := add 4100 "Rental Income"
                "revenue" "Operating Revenue"
                "Monthly rental income from leased units" rows in
  let rows := add 4110 "Late Fee Revenue"
                "revenue" "Other Revenue"
                "Late payment fees charged to tenants" rows in
  let rows := add 4200 "Change Order Revenue"
                "revenue" "Operating Revenue"
                "Approved change order billings" rows in
  let rows :=
    foldl (λ rows '(acct, (name, _)),
             add acct name "expense" "Direct Cost"
                 ("Direct construction cost - " +:+ name) rows)
          rows (sorted_items DIRECT_COST_ACCOUNTS) in
  let rows :=
    foldl (λ rows '(acct, (name, _)),
             add acct name "expense" "Operating Expense"
                 ("Property management - " +:+ name) rows)
          rows (sorted_items PROPERTY_MGMT_ACCOUNTS) in
  let rows :=
    foldl (λ rows '(acct, (name, _)),
             add acct name "expense" "Operating Expense"
                 ("General & administrative - " +:+ name) rows)
          rows (sorted_items OVERHEAD_ACCOUNTS) in
  let rows := add 6100 "Depreciation Expense - Equipment"
                "expense" "Operating Expense"
                "Monthly depreciation of equipment and vehicles" rows in
  let rows := add 6110 "Depreciation Expense - Buildings"
                "expense" "Operating Expense"
                "Monthly depreciation of buildings" rows in
  let rows := add 7000 "Interest Expense"
                "expense" "Other Expense"
                "Interest on debt and credit facilities" rows in
  let rows := add 7010 "Financing Costs"
                "expense" "Other Expense"
                "Loan origination fees and financing charges" rows in
  rows.

(** [generate_vendors] of part03_master_data.py. *)
Definition generate_vendors : list row :=
  let vendors : list (string * string * string * string * string * string) :=
    [
     ("Hensel Phelps Construction", "Travis", "McCormick",
      "travis.m@henselphelps.com", "817-555-1001", "Senior Estimator");
     ("Austin Commercial LP", "Derek", "Nolan",
      "dnolan@austincommercial.com", "512-555-1002", "Project Executive");
     ("Delgado Concrete Inc", "Frank", "Delgado",
      "frank@delgadoconcrete.com", "817-555-1003", "Owner");
     ("Morrison Steel Fabricators", "Janet", "Morrison",
      "janet@morrisonsteel.com", "214-555-1004", "VP Sales");
     ("Lone Star MEP Services", "Bradley", "Simmons",
      "bsimmons@lonestarmep.com", "972-555-1005", "Operations Manager");
     ("DFW Electric Co", "Pamela", "Roth",
      "proth@dfwelectric.com", "214-555-1006", "Commercial Manager");
     ("Trinity Plumbing & Fire", "Manuel", "Ochoa",
      "mochoa@trinityplumbing.com", "817-555-1007", "VP Construction");
     ("Kapoor Engineering", "Neil", "Kapoor",
      "neil@kapoorengineering.com", "817-555-1008", "Principal");
     ("Southwest Curtain Wall", "Robert", "Cheng",
      "rcheng@swcurtainwall.com", "972-555-1009", "Director");
     ("Dallas Glass & Glazing", "Tina", "Marks",
      "tmarks@dallasglass.com", "214-555-1010", "Sales Manager");
     ("Patriot Roofing Systems", "Wayne", "Harrell",
      "wharrell@patriotroofing.com", "817-555-1011", "President");
     ("Precision Elevator Co", "Sandra", "Lin",
      "slin@precisionelevator.com", "972-555-1012", "PM");
     ("Texas Drywall & Acoustics", "Larry", "Webb",
      "lwebb@txdrywall.com", "214-555-1013", "Estimator");
     ("Metro Painting Contractors", "Rosa", "Vega",
      "rvega@metropaint.com", "817-555-1014", "Owner");
     ("Alliance Flooring Group", "Keith", "Dunn",
      "kdunn@allianceflooring.com", "972-555-1015", "Commercial Sales");
     ("Crossland Heavy Civil", "Paul", "Strickland",
      "pstrickland@crosslandheavy.com", "817-555-1016", "VP Operations");
     ("Sunbelt Equipment Rental", "Donna", "Hayes",
      "dhayes@sunbelt.com", "972-555-1017", "Branch Manager");
     ("Vulcan Materials DFW", "Roger", "Pham",
      "rpham@vulcanmat.com", "214-555-1018", "Sales Rep");
     ("Martin Marietta Aggregates", "Lisa", "Frost",
      "lfrost@martinmarietta.com", "817-555-1019", "Account Manager");
     ("HD Supply Waterworks", "Craig", "Butler",
      "cbutler@hdsupply.com", "972-555-1020", "Outside Sales");
     ("Ferguson Enterprises", "Amy", "Ross",
      "aross@ferguson.com", "214-555-1021", "Commercial Specialist");
     ("Graybar Electric", "Jason", "Cole",
      "jcole@graybar.com", "817-555-1022", "Account Manager");
     ("White Cap Supply", "Maria", "Santos",
      "msantos@whitecap.com", "972-555-1023", "Branch Manager");
     ("United Rentals", "Scott", "Graham",
      "sgraham@unitedrentals.com", "214-555-1024", "Heavy Equipment");
     ("CEMEX Texas Operations", "Victor", "Luna",
      "vluna@cemex.com", "817-555-1025", "Sales Manager")
    ] in
  (λ '(company, first, last, email, phone, title),
     list_to_map
       [("company_name", company); ("first_name", first);
        ("last_name", last); ("email", email); ("phone", phone);
        ("job_title", title)] : row) <$> vendors.

(** The entries of the dicts [AIRPORT] and [CONDO] that
    [generate_projects] reads, besides the names and the clients. *)
Definition AIRPORT_code : string := "DFW-T6-2024".
Definition AIRPORT_client_email : string := "procurement@dfwairport.gov".
Definition AIRPORT_client_phone : string := "972-555-0100".
Definition AIRPORT_budget : Z := 480000000.
Definition AIRPORT_estimated_cost : Z := 445000000.
Definition AIRPORT_start : string := "2024-06-01".
Definition AIRPORT_end : string := "2027-12-31".
Definition AIRPORT_completion : Z := 35.
Definition AIRPORT_type : string := "Commercial".
Definition AIRPORT_address : string := "2400 Aviation Drive".
Definition AIRPORT_city : string := "Dallas".
Definition AIRPORT_state : string := "TX".
Definition AIRPORT_zip : string := "75261".

Definition CONDO_code : string := "PBC-2023".
Definition CONDO_client_email : string := "dev@pinnaclebay.com".
Definition CONDO_client_phone : string := "214-555-0200".
Definition CONDO_budget : Z := 185000000.
Definition CONDO_estimated_cost : Z := 172000000.
Definition CONDO_start : string := "2023-09-01".
Definition CONDO_end : string := "2026-06-30".
Definition CONDO_completion : Z := 72.
Definition CONDO_type : string := "Residential".
Definition CONDO_address : string := "8800 Pinnacle Bay Boulevard".
Definition CONDO_city : string := "Fort Worth".
Definition CONDO_state : string := "TX".
Definition CONDO_zip : string := "76102".

(** [generate_projects] of part03_master_data.py. *)
Definition generate_projects : list row :=
  [list_to_map
     [("name", AIRPORT_name); ("code", AIRPORT_code); ("status", "active");
      ("project_type", AIRPORT_type); ("address", AIRPORT_address);
      ("city", AIRPORT_city); ("state", AIRPORT_state);
      ("zip", AIRPORT_zip); ("client_name", AIRPORT_client);
      ("client_email", AIRPORT_client_email);
      ("client_phone", AIRPORT_client_phone);
      ("budget", Py.str AIRPORT_budget);
      ("estimated_cost", Py.str AIRPORT_estimated_cost);
      ("start_date", AIRPORT_start); ("end_date", AIRPORT_end);
      ("description",
       "New international terminal with 42 gates, automated people mover, customs/immigration facilities, and dual-level roadway");
      ("completion_pct", Py.str AIRPORT_completion)];
   list_to_map
     [("name", CONDO_name); ("code", CONDO_code); ("status", "active");
      ("project_type", CONDO_type); ("address", CONDO_address);
      ("city", CONDO_city); ("state", CONDO_state);
      ("zip", CONDO_zip); ("client_name", CONDO_client);
      ("client_email", CONDO_client_email);
      ("client_phone", CONDO_client_phone);
      ("budget", Py.str CONDO_budget);
      ("estimated_cost", Py.str CONDO_estimated_cost);
      ("start_date", CONDO_start); ("end_date", CONDO_end);
      ("description",
       "44-story luxury condominium tower with 500 units, rooftop amenities, 3-level underground parking, and ground-floor retail");
      ("completion_pct", Py.str CONDO_completion)]].

(** The cells of the column [k] of a sheet. *)
Definition column (k : string) (rows : list row) : list string :=
  omap (λ r : row, r !! k) rows.

(** The row that [generate_invoices] appends for the vendor [v] in the
    month [mi]. *)
Definition payable_row (mi : nat) (v : vendor) (inv : row) : Prop :=
  ∃ (inv_num amt : Z) (d mname due proj : string),
    MONTH_ENDS !! mi = Some d ∧ MONTH_NAMES !! mi = Some mname
    ∧ due_in_30_days d = Ok due
    ∧ proj ∈ [AIRPORT_name; CONDO_name]
    ∧ inv = invoice_row ("INV-P" +:+ zfill 3 (Py.str inv_num)) "payable"
              d (Py.str amt) due
              ("Payment Application - " +:+ mname +:+ " 2025 - "
               +:+ v.1.1)
              (if decide (mi < 10)%nat then "paid" else "approved")
              v.1.1 EmptyString proj (Py.str v.1.2) "5"
              (retainage amt 5).

(** A payable invoice of one of the twelve months and of one of the
    vendors of [vendor_splits]. *)
Definition monthly_payable (inv : row) : Prop :=
  ∃ mi v, (mi < 12)%nat ∧ v ∈ vendor_splits ∧ payable_row mi v inv.

(** A list that continues [base] with monthly payable invoices. *)
Definition with_payables (base invoices : list row) : Prop :=
  ∃ rows, invoices = base ++ rows ∧ Forall monthly_payable rows.

(** An invoice names an account of the chart. *)
Definition in_chart (k : string) (r : row) : Prop :=
  ∃ a, r !! k = Some a
       ∧ a ∈ column "account_number" generate_chart_of_accounts.

Definition in_chartb (k : string) (r : row) : bool :=
  match r !! k with
  | Some a =>
      bool_decide (a ∈ column "account_number" generate_chart_of_accounts)
  | None => false
  end.

(** The parties of an invoice are on the sheets of the projects and of
    the vendors: a receivable invoice has the client of its project and
    no vendor, a payable invoice a vendor and no client. *)
Definition parties_known (inv : row) : Prop :=
  ∃ ty vendor client proj,
    inv !! "invoice_type" = Some ty ∧ inv !! "vendor_name" = Some vendor
    ∧ inv !! "client_name" = Some client
    ∧ inv !! "project_name" = Some proj
    ∧ proj ∈ column "name" generate_projects
    ∧ ((ty = "receivable" ∧ vendor = EmptyString
        ∧ ∃ p, p ∈ generate_projects ∧ p !! "name" = Some proj
               ∧ p !! "client_name" = Some client)
       ∨ (ty = "payable" ∧ client = EmptyString
          ∧ vendor ∈ column "company_name" generate_vendors)).

Definition parties_knownb (inv : row) : bool :=
  match inv !! "invoice_type", inv !! "vendor_name",
        inv !! "client_name", inv !! "project_name" with
  | Some ty, Some vendor, Some client, Some proj =>
      bool_decide (proj ∈ column "name" generate_projects)
      && ((String.eqb ty "receivable" && String.eqb vendor EmptyString
           && existsb (λ p : row,
                         bool_decide (p !! "name" = Some proj)
                         && bool_decide (p !! "client_name" = Some client))
                      generate_projects)
          || (String.eqb ty "payable" && String.eqb client EmptyString
              && bool_decide
                   (vendor ∈ column "company_name" generate_vendors)))
  | _, _, _, _ => false
  end.

(** The counts of the [__main__] block of part07_financials.py:
    [sum(1 for i in invoices if test(i[key]))]. *)
Definition count_where (key : string) (test : string → bool)
  (invoices : list row) : result Z :=
  Py.for_each (λ (i : row) (n : Z),
                 v <- Py.getitem i key;
                 Ok (if test v then n + 1 else n))
              invoices 0.

(** The numbers of its line [Invoices: ... (OB: ..., Receivable: ...,
    Payable: ...)]. *)
Definition invoice_summary (invoices : list row) : result (Z * Z * Z * Z) :=
  recv <- count_where "invoice_type" (String.eqb "receivable") invoices;
  pay <- count_where "invoice_type" (String.eqb "payable") invoices;
  ob <- count_where "invoice_number" (String.prefix "INV-OB") invoices;
  Ok (Z.of_nat (length invoices), ob, recv - 4, pay - 5).

Definition PROPERTY_name : string := "Pinnacle Bay Condominiums".

(** The draws [generate_units] takes from the module [random], by the
    position [n] of the unit in the list: [sqft_delta n] is the result
    of [random.randint(-30, 30)], [rent_delta n] that of
    [random.randint(-100, 100)] and [occupancy n] that of
    [random.random() < 0.85], which is drawn for a delivered unit
    only. *)
Record unit_draws : Type := {
  sqft_delta : nat → Z;
  rent_delta : nat → Z;
  occupancy : nat → bool
}.

(** What [random.randint] guarantees. *)
Definition unit_draws_ok (rnd : unit_draws) : Prop :=
  ∀ n, -30 ≤ sqft_delta rnd n ≤ 30 ∧ -100 ≤ rent_delta rnd n ≤ 100.

(** (unit_type, bedrooms, bathrooms, sqft, market_rent, count_per_floor) *)
Abbreviation unit_config := (string * Z * Z * Z * Z * nat)%type.

Definition floor_plans : list (list Z * list unit_config) :=
  [(seqZ 3 10,
    [("studio", 0, 1, 520, 1850, 4%nat);
     ("1br", 1, 1, 740, 2400, 8%nat);
     ("2br", 2, 1, 980, 3100, 4%nat)]);
   (seqZ 13 16,
    [("1br", 1, 1, 790, 2800, 4%nat);
     ("2br", 2, 2, 1100, 3600, 6%nat);
     ("3br", 3, 2, 1400, 4500, 4%nat)]);
   (seqZ 29 12,
    [("2br", 2, 2, 1250, 4200, 3%nat);
     ("3br", 3, 2, 1550, 5400, 3%nat);
     ("penthouse", 3, 3, 2100, 7500, 2%nat)]);
   (seqZ 41 4,
    [("penthouse", 4, 3, 2800, 10500, 3%nat);
     ("penthouse", 4, 4, 3500, 14000, 2%nat)])].

Definition delivered_max_floor : Z := 33.

Definition unit_dict
  (unit_num utype sqft beds baths floor rent status : string) : row :=
  list_to_map
    [("property_name", PROPERTY_name); ("unit_number", unit_num);
     ("unit_type", utype); ("sqft", sqft); ("bedrooms", beds);
     ("bathrooms", baths); ("floor_number", floor); ("market_rent", rent);
     ("status", status)].

(** The row of the unit in position [n], on [floor], with the index
    [unit_idx] on its floor. *)
Definition unit_row (rnd : unit_draws) (n : nat) (floor unit_idx : Z)
  (cfg : unit_config) : row :=
  let '(utype, beds, baths, base_sqft, base_rent, _) := cfg in
  let sqft := base_sqft + sqft_delta rnd n in
  let rent := base_rent + rent_delta rnd n in
  let unit_num := zfill 2 (Py.str floor) +:+ zfill 2 (Py.str unit_idx) in
  let status :=
    if decide (floor ≤ delivered_max_floor)
    then if occupancy rnd n then "occupied" else "vacant"
    else "not_ready" in
  unit_dict unit_num utype (Py.str sqft) (Py.str beds) (Py.str baths)
            (Py.str floor) (Py.str rent) status.

(** One turn of [for _ in range(count)], on the variables [units],
    [unit_count] and [unit_idx]. *)
Definition unit_step (rnd : unit_draws) (floor : Z) (cfg : unit_config)
  (st : list row * Z * Z) : list row * Z * Z :=
  let '(units, unit_count, unit_idx) := st in
  (units ++ [unit_row rnd (Z.to_nat unit_count) floor unit_idx cfg],
   unit_count + 1, unit_idx + 1).

(** The loops of [generate_units]: [units] and [unit_count] at their
    end. *)
Definition units_loop (rnd : unit_draws) : list row * Z :=
  foldl (λ st '(floor_range, configs),
           foldl (λ (st : list row * Z) floor,
                    let st' :=
                      foldl (λ st (cfg : unit_config),
                               Nat.iter cfg.2 (unit_step rnd floor cfg) st)
                            (st.1, st.2, 1) configs in
                    (st'.1.1, st'.1.2))
                 st floor_range)
        ([], 0) floor_plans.

(** [generate_units]: the list it returns and the two lines it
    prints. *)
Definition generate_units (rnd : unit_draws)
  : result (list row * list string) :=
  let '(units, unit_count) := units_loop rnd in
  occupied <- count_where "status" (λ v, String.eqb v "occupied") units;
  vacant <- count_where "status" (λ v, String.eqb v "vacant") units;
  not_ready <- count_where "status" (λ v, String.eqb v "not_ready") units;
  Ok (units,
      ["Generated " +:+ Py.str unit_count +:+ " units";
       "  Occupied: " +:+ Py.str occupied +:+ ", Vacant: "
       +:+ Py.str vacant +:+ ", Not ready: " +:+ Py.str not_ready]).

(** The position, the floor, the index and the configuration of every
    unit: the loops of [generate_units] without the rows. *)
Abbreviation unit_slot := (nat * Z * Z * unit_config)%type.

Definition slot_step (floor : Z) (cfg : unit_config)
  (st : list unit_slot * Z * Z) : list unit_slot * Z * Z :=
  let '(slots, unit_count, unit_idx) := st in
  (slots ++ [(Z.to_nat unit_count, floor, unit_idx, cfg)],
   unit_count + 1, unit_idx + 1).

Definition slots_loop : list unit_slot * Z :=
  foldl (λ st '(floor_range, configs),
           foldl (λ (st : list unit_slot * Z) floor,
                    let st' :=
                      foldl (λ st (cfg : unit_config),
                               Nat.iter cfg.2 (slot_step floor cfg) st)
                            (st.1, st.2, 1) configs in
                    (st'.1.1, st'.1.2))
                 st floor_range)
        ([], 0) floor_plans.

Definition unit_slots : list unit_slot := slots_loop.1.

Definition slot_row (rnd : unit_draws) (s : unit_slot) : row :=
  unit_row rnd s.1.1.1 s.1.1.2 s.1.2 s.2.

(** Draws to run the function on. *)
Definition steady_units : unit_draws :=
  {| sqft_delta := λ _, 0; rent_delta := λ _, 0;
     occupancy := λ n, negb (n mod 7 =? 0)%nat |}.

(** A unit of the list: its floor, its number, its status and the
    bounds of its surface and rent. *)
Definition unit_ok (u : row) : Prop :=
  ∃ (floor unit_idx sqft rent : Z) (status : string),
    3 ≤ floor ≤ 44 ∧ 1 ≤ unit_idx ≤ 16
    ∧ u !! "floor_number" = Some (Py.str floor)
    ∧ u !! "unit_number"
      = Some (zfill 2 (Py.str floor) +:+ zfill 2 (Py.str unit_idx))
    ∧ u !! "sqft" = Some (Py.str sqft) ∧ 490 ≤ sqft ≤ 3530
    ∧ u !! "market_rent" = Some (Py.str rent) ∧ 1750 ≤ rent ≤ 14100
    ∧ u !! "status" = Some status
    ∧ (if decide (floor ≤ 33) then status ∈ ["occupied"; "vacant"]
       else status = "not_ready").

Definition slot_okb (s : unit_slot) : bool :=
  let '(_, floor, unit_idx, (_, _, _, base_sqft, base_rent, _)) := s in
  bool_decide (3 ≤ floor ≤ 44) && bool_decide (1 ≤ unit_idx ≤ 16)
  && bool_decide (520 ≤ base_sqft ≤ 3500)
  && bool_decide (1850 ≤ base_rent ≤ 14000).

(** The name pools of part01_constants.py. *)
Definition FIRST_NAMES : list string :=
  ["James"; "Mary"; "Robert"; "Patricia"; "John"; "Jennifer"; "Michael";
   "Linda"; "David"; "Elizabeth"; "William"; "Barbara"; "Richard"; "Susan";
   "Joseph"; "Jessica"; "Thomas"; "Sarah"; "Christopher"; "Karen";
   "Charles"; "Lisa"; "Daniel"; "Nancy"; "Matthew"; "Betty"; "Anthony";
   "Margaret"; "Mark"; "Sandra"; "Donald"; "Ashley"; "Steven"; "Kimberly";
   "Paul"; "Emily"; "Andrew"; "Donna"; "Joshua"; "Michelle"; "Kenneth";
   "Carol"; "Kevin"; "Amanda"; "Brian"; "Dorothy"; "George"; "Melissa";
   "Timothy"; "Deborah"; "Ronald"; "Stephanie"; "Edward"; "Rebecca";
   "Jason"; "Sharon"; "Jeffrey"; "Laura"; "Ryan"; "Cynthia"; "Jacob";
   "Kathleen"; "Gary"; "Amy"; "Nicholas"; "Angela"; "Eric"; "Shirley";
   "Jonathan"; "Anna"; "Stephen"; "Brenda"; "Larry"; "Pamela"; "Justin";
   "Emma"; "Scott"; "Nicole"; "Brandon"; "Helen"; "Benjamin"; "Samantha";
   "Samuel"; "Katherine"; "Raymond"; "Christine"; "Gregory"; "Debra";
   "Frank"; "Rachel"; "Alexander"; "Carolyn"; "Patrick"; "Janet"; "Jack";
   "Catherine"; "Dennis"; "Maria"; "Jerry"; "Heather"; "Tyler"; "Diane";
   "Aaron"; "Ruth"; "Jose"; "Julie"; "Nathan"; "Olivia"; "Henry"; "Joyce";
   "Douglas"; "Virginia"; "Peter"; "Victoria"; "Zachary"; "Kelly"; "Kyle";
   "Lauren"; "Noah"; "Christina"; "Ethan"; "Joan"; "Jeremy"; "Evelyn";
   "Walter"; "Judith"; "Christian"; "Megan"; "Keith"; "Andrea"; "Roger";
   "Cheryl"; "Terry"; "Hannah"; "Harry"; "Jacqueline"; "Ralph"; "Martha";
   "Sean"; "Gloria"; "Jesse"; "Teresa"; "Austin"; "Ann"; "Dylan"; "Sara";
   "Arthur"; "Madison"; "Lawrence"; "Frances"; "Albert"; "Kathryn";
   "Bryan"; "Janice"; "Joe"; "Jean"; "Jordan"; "Abigail"; "Billy"; "Alice";
   "Bruce"; "Judy"; "Gabriel"; "Sophia"; "Logan"; "Grace"; "Carl";
   "Denise"; "Roy"; "Amber"; "Eugene"; "Doris"; "Russell"; "Marilyn";
   "Philip"; "Danielle"; "Wayne"; "Beverly"; "Alan"; "Isabella"; "Juan";
   "Theresa"; "Louis"; "Diana"; "Randy"; "Natalie"; "Vincent"; "Brittany";
   "Liam"; "Charlotte"; "Mason"; "Marie"; "Elijah"; "Kayla"; "Aiden";
   "Alexis"; "Lucas"; "Lori"].

Definition LAST_NAMES : list string :=
  ["Smith"; "Johnson"; "Williams"; "Brown"; "Jones"; "Garcia"; "Miller";
   "Davis"; "Rodriguez"; "Martinez"; "Hernandez"; "Lopez"; "Gonzalez";
   "Wilson"; "Anderson"; "Thomas"; "Taylor"; "Moore"; "Jackson"; "Martin";
   "Lee"; "Perez"; "Thompson"; "White"; "Harris"; "Sanchez"; "Clark";
   "Ramirez"; "Lewis"; "Robinson"; "Walker"; "Young"; "Allen"; "King";
   "Wright"; "Scott"; "Torres"; "Nguyen"; "Hill"; "Flores"; "Green";
   "Adams"; "Nelson"; "Baker"; "Hall"; "Rivera"; "Campbell"; "Mitchell";
   "Carter"; "Roberts"; "Gomez"; "Phillips"; "Evans"; "Turner"; "Diaz";
   "Parker"; "Cruz"; "Edwards"; "Collins"; "Reyes"; "Stewart"; "Morris";
   "Morales"; "Murphy"; "Cook"; "Rogers"; "Gutierrez"; "Ortiz"; "Morgan";
   "Cooper"; "Peterson"; "Bailey"; "Reed"; "Kelly"; "Howard"; "Ramos";
   "Kim"; "Cox"; "Ward"; "Richardson"; "Watson"; "Brooks"; "Chavez";
   "Wood"; "James"; "Bennett"; "Gray"; "Mendoza"; "Ruiz"; "Hughes";
   "Price"; "Alvarez"; "Castillo"; "Sanders"; "Patel"; "Myers"; "Long";
   "Ross"; "Foster"; "Jimenez"; "Powell"; "Jenkins"; "Perry"; "Russell";
   "Sullivan"; "Bell"; "Coleman"; "Butler"; "Henderson"; "Barnes";
   "Gonzales"; "Fisher"; "Vasquez"; "Simmons"; "Griffin"; "Aguilar";
   "Morton"; "Hamilton"; "Graham"; "Wallace"; "Woods"; "Cole"; "West";
   "Jordan"; "Owens"; "Reynolds"; "Ellis"; "Harrison"; "Gibson";
   "McDonald"; "Alexander"; "Marshall"; "Ortega"; "Delgado"; "Burke"].

(** [s.lower()] for a [str] of ASCII characters. *)
Definition lower_ascii (c : ascii) : ascii :=
  let n := nat_of_ascii c in
  if (65 <=? n)%nat && (n <=? 90)%nat then ascii_of_nat (n + 32) else c.

Fixpoint lower (s : string) : string :=
  match s with
  | EmptyString => EmptyString
  | String c s' => String (lower_ascii c) (lower s')
  end.

(** [random_phone], on the three numbers it draws. *)
Definition random_phone (abc : Z * Z * Z) : string :=
  let '(a, b, c) := abc in
  Py.str a +:+ "-" +:+ Py.str b +:+ "-" +:+ Py.str c.

Definition email_domains : list string :=
  ["gmail.com"; "outlook.com"; "yahoo.com"; "hotmail.com"; "icloud.com"].

(** [random_email(first, last, domain)], on the domain [pick] that
    [random.choice(domains)] gives when it is called. *)
Definition random_email (pick : string) (first last : string)
  (domain : option string) : string :=
  let domain :=
    match domain with
    | Some d => if Py.truthy d then d else pick
    | None => pick
    end in
  lower first +:+ "." +:+ lower last +:+ "@" +:+ domain.

(** The draws [generate_leases] takes from the module [random], for the
    occupied unit in position [i]: [tenant i j] is the result of
    [generate_tenant_name()] at the turn [j] of the [while] loop,
    [start_offset i] that of [random.randint(0, 180)], [email_domain i]
    that of [random.choice(domains)], [phone_numbers i] are the three
    numbers of [random_phone()], [couple i] is [random.random() < 0.25]
    and [second_tenant i] the name drawn for a couple. *)
Record lease_draws : Type := {
  tenant : nat → nat → string * string;
  start_offset : nat → nat;
  email_domain : nat → string;
  phone_numbers : nat → Z * Z * Z;
  couple : nat → bool;
  second_tenant : nat → string * string
}.

(** What [random.choice] and [random.randint] guarantee. *)
Definition lease_draws_ok (rnd : lease_draws) : Prop :=
  ∀ i,
    (∀ j, (tenant rnd i j).1 ∈ FIRST_NAMES ∧ (tenant rnd i j).2 ∈ LAST_NAMES)
    ∧ (start_offset rnd i ≤ 180)%nat
    ∧ email_domain rnd i ∈ email_domains
    ∧ (200 ≤ (phone_numbers rnd i).1.1 ≤ 999
       ∧ 200 ≤ (phone_numbers rnd i).1.2 ≤ 999
       ∧ 1000 ≤ (phone_numbers rnd i).2 ≤ 9999)
    ∧ (second_tenant rnd i).1 ∈ FIRST_NAMES
    ∧ (second_tenant rnd i).2 ∈ LAST_NAMES.

(** [f"{first} {last}"] *)
Definition name_key (name : string * string) : string :=
  name.1 +:+ " " +:+ name.2.

(** The [while True] loop that draws a tenant until the name is not in
    [used_names], from its turn [j] on: [None] when it is still running
    after [fuel] turns. *)
Fixpoint fresh_tenant (draw : nat → string * string)
    (used_names : gset string) (fuel j : nat) : option (string * string) :=
  match fuel with
  | O => None
  | S fuel' =>
      if decide (name_key (draw j) ∈ used_names)
      then fresh_tenant draw used_names fuel' (S j)
      else Some (draw j)
  end.

(** [[u for u in units if test(u[key])]] *)
Definition select (key : string) (test : string → bool) (units : list row)
  : result (list row) :=
  Py.for_each (λ (u : row) (acc : list row),
                 v <- Py.getitem u key;
                 Ok (if test v then acc ++ [u] else acc))
              units [].

Definition lease_dict
  (tenant_name unit_number email phone rent deposit lease_start lease_end
   : string) : row :=
  list_to_map
    [("tenant_name", tenant_name); ("property_name", PROPERTY_name);
     ("unit_number", unit_number); ("tenant_email", email);
     ("tenant_phone", phone); ("monthly_rent", rent);
     ("security_deposit", deposit); ("lease_start", lease_start);
     ("lease_end", lease_end)].

(** The row of the occupied unit in position [i], once its tenant is
    drawn. *)
Definition lease_row (rnd : lease_draws) (i : nat) (unit : row)
    (name : string * string) : result row :=
  let '(first, last) := name in
  m <- Py.getitem unit "market_rent";
  rent <- Py.int m;
  let deposit := rent in
  let lease_start := Nat.iter (start_offset rnd i) next_day (2025, 6, 1) in
  let lease_end := Nat.iter 365 next_day lease_start in
  let email := random_email (email_domain rnd i) first last None in
  let phone := random_phone (phone_numbers rnd i) in
  let tenant_name :=
    if couple rnd i
    then first +:+ " & " +:+ (second_tenant rnd i).1 +:+ " " +:+ last
    else first +:+ " " +:+ last in
  num <- Py.getitem unit "unit_number";
  Ok (lease_dict tenant_name num email phone (Py.str rent)
        (Py.str deposit) (isoformat lease_start) (isoformat lease_end)).

(** [for unit in occupied], on the variables [rows] and [used_names]:
    [None] when a [while] loop is still running after [fuel] turns. *)
Fixpoint lease_loop (rnd : lease_draws) (fuel : nat)
    (occupied : list (nat * row)) (st : list row * gset string)
  : option (result (list row)) :=
  match occupied with
  | [] => Some (Ok st.1)
  | (i, unit) :: occupied' =>
      match fresh_tenant (tenant rnd i) st.2 fuel 0 with
      | None => None
      | Some name =>
          match lease_row rnd i unit name with
          | Ok r =>
              lease_loop rnd fuel occupied'
                (st.1 ++ [r], {[ name_key name ]} ∪ st.2)
          | Raise e => Some (Raise e)
          end
      end
  end.

Definition generate_leases (rnd : lease_draws) (fuel : nat)
    (units : list row) : option (result (list row)) :=
  match select "status" (λ v, String.eqb v "occupied") units with
  | Ok occupied =>
      lease_loop rnd fuel (zip (seq 0 (length occupied)) occupied) ([], ∅)
  | Raise e => Some (Raise e)
  end.

(** A unit that [generate_leases] can read: it has a status and, when
    that is occupied, a number and a rent. *)
Definition unit_readable (u : row) : Prop :=
  ∃ status,
    u !! "status" = Some status
    ∧ (status = "occupied" →
       ∃ (rent : Z) (num : string),
         u !! "market_rent" = Some (Py.str rent) ∧ 0 ≤ rent ≤ 20000
         ∧ u !! "unit_number" = Some num).

Definition is_occupied (u : row) : bool :=
  bool_decide (u !! "status" = Some "occupied").

(** Every [while] loop meets, within [fuel] turns, a name that no turn
    of an earlier unit has drawn. *)
Definition names_fresh (rnd : lease_draws) (fuel n : nat) : Prop :=
  ∀ i, (i < n)%nat →
    ∃ j, (j < fuel)%nat
         ∧ ∀ i' j', (i' < i)%nat →
             name_key (tenant rnd i' j') ≠ name_key (tenant rnd i j).

(** The lease of a unit: its number, its rent as rent and as deposit,
    a start from June to November 2025 and an end on the same day of
    2026. *)
Definition lease_of (u l : row) : Prop :=
  l !! "unit_number" = u !! "unit_number"
  ∧ l !! "monthly_rent" = u !! "market_rent"
  ∧ l !! "security_deposit" = u !! "market_rent"
  ∧ l !! "property_name" = Some PROPERTY_name.

Definition lease_dates (l : row) : Prop :=
  ∃ m d : Z,
    6 ≤ m ≤ 11 ∧ 1 ≤ d ≤ 31
    ∧ l !! "lease_start" = Some (isoformat (2025, m, d))
    ∧ l !! "lease_end" = Some (isoformat (2026, m, d)).

(** Two units and draws to run the function on. *)
Definition two_units : list row :=
  [unit_dict "0301" "studio" "520" "0" "1" "3" "1850" "occupied";
   unit_dict "0302" "studio" "530" "0" "1" "3" "1900" "vacant";
   unit_dict "0303" "studio" "510" "0" "1" "3" "1800" "occupied"].

Definition by_position : lease_draws :=
  {| tenant := λ i j,
       (nth (i mod 198) FIRST_NAMES EmptyString,
        nth ((i / 198) mod 135) LAST_NAMES EmptyString);
     start_offset := λ i, (i mod 181)%nat;
     email_domain := λ _, "gmail.com";
     phone_numbers := λ _, (200, 200, 1000);
     couple := λ i, Nat.even i;
     second_tenant := λ _, ("Mary", "Smith") |}.

End Props.

(** ** Properties *)

Import Verify Spec.

(** *** Tactics *)

Ltac qc_ops := cbn [fadd fsub fzero fneg fabs flt of_dec Qc_arith] in *.

(** Evaluates the closed [bool_decide] tests of a goal. *)
Ltac eval_decides :=
  repeat match goal with
    | |- context [bool_decide ?P] =>
        let b := eval vm_compute in (bool_decide P) in
        lazymatch b with
        | true => change (bool_decide P) with true
        | false => change (bool_decide P) with false
        end
    end;
  rewrite ?andb_false_r, ?andb_true_r.

(** Evaluates the closed tests of a goal in exact arithmetic. *)
Ltac eval_tests :=
  repeat match goal with
    | |- context [bool_decide ?P] =>
        let b := eval vm_compute in (bool_decide P) in
        change (bool_decide P) with b
    | |- context [flt ?x ?y] =>
        let b := eval vm_compute in (flt x y) in
        change (flt x y) with b
    end;
  unfold increase_if, decrease_if; cbn [andb default from_option id].

(** *** Posting to one account *)

Section posting_lemmas.
Context {F : Type} {AF : Arith F}.
Implicit Types (m : gmap Z F) (v : F) (k acct : Z).

Lemma lookup_post m k v acct :
  post k v m !! acct = increase_if (bool_decide (acct = k)) v (m !! acct).
Proof.
  unfold post, increase_if, balance. rewrite lookup_insert.
  case_bool_decide; case_decide; subst; congruence.
Qed.

Lemma lookup_unpost m k v acct :
  unpost k v m !! acct = decrease_if (bool_decide (acct = k)) v (m !! acct).
Proof.
  unfold unpost, decrease_if, balance. rewrite lookup_insert.
  case_bool_decide; case_decide; subst; congruence.
Qed.

Lemma gl_set_Some (i : invoice F) g :
  gl_set (gl i) = Some g ↔ gl i = Some g ∧ g ≠ 0.
Proof.
  unfold gl_set. destruct (gl i) as [g'|]; [|naive_solver].
  case_decide; naive_solver.
Qed.

Lemma gl_set_None (i : invoice F) :
  gl_set (gl i) = None ↔ ∀ acct, gl_is i acct = false.
Proof.
  unfold gl_set, gl_is. destruct (gl i) as [g'|].
  - case_decide; split; try done.
    + intros _ acct. apply bool_decide_eq_false. naive_solver.
    + intros Hg. specialize (Hg g'). apply bool_decide_eq_false in Hg.
      naive_solver.
  - split; [|done]. intros _ acct. apply bool_decide_eq_false. naive_solver.
Qed.

(** The balance of one account after a receivable invoice. *)
Lemma project_receivable_lookup (i : invoice F) m acct :
  invoice_type i = "receivable" →
  project i m !! acct =
    let net := fsub (amt i) (ret i) in
    decrease_if (is_paid i && bool_decide (acct = 1010)) net
      (increase_if (is_paid i && bool_decide (acct = 1000)) net
         (decrease_if (gl_is i acct) (amt i)
            (increase_if (flt fzero (ret i) && bool_decide (acct = 1020))
               (ret i)
               (increase_if (bool_decide (acct = 1010)) net (m !! acct))))).
Proof.
  intros Hty. unfold project. rewrite decide_True by done. cbv zeta.
  assert (Hgl : ∀ b : gmap Z F,
    match gl_set (gl i) with
    | Some g => unpost g (amt i) b
    | None => b
    end !! acct = decrease_if (gl_is i acct) (amt i) (b !! acct)).
  { intros b. destruct (gl_set (gl i)) as [g|] eqn:Hg.
    - rewrite lookup_unpost. f_equal. unfold gl_is.
      apply gl_set_Some in Hg as [Hg Hg0].
      apply bool_decide_ext. naive_solver.
    - rewrite gl_set_None in Hg. by rewrite Hg. }
  destruct (is_paid i); cbn [andb].
  - rewrite lookup_unpost, lookup_post, Hgl.
    destruct (flt fzero (ret i)); cbn [andb];
      by rewrite ?lookup_post.
  - rewrite Hgl.
    destruct (flt fzero (ret i)); cbn [andb];
      by rewrite ?lookup_post.
Qed.

(** The balance of one account after a payable invoice. *)
Lemma project_payable_lookup (i : invoice F) m acct :
  invoice_type i = "payable" →
  project i m !! acct =
    let net := fsub (amt i) (ret i) in
    decrease_if (is_paid i && bool_decide (acct = 1000)) net
      (increase_if (is_paid i && bool_decide (acct = 2000)) net
         (decrease_if (flt fzero (ret i) && bool_decide (acct = 2010))
            (ret i)
            (decrease_if (bool_decide (acct = 2000)) net
               (increase_if (gl_is i acct) (amt i) (m !! acct))))).
Proof.
  intros Hty. unfold project. rewrite decide_False by (by rewrite Hty).
  rewrite decide_True by done. cbv zeta.
  assert (Hgl : ∀ b : gmap Z F,
    match gl_set (gl i) with
    | Some g => post g (amt i) b
    | None => b
    end !! acct = increase_if (gl_is i acct) (amt i) (b !! acct)).
  { intros b. destruct (gl_set (gl i)) as [g|] eqn:Hg.
    - rewrite lookup_post. f_equal. unfold gl_is.
      apply gl_set_Some in Hg as [Hg Hg0].
      apply bool_decide_ext. naive_solver.
    - rewrite gl_set_None in Hg. by rewrite Hg. }
  destruct (is_paid i); cbn [andb].
  - rewrite lookup_unpost, lookup_post.
    destruct (flt fzero (ret i)); cbn [andb];
      by rewrite ?lookup_unpost, Hgl.
  - destruct (flt fzero (ret i)); cbn [andb];
      by rewrite ?lookup_unpost, Hgl.
Qed.

End posting_lemmas.

Lemma read_receivable_example :
  read_invoice receivable_example = Ok receivable_example_read.
Proof. vm_compute. reflexivity. Qed.

Lemma read_payable_example :
  read_invoice payable_example = Ok payable_example_read.
Proof. vm_compute. reflexivity. Qed.

(** *** Claims C1 and C2: what one invoice posts *)

(** C1, as the code has it.  For every arithmetic and every receivable
    invoice, the balance of each account [acct] after the invoice is the
    balance before it, changed in this order: increased by
    net = amount - retainage_held if [acct] is 1010; increased by
    retainage_held if retainage_held > 0 and [acct] is 1020; decreased by
    amount if gl_account is present, is not zero and is [acct]; and, if the
    status is "paid", increased by net if [acct] is 1000 and decreased by
    net if [acct] is 1010.  In exact arithmetic, the invoice with
    amount=100, retainage_held=5, status="paid", gl_account=4000 leaves
    account 1010 where it was, adds 5 to account 1020, takes 100 from
    account 4000 and adds 95 to account 1000. *)
Theorem receivable_projection :
  (∀ (F : Type) (AF : Arith F) (i : invoice F) (gl_balances : gmap Z F)
     (acct : Z),
     invoice_type i = "receivable" →
     project i gl_balances !! acct =
       let net := fsub (amt i) (ret i) in
       decrease_if (is_paid i && bool_decide (acct = 1010)) net
         (increase_if (is_paid i && bool_decide (acct = 1000)) net
            (decrease_if (gl_is i acct) (amt i)
               (increase_if (flt fzero (ret i) && bool_decide (acct = 1020))
                  (ret i)
                  (increase_if (bool_decide (acct = 1010)) net
                     (gl_balances !! acct))))))
  ∧ (∀ gl_balances : gmap Z Qc,
       ∃ b, invoice_step receivable_example gl_balances = Ok b
            ∧ balance b 1010 = balance gl_balances 1010
            ∧ balance b 1020 = fadd (balance gl_balances 1020) (of_dec 5 0)
            ∧ balance b 4000
              = fsub (balance gl_balances 4000) (of_dec 100 0)
            ∧ balance b 1000
              = fadd (balance gl_balances 1000) (of_dec 95 0)).
Proof.
  split.
  - intros F AF i gl_balances acct Hty.
    by apply project_receivable_lookup.
  - intros gl_balances. unfold invoice_step.
    rewrite read_receivable_example. cbn [bind].
    eexists. split; [reflexivity|].
    unfold balance. rewrite !project_receivable_lookup by reflexivity.
    cbv zeta. unfold gl_is, receivable_example_read.
    cbn [amt ret gl is_paid invoice_type].
    eval_tests. qc_ops.
    split; [ring|]. repeat split.
Qed.

Lemma receivable_projection_witness :
  invoice_type receivable_example_read = "receivable"
  ∧ project receivable_example_read ∅ !! 1000
    = Some (fadd fzero (fsub (of_dec 100 0) (of_dec 5 0))).
Proof.
  split; [reflexivity|].
  rewrite (proj1 receivable_projection Qc _ receivable_example_read ∅ 1000
             eq_refl).
  reflexivity.
Defined.

(** C1 as stated fails for a gl_account that is present and is 0: the
    test [if gl:] skips it, and account 0 keeps its balance where the claim
    takes the amount from it. *)
Lemma receivable_gl_zero_not_posted :
  ∃ i : invoice Qc,
    read_invoice receivable_gl_zero = Ok i
    ∧ invoice_type i = "receivable"
    ∧ gl i = Some 0
    ∧ project i ∅ !! 0 = None
    ∧ balance (project i ∅) 0 ≠ fsub (balance ∅ 0) (amt i).
Proof.
  eexists. split; [vm_compute; reflexivity|].
  split; [reflexivity|]. split; [reflexivity|].
  split; [vm_compute; reflexivity|].
  vm_compute. intros [=].
Qed.

(** C2, as the code has it.  For every arithmetic and every payable
    invoice, the balance of each account [acct] after the invoice is the
    balance before it, changed in this order: increased by amount if
    gl_account is present, is not zero and is [acct]; decreased by
    net = amount - retainage_held if [acct] is 2000; decreased by
    retainage_held if retainage_held > 0 and [acct] is 2010; and, if the
    status is "paid", increased by net if [acct] is 2000 and decreased by
    net if [acct] is 1000.  In exact arithmetic, the invoice with
    amount=200, retainage_held=10, status="approved", gl_account=5000 adds
    200 to account 5000, takes 190 from account 2000 and 10 from account
    2010, and leaves account 1000 untouched. *)
Theorem payable_projection :
  (∀ (F : Type) (AF : Arith F) (i : invoice F) (gl_balances : gmap Z F)
     (acct : Z),
     invoice_type i = "payable" →
     project i gl_balances !! acct =
       let net := fsub (amt i) (ret i) in
       decrease_if (is_paid i && bool_decide (acct = 1000)) net
         (increase_if (is_paid i && bool_decide (acct = 2000)) net
            (decrease_if (flt fzero (ret i) && bool_decide (acct = 2010))
               (ret i)
               (decrease_if (bool_decide (acct = 2000)) net
                  (increase_if (gl_is i acct) (amt i)
                     (gl_balances !! acct))))))
  ∧ (∀ gl_balances : gmap Z Qc,
       ∃ b, invoice_step payable_example gl_balances = Ok b
            ∧ balance b 5000
              = fadd (balance gl_balances 5000) (of_dec 200 0)
            ∧ balance b 2000
              = fsub (balance gl_balances 2000) (of_dec 190 0)
            ∧ balance b 2010
              = fsub (balance gl_balances 2010) (of_dec 10 0)
            ∧ b !! 1000 = gl_balances !! 1000).
Proof.
  split.
  - intros F AF i gl_balances acct Hty.
    by apply project_payable_lookup.
  - intros gl_balances. unfold invoice_step.
    rewrite read_payable_example. cbn [bind].
    eexists. split; [reflexivity|].
    unfold balance. rewrite !project_payable_lookup by reflexivity.
    cbv zeta. unfold gl_is, payable_example_read.
    cbn [amt ret gl is_paid invoice_type].
    eval_tests. qc_ops.
    repeat split.
Qed.

Lemma payable_projection_witness :
  invoice_type payable_example_read = "payable"
  ∧ project payable_example_read ∅ !! 5000
    = Some (fadd fzero (of_dec 200 0)).
Proof.
  split; [reflexivity|].
  rewrite (proj1 payable_projection Qc _ payable_example_read ∅ 5000
             eq_refl).
  reflexivity.
Defined.

(** C2 as stated fails for a gl_account that is present and is 0: account
    0 keeps its balance where the claim adds the amount to it. *)
Lemma payable_gl_zero_not_posted :
  ∃ i : invoice Qc,
    read_invoice payable_gl_zero = Ok i
    ∧ invoice_type i = "payable"
    ∧ gl i = Some 0
    ∧ project i ∅ !! 0 = None
    ∧ balance (project i ∅) 0 ≠ fadd (balance ∅ 0) (amt i).
Proof.
  eexists. split; [vm_compute; reflexivity|].
  split; [reflexivity|]. split; [reflexivity|].
  split; [vm_compute; reflexivity|].
  vm_compute. intros [=].
Qed.

(** *** Claim C8: accounts an invoice leaves alone *)

(** C8, as the code has it.  For every arithmetic: an invoice without
    gl_account still posts to AR or AP and to the retainage account, and
    leaves every account other than 1000, 1010, 1020 (receivable) or 1000,
    2000, 2010 (payable) as it was; an invoice whose retainage_held is not
    greater than 0 leaves accounts 1020 and 2010 as they were, unless the
    account is the invoice's own gl_account.  In exact arithmetic
    retainage_held = 0 is not greater than 0. *)
Theorem invoice_frame :
  (∀ (F : Type) (AF : Arith F) (i : invoice F) (gl_balances : gmap Z F)
     (acct : Z),
     let net := fsub (amt i) (ret i) in
     (gl i = None → invoice_type i = "receivable" →
      (acct ∉ [1000; 1010; 1020] →
       project i gl_balances !! acct = gl_balances !! acct)
      ∧ project i gl_balances !! 1010
        = decrease_if (is_paid i) net
            (Some (fadd (balance gl_balances 1010) net))
      ∧ project i gl_balances !! 1020
        = increase_if (flt fzero (ret i)) (ret i) (gl_balances !! 1020))
     ∧ (gl i = None → invoice_type i = "payable" →
        (acct ∉ [1000; 2000; 2010] →
         project i gl_balances !! acct = gl_balances !! acct)
        ∧ project i gl_balances !! 2000
          = increase_if (is_paid i) net
              (Some (fsub (balance gl_balances 2000) net))
        ∧ project i gl_balances !! 2010
          = decrease_if (flt fzero (ret i)) (ret i) (gl_balances !! 2010))
     ∧ (flt fzero (ret i) = false → acct ∈ [1020; 2010] →
        gl_is i acct = false →
        project i gl_balances !! acct = gl_balances !! acct))
  ∧ (∀ i : invoice Qc, ret i = fzero → flt fzero (ret i) = false).
Proof.
  split; [|by intros i ->].
  intros F AF i gl_balances acct net.
  assert (Hnogl : gl i = None → ∀ k, gl_is i k = false).
  { intros Hgl k. unfold gl_is. rewrite Hgl.
    apply bool_decide_eq_false. by intros [? _]. }
  split; [|split].
  - intros Hgl Hty. rewrite !project_receivable_lookup by done.
    cbv zeta. rewrite !Hnogl by done. split.
    + intros Hacct. rewrite !not_elem_of_cons in Hacct.
      destruct Hacct as (? & ? & ? & _).
      rewrite !bool_decide_eq_false_2 by done.
      by rewrite !andb_false_r.
    + by eval_decides.
  - intros Hgl Hty. rewrite !project_payable_lookup by done.
    cbv zeta. rewrite !Hnogl by done. split.
    + intros Hacct. rewrite !not_elem_of_cons in Hacct.
      destruct Hacct as (? & ? & ? & _).
      rewrite !bool_decide_eq_false_2 by done.
      by rewrite !andb_false_r.
    + by eval_decides.
  - intros Hret Hacct Hgl.
    assert (acct ≠ 1000 ∧ acct ≠ 1010 ∧ acct ≠ 2000) as (? & ? & ?).
    { rewrite !elem_of_cons in Hacct. set_solver by lia. }
    destruct (decide (invoice_type i = "receivable")) as [Hty|Hty];
      [|destruct (decide (invoice_type i = "payable")) as [Hty'|Hty']].
    + rewrite project_receivable_lookup by done. cbv zeta.
      rewrite Hret, Hgl. rewrite !bool_decide_eq_false_2 by done.
      by rewrite !andb_false_r.
    + rewrite project_payable_lookup by done. cbv zeta.
      rewrite Hret, Hgl. rewrite !bool_decide_eq_false_2 by done.
      by rewrite !andb_false_r.
    + unfold project. by rewrite !decide_False by done.
Qed.

Lemma invoice_frame_witness :
  gl receivable_no_gl = None
  ∧ invoice_type receivable_no_gl = "receivable"
  ∧ project receivable_no_gl ∅ !! 1010
    = Some (fadd fzero (fsub (of_dec 100 0) (of_dec 0 0))).
Proof.
  split; [reflexivity|]. split; [reflexivity|].
  destruct (proj1 invoice_frame Qc _ receivable_no_gl ∅ 1010)
    as [Hrecv _].
  destruct (Hrecv eq_refl eq_refl) as (_ & -> & _).
  reflexivity.
Defined.

(** C8 as stated fails for an invoice with retainage_held = 0 whose
    gl_account is 1020: the amount is taken from account 1020. *)
Lemma zero_retainage_gl_1020_posted :
  ∃ i : invoice Qc,
    read_invoice receivable_gl_1020 = Ok i
    ∧ ret i = fzero
    ∧ balance (project i ∅) 1020 ≠ balance ∅ 1020.
Proof.
  eexists. split; [vm_compute; reflexivity|].
  split; [reflexivity|].
  vm_compute. intros [=].
Qed.

(** *** Claim C9: no exception on well-formed records *)

Section no_exception.
Context {F : Type} {AF : Arith F}.

Lemma for_each_is_ok {A S} (P : A → Prop) (body : A → S → result S) l :
  (∀ x s, P x → is_ok (body x s)) →
  Forall P l → ∀ s, is_ok (Py.for_each body l s).
Proof.
  intros Hbody Hl. induction Hl as [|x l Hx _ IH]; intros s.
  - by exists s.
  - destruct (Hbody x s Hx) as [s' Hs']. cbn. rewrite Hs'. apply IH.
Qed.

Lemma float_is_ok s : numeric s → is_ok (float (F:=F) s).
Proof.
  intros [[m e] Hs]. unfold float. rewrite Hs. by eexists.
Qed.

Lemma int_is_ok s : integer s → is_ok (Py.int s).
Proof.
  intros [[d Hs] Hlen]. unfold Py.int.
  rewrite decide_True by done. rewrite Hs. by eexists.
Qed.

Lemma float_or_zero_is_ok (r : row) k :
  amount_cell (r !! k) → is_ok (float_or_zero (F:=F) r k).
Proof.
  intros (s & Hk & Hs). unfold float_or_zero, Py.getitem.
  rewrite Hk. cbn. destruct Hs as [->|Hs].
  - by eexists.
  - destruct (Py.truthy s); [by apply float_is_ok|by eexists].
Qed.

Lemma je_totals_step_is_ok (r : row) (t : list (string * (F * F))) :
  journal_line_ok r → is_ok (je_totals_step r t).
Proof.
  intros ([id Hid] & _ & Hdr & Hcr). unfold je_totals_step.
  destruct (float_or_zero_is_ok r "debit" Hdr) as [dr ->].
  destruct (float_or_zero_is_ok r "credit" Hcr) as [cr ->].
  unfold Py.getitem. rewrite Hid. by eexists.
Qed.

Lemma je_balance_step_is_ok (r : row) (gl_balances : gmap Z F) :
  journal_line_ok r → is_ok (je_balance_step r gl_balances).
Proof.
  intros (_ & (a & Ha & Hint) & Hdr & Hcr). unfold je_balance_step.
  unfold Py.getitem. rewrite Ha. cbn.
  destruct (int_is_ok a Hint) as [acct ->]. cbn.
  destruct (float_or_zero_is_ok r "debit" Hdr) as [dr ->].
  destruct (float_or_zero_is_ok r "credit" Hcr) as [cr ->].
  by eexists.
Qed.

Lemma read_invoice_is_ok (inv : row) :
  invoice_ok inv → is_ok (read_invoice (F:=F) inv).
Proof.
  intros ((a & Ha & Hnum) & Hret & Hgl & [st Hst] & [ty Hty]).
  unfold read_invoice, Py.getitem, Py.get. rewrite Ha, Hst, Hty. cbn.
  destruct (float_is_ok a Hnum) as [amt ->]. cbn.
  assert (is_ok match inv !! "retainage_held" with
                | Some s => if Py.truthy s then float (F:=F) s else Ok fzero
                | None => Ok fzero
                end) as [ret ->].
  { destruct (inv !! "retainage_held") as [s|]; [|by eexists].
    destruct (Hret s eq_refl) as [->|Hs]; [by eexists|].
    destruct (Py.truthy s); [by apply float_is_ok|by eexists]. }
  cbn.
  assert (is_ok match inv !! "gl_account" with
                | Some s => if Py.truthy s
                            then (g <- Py.int s; Ok (Some g))
                            else Ok None
                | None => Ok None
                end) as [gl ->].
  { destruct (inv !! "gl_account") as [s|]; [|by eexists].
    destruct (Hgl s eq_refl) as [->|Hs]; [by eexists|].
    destruct (Py.truthy s); [|by eexists].
    destruct (int_is_ok s Hs) as [g ->]. by eexists. }
  by eexists.
Qed.

Lemma invoice_step_is_ok (inv : row) (gl_balances : gmap Z F) :
  invoice_ok inv → is_ok (invoice_step inv gl_balances).
Proof.
  intros Hinv. unfold invoice_step.
  destruct (read_invoice_is_ok inv Hinv) as [i ->]. by eexists.
Qed.

End no_exception.

(** C9.  For every arithmetic and all well-formed journal lines and
    invoices, [verify_financials] returns its report and raises nothing;
    unbalanced entries, a trial balance off by $1.00 or more and a net
    income off target by $100,000 or more each show as a line of that
    report. *)
Theorem verify_financials_never_raises (F : Type) (AF : Arith F)
    (je_rows invoices : list row) :
  Forall journal_line_ok je_rows →
  Forall invoice_ok invoices →
  ∃ t gl_balances report,
    je_totals je_rows = Ok t
    ∧ trial_balance je_rows invoices = Ok gl_balances
    ∧ verify_financials je_rows invoices = Ok report
    ∧ (unbalanced t ≠ 0%nat → FailUnbalanced (unbalanced t) ∈ report)
    ∧ (balanced gl_balances = false →
       BalanceWarn (diff gl_balances) ∈ report)
    ∧ (net_income_within_target (of_dec Constants.NET_INCOME 0) gl_balances
       = false →
       NetIncomeWarn (fsub (net_income gl_balances)
                           (of_dec Constants.NET_INCOME 0)) ∈ report).
Proof.
  intros Hje Hinv.
  destruct (for_each_is_ok _ je_totals_step je_rows
              je_totals_step_is_ok Hje []) as [t Ht].
  destruct (for_each_is_ok _ je_balance_step je_rows
              je_balance_step_is_ok Hje ∅) as [gl0 Hgl0].
  destruct (for_each_is_ok _ invoice_step invoices
              invoice_step_is_ok Hinv gl0) as [gl1 Hgl1].
  assert (Htb : trial_balance je_rows invoices = Ok gl1).
  { unfold trial_balance. by rewrite Hgl0. }
  exists t, gl1. eexists. split; [done|]. split; [done|].
  split.
  { unfold verify_financials, je_totals. rewrite Ht, Htb. reflexivity. }
  rewrite !elem_of_app. split; [|split].
  - intros Hunb. right; right; left. unfold balance_summary.
    rewrite decide_False by done. apply list_elem_of_singleton. done.
  - intros Hbal. right; right; right; left.
    unfold trial_balance_report. rewrite Hbal.
    rewrite !elem_of_app. right; right.
    rewrite !elem_of_cons. auto.
  - intros Hni. right; right; right; right.
    unfold income_statement_report. rewrite Hni.
    rewrite !elem_of_cons. auto 10.
Qed.

(** A short integer literal. *)
Ltac integer_literal :=
  split; [by eexists|apply Nat.leb_le; vm_compute; reflexivity].

Lemma unbalanced_line_ok : journal_line_ok unbalanced_line.
Proof.
  split; [by eexists|].
  split; [eexists; split; [reflexivity|integer_literal]|].
  split; eexists; (split; [reflexivity|]); [right|left];
    [by eexists|reflexivity].
Qed.

Lemma receivable_example_ok : invoice_ok receivable_example.
Proof.
  split; [eexists; split; [reflexivity|by eexists]|].
  split; [intros s [= <-]; right; by eexists|].
  split; [intros s [= <-]; right; integer_literal|].
  split; by eexists.
Qed.

Lemma payable_example_ok : invoice_ok payable_example.
Proof.
  split; [eexists; split; [reflexivity|by eexists]|].
  split; [intros s [= <-]; right; by eexists|].
  split; [intros s [= <-]; right; integer_literal|].
  split; by eexists.
Qed.

Lemma verify_financials_never_raises_witness :
  Forall journal_line_ok [unbalanced_line]
  ∧ Forall invoice_ok [receivable_example]
  ∧ ∃ report,
      verify_financials (F:=Qc) [unbalanced_line] [receivable_example]
      = Ok report
      ∧ FailUnbalanced 1 ∈ report.
Proof.
  assert (Hje : Forall journal_line_ok [unbalanced_line])
    by (constructor; [apply unbalanced_line_ok|constructor]).
  assert (Hinv : Forall invoice_ok [receivable_example])
    by (constructor; [apply receivable_example_ok|constructor]).
  split; [exact Hje|]. split; [exact Hinv|].
  destruct (verify_financials_never_raises Qc _ [unbalanced_line]
              [receivable_example] Hje Hinv)
    as (t & gl_balances & report & Ht & _ & Hreport & Hfail & _).
  exists report. split; [exact Hreport|].
  injection Ht as <-. by apply Hfail.
Defined.

(** *** Sums of exact amounts *)

Section sums.
Import Constants.
Local Open Scope Qc_scope.

Lemma foldl_Qcplus (a : Qc) (l : list Qc) :
  foldl Qcplus a l = a + sumQc l.
Proof.
  unfold sumQc. revert a. induction l as [|x l IH]; intros a; cbn.
  - ring.
  - rewrite (IH (a + x)), (IH (0 + x)). ring.
Qed.

Lemma sumQc_nil : sumQc [] = 0.
Proof. reflexivity. Qed.

Lemma sumQc_cons (x : Qc) (l : list Qc) : sumQc (x :: l) = x + sumQc l.
Proof. unfold sumQc at 1. cbn. rewrite foldl_Qcplus. ring. Qed.

Lemma sumQc_app (l k : list Qc) : sumQc (l ++ k) = sumQc l + sumQc k.
Proof.
  induction l as [|x l IH]; cbn [app].
  - rewrite sumQc_nil. ring.
  - rewrite !sumQc_cons, IH. ring.
Qed.

Lemma sumQc_perm : Proper ((≡ₚ) ==> (=)) sumQc.
Proof.
  intros l k Hlk. induction Hlk as [|x l k _ IH|x y l|l k j _ IH1 _ IH2].
  - done.
  - by rewrite !sumQc_cons, IH.
  - rewrite !sumQc_cons. ring.
  - by rewrite IH1.
Qed.

#[local] Existing Instance sumQc_perm.

Lemma Qc_ltb_lt (x y : Qc) : Qc_ltb x y = true ↔ x < y.
Proof.
  unfold Qc_ltb. rewrite Qclt_alt.
  destruct (x ?= y); split; congruence.
Qed.

Lemma Qc_ltb_ge (x y : Qc) : Qc_ltb x y = false ↔ y ≤ x.
Proof.
  rewrite <-not_true_iff_false, Qc_ltb_lt. split.
  - apply Qcnot_lt_le.
  - apply Qcle_not_lt.
Qed.

Lemma sumQc_opp (l : list Qc) : sumQc (Qcopp <$> l) = - sumQc l.
Proof.
  induction l as [|x l IH]; [done|].
  rewrite fmap_cons, !sumQc_cons, IH. ring.
Qed.

(** The sum of the balances after one posting. *)
Lemma sum_balances_insert (m : gmap Z Qc) k y :
  sum_balances (<[k := y]> m) = sum_balances m - balance m k + y.
Proof.
  unfold sum_balances, balance.
  destruct (m !! k) as [x|] eqn:Hk; cbn.
  - rewrite <-(insert_delete_eq m).
    rewrite <-(insert_delete_id m k x) at 2 by done.
    rewrite !map_to_list_insert by apply lookup_delete_eq.
    rewrite !fmap_cons, !sumQc_cons. cbn. ring.
  - rewrite map_to_list_insert by done.
    rewrite fmap_cons, sumQc_cons. cbn. ring.
Qed.

Lemma sum_balances_post (m : gmap Z Qc) k v :
  sum_balances (post k v m) = sum_balances m + v.
Proof. unfold post. rewrite sum_balances_insert. qc_ops. ring. Qed.

Lemma balance_post (m : gmap Z Qc) k v j :
  balance (post k v m) j
  = if decide (k = j) then balance m k + v else balance m j.
Proof.
  unfold balance at 1, post. rewrite lookup_insert.
  case_decide; subst; done.
Qed.

Lemma post_comm (m : gmap Z Qc) k v k' v' :
  post k v (post k' v' m) = post k' v' (post k v m).
Proof.
  unfold post at 1 3. rewrite !balance_post.
  destruct (decide (k' = k)) as [->|Hne].
  - rewrite decide_True by done. unfold post.
    rewrite !insert_insert_eq. f_equal. qc_ops. ring.
  - rewrite decide_False by done. unfold post.
    by rewrite insert_insert_ne by done.
Qed.

Lemma post_all_cons p ps (m : gmap Z Qc) :
  post_all (p :: ps) m = post_all ps (post p.1 p.2 m).
Proof. reflexivity. Qed.

Lemma post_all_post ps (m : gmap Z Qc) k v :
  post_all ps (post k v m) = post k v (post_all ps m).
Proof.
  revert m. induction ps as [|p ps IH]; intros m; [done|].
  rewrite !post_all_cons, <-IH. f_equal. apply post_comm.
Qed.

Lemma post_all_comm ps qs (m : gmap Z Qc) :
  post_all ps (post_all qs m) = post_all qs (post_all ps m).
Proof.
  revert m. induction ps as [|p ps IH]; intros m; [done|].
  rewrite !post_all_cons, <-IH. f_equal. symmetry. apply post_all_post.
Qed.

Lemma sum_balances_post_all ps (m : gmap Z Qc) :
  sum_balances (post_all ps m) = sum_balances m + sumQc ps.*2.
Proof.
  revert m. induction ps as [|p ps IH]; intros m.
  - cbn [post_all foldl fmap list_fmap]. rewrite sumQc_nil. ring.
  - rewrite post_all_cons, IH, sum_balances_post.
    rewrite fmap_cons, sumQc_cons. ring.
Qed.

(** An invoice is the list of its postings. *)
Lemma project_postings (i : invoice Qc) (m : gmap Z Qc) :
  project i m = post_all (postings i) m.
Proof.
  unfold project, postings. repeat case_decide; [| |done].
  - cbv zeta.
    destruct (flt fzero (ret i)), (gl_set (gl i)), (is_paid i);
      reflexivity.
  - cbv zeta.
    destruct (flt fzero (ret i)), (gl_set (gl i)), (is_paid i);
      reflexivity.
Qed.

Lemma project_comm (i j : invoice Qc) (m : gmap Z Qc) :
  project i (project j m) = project j (project i m).
Proof. rewrite !project_postings. apply post_all_comm. Qed.

End sums.

#[local] Existing Instance sumQc_perm.

(** *** Claim C7: the projector does not depend on the order *)

Section order_independence.

Lemma same_outcome_refl {A} (r : result A) : same_outcome r r.
Proof. by destruct r. Qed.

Lemma same_outcome_trans {A} (r1 r2 r3 : result A) :
  same_outcome r1 r2 → same_outcome r2 r3 → same_outcome r1 r3.
Proof. destruct r1, r2, r3; cbn; congruence || done. Qed.

Lemma for_each_invoices_perm (l l' : list row) :
  l ≡ₚ l' →
  ∀ m : gmap Z Qc,
    same_outcome (Py.for_each invoice_step l m)
                 (Py.for_each invoice_step l' m).
Proof.
  induction 1 as [|x l l' _ IH|x y l|l l' l'' _ IH1 _ IH2]; intros m.
  - done.
  - cbn. destruct (invoice_step x m) as [m'|e]; cbn; [apply IH|done].
  - cbn. unfold invoice_step.
    destruct (read_invoice x) as [i|e], (read_invoice y) as [j|e'];
      cbn; try done.
    rewrite project_comm. apply same_outcome_refl.
  - eapply same_outcome_trans; [apply IH1|apply IH2].
Qed.

End order_independence.



(** *** Claim C10: the generated journal entries balance *)

Section generated_entries.
Import Constants Financials.
Local Open Scope Qc_scope.

Lemma add_je_is_ok num je_date desc ref lines rows :
  is_ok (add_je num je_date desc ref lines rows) ↔ je_balanced lines = true.
Proof.
  unfold add_je. destruct (je_balanced lines); split; try done.
  - by eexists.
  - by intros [? [=]].
Qed.

(** The plug balances any list of lines. *)
Lemma with_plug_balanced (lines : list je_line) :
  total_debit (with_plug lines) = total_credit (with_plug lines).
Proof.
  unfold with_plug, plug.
  destruct (Qc_ltb 0 _) eqn:Hpos;
    [|destruct (Qc_ltb _ 0) eqn:Hneg].
  - unfold total_debit, total_credit. rewrite !map_app, !sumQc_app.
    cbn [map line_dr line_cr fst snd]. rewrite !sumQc_cons, !sumQc_nil.
    fold (total_debit lines) (total_credit lines). ring.
  - unfold total_debit, total_credit. rewrite !map_app, !sumQc_app.
    cbn [map line_dr line_cr fst snd]. rewrite !sumQc_cons, !sumQc_nil.
    fold (total_debit lines) (total_credit lines). ring.
  - apply Qc_ltb_ge in Hpos, Hneg.
    pose proof (Qcle_antisym _ _ Hpos Hneg) as Heq.
    rewrite <-(Qcplus_0_r (total_credit lines)), <-Heq. ring.
Qed.

Lemma is_okb_value_or {A} (d : A) (r : result A) :
  Py.is_okb r = true → r = Ok (Py.value_or d r).
Proof. by destruct r. Qed.

Lemma generate_journal_entries_ok :
  generate_journal_entries = Ok generated_journal.
Proof. apply is_okb_value_or. vm_compute. reflexivity. Qed.

Lemma je_totals_generated : je_totals generated_journal = Ok generated_totals.
Proof. apply is_okb_value_or. vm_compute. reflexivity. Qed.

Lemma journal_balances_generated :
  Py.for_each je_balance_step generated_journal ∅ = Ok journal_balances.
Proof. apply is_okb_value_or. vm_compute. reflexivity. Qed.

Lemma debits_eq_credits_spec e :
  debits_eq_credits e = true → e.2.1 = e.2.2.
Proof.
  unfold debits_eq_credits. intros Heq.
  apply Qc_is_canon. by apply Qeq_bool_eq.
Qed.

End generated_entries.

(** C10, as the code has it.  [generate_journal_entries] returns its 361
    rows without an exception, so no assertion of [add_je] fails (and
    [add_je] succeeds exactly when the totals of the entry differ by less
    than 0.02); each of the 90 entries has total debits equal to total
    credits.  The opening balance lines with the plug balance exactly, for
    any lines; for the table [OB] of the program they balance before the
    plug, the plug is 0, and no plug line is added. *)
Theorem generated_entries_balance :
  (∃ rows t,
     Financials.generate_journal_entries = Ok rows
     ∧ length rows = 361%nat
     ∧ je_totals rows = Ok t
     ∧ length t = 90%nat
     ∧ Forall (λ e : string * (Qc * Qc), e.2.1 = e.2.2) t)
  ∧ (∀ num je_date desc ref lines rows,
       is_ok (Financials.add_je num je_date desc ref lines rows)
       ↔ Financials.je_balanced lines = true)
  ∧ (∀ lines,
       Financials.total_debit (Financials.with_plug lines)
       = Financials.total_credit (Financials.with_plug lines))
  ∧ Financials.plug Financials.ob_lines = fzero
  ∧ Financials.with_plug Financials.ob_lines = Financials.ob_lines.
Proof.
  split; [|split; [|split; [|split]]].
  - exists generated_journal, generated_totals.
    split; [apply generate_journal_entries_ok|].
    split; [by vm_compute|].
    split; [apply je_totals_generated|].
    split; [by vm_compute|].
    assert (Hbal : Forall (λ e, Is_true (debits_eq_credits e))
                          generated_totals)
      by (apply forallb_True; vm_compute; exact I).
    revert Hbal. apply Forall_impl. intros e He.
    by apply debits_eq_credits_spec, Is_true_true.
  - apply add_je_is_ok.
  - apply with_plug_balanced.
  - apply Qc_is_canon. vm_compute. reflexivity.
  - vm_compute. reflexivity.
Qed.

(** C10 as stated fails on the plug: the opening balance table already
    nets to zero, the plug is 0, neither branch adds a line, and the
    opening balance entry holds no plug line. *)
Lemma opening_balance_has_no_plug_line :
  Financials.plug Financials.ob_lines = fzero
  ∧ Financials.with_plug Financials.ob_lines = Financials.ob_lines
  ∧ Forall (λ l : Z * Qc * Qc * string,
              l.2 ≠ "Opening balance plug - AR/AP via invoices")
           (Financials.with_plug Financials.ob_lines).
Proof.
  split; [apply Qc_is_canon; vm_compute; reflexivity|].
  split; [vm_compute; reflexivity|].
  assert (Hno : Forall
            (λ l : Z * Qc * Qc * string,
               Is_true (negb (String.eqb l.2
                  "Opening balance plug - AR/AP via invoices")))
            (Financials.with_plug Financials.ob_lines))
    by (apply forallb_True; vm_compute; exact I).
  revert Hno. apply Forall_impl. intros l Hl.
  apply negb_prop_elim in Hl. intros Heq. apply Hl, Is_true_true.
  by apply String.eqb_eq.
Qed.

(** *** Claims C4 and C5: the reporter *)

Section reporter.
Import Constants.
Local Open Scope Qc_scope.
Implicit Types (gl_balances : gmap Z Qc).

Lemma Qc_abs_neg (b : Qc) : b < 0 → Qc_abs b = - b.
Proof. intros Hb. unfold Qc_abs. by rewrite (proj2 (Qc_ltb_lt _ _) Hb). Qed.

(** The balances read at the account numbers of the items of the
accumulator are the balances of those items. *)
Lemma balance_fmap_items gl_balances (l : list (Z * Qc)) :
  l ⊆ map_to_list gl_balances → balance gl_balances <$> l.*1 = l.*2.
Proof.
  induction l as [|[k b] l IH]; intros Hl; [done|].
  rewrite !fmap_cons. f_equal.
  - unfold balance. cbn.
    assert ((k, b) ∈ map_to_list gl_balances) as Hkb by set_solver.
    apply elem_of_map_to_list in Hkb. by rewrite Hkb.
  - apply IH. set_solver.
Qed.

Lemma sorted_accounts_perm gl_balances :
  sorted_accounts gl_balances ≡ₚ (map_to_list gl_balances).*1.
Proof.
  unfold sorted_accounts. rewrite merge_sort_Permutation.
  apply NoDup_Permutation.
  - apply NoDup_elements.
  - apply NoDup_fst_map_to_list.
  - intros k. rewrite elem_of_elements, elem_of_dom, list_elem_of_fmap.
    split.
    + intros [b Hb]. exists (k, b). split; [done|].
      by apply elem_of_map_to_list.
    + intros ([k' b] & -> & Hkb). exists b.
      by apply elem_of_map_to_list.
Qed.

Lemma balances_sorted_accounts gl_balances :
  balance gl_balances <$> sorted_accounts gl_balances
  ≡ₚ balances_of gl_balances.
Proof.
  rewrite sorted_accounts_perm. unfold balances_of.
  by rewrite balance_fmap_items.
Qed.

Lemma tb_loop_totals gl_balances (ks : list Z) (st : list (line Qc) * Qc * Qc) :
  (foldl (tb_step gl_balances) st ks).1.2
  = st.1.2 + sumQc (debit_part <$> (balance gl_balances <$> ks))
  ∧ (foldl (tb_step gl_balances) st ks).2
    = st.2 + sumQc (credit_part <$> (balance gl_balances <$> ks)).
Proof.
  revert st. induction ks as [|k ks IH]; intros [[ls d] c].
  - cbn [foldl fmap list_fmap]. rewrite sumQc_nil. split; ring.
  - cbn [foldl]. destruct (IH (tb_step gl_balances (ls, d, c) k)) as [-> ->].
    rewrite !fmap_cons, !sumQc_cons.
    unfold tb_step, debit_part at 2, credit_part at 2. qc_ops.
    destruct (Qc_ltb (Qc_abs _) _); [split; cbn; ring|].
    destruct (Qc_ltb 0 _); split; cbn; ring.
Qed.

Lemma debit_part_total (bs : list Qc) :
  sumQc (debit_part <$> bs)
  = positive_total (filter (λ b, ¬ Qc_abs b < Qc_of_dec 1 2) bs).
Proof.
  unfold positive_total. induction bs as [|b bs IH]; [done|].
  rewrite fmap_cons, sumQc_cons, IH, filter_cons. unfold debit_part.
  destruct (Qc_ltb (Qc_abs b) _) eqn:Hsmall.
  - apply Qc_ltb_lt in Hsmall. rewrite decide_False by auto. ring.
  - rewrite decide_True
      by (apply Qcle_not_lt; by apply Qc_ltb_ge).
    rewrite filter_cons. destruct (Qc_ltb 0 b) eqn:Hpos.
    + apply Qc_ltb_lt in Hpos. rewrite decide_True by done.
      by rewrite sumQc_cons.
    + apply Qc_ltb_ge in Hpos.
      rewrite decide_False by (by apply Qcle_not_lt). ring.
Qed.

Lemma small_zero : Qc_abs 0 < Qc_of_dec 1 2.
Proof. by apply Qc_ltb_lt. Qed.

Lemma credit_part_total (bs : list Qc) :
  sumQc (credit_part <$> bs)
  = negative_total (filter (λ b, ¬ Qc_abs b < Qc_of_dec 1 2) bs).
Proof.
  unfold negative_total. induction bs as [|b bs IH]; [done|].
  rewrite fmap_cons, sumQc_cons, IH, filter_cons. unfold credit_part.
  destruct (Qc_ltb (Qc_abs b) _) eqn:Hsmall.
  - apply Qc_ltb_lt in Hsmall. rewrite decide_False by auto. ring.
  - apply Qc_ltb_ge in Hsmall.
    rewrite decide_True by (by apply Qcle_not_lt).
    rewrite filter_cons. destruct (Qc_ltb 0 b) eqn:Hpos.
    + apply Qc_ltb_lt in Hpos.
      rewrite decide_False by (apply Qcle_not_lt; by apply Qclt_le_weak).
      ring.
    + apply Qc_ltb_ge in Hpos.
      assert (b < 0) as Hneg.
      { destruct (Qcle_lt_or_eq _ _ Hpos) as [?| ->]; [done|].
        exfalso. revert Hsmall. apply Qclt_not_le, small_zero. }
      rewrite decide_True by done.
      rewrite fmap_cons, sumQc_cons, (Qc_abs_neg b) by done. ring.
Qed.

#[local] Instance positive_total_perm : Proper ((≡ₚ) ==> (=)) positive_total.
Proof. intros l k Hlk. unfold positive_total. by rewrite Hlk. Qed.

#[local] Instance negative_total_perm : Proper ((≡ₚ) ==> (=)) negative_total.
Proof. intros l k Hlk. unfold negative_total. by rewrite Hlk. Qed.

Lemma total_dr_printed gl_balances :
  total_dr gl_balances = positive_total (printed gl_balances).
Proof.
  unfold total_dr, tb_loop.
  rewrite (proj1 (tb_loop_totals _ _ _)). cbn [fst snd]. qc_ops.
  rewrite debit_part_total, balances_sorted_accounts.
  unfold printed. ring.
Qed.

Lemma total_cr_printed gl_balances :
  total_cr gl_balances = negative_total (printed gl_balances).
Proof.
  unfold total_cr, tb_loop.
  rewrite (proj2 (tb_loop_totals _ _ _)). cbn [fst snd]. qc_ops.
  rewrite credit_part_total, balances_sorted_accounts.
  unfold printed. ring.
Qed.

(** Positive balances minus absolute values of negative balances: the
sum of the balances. *)
Lemma positive_minus_negative (bs : list Qc) :
  positive_total bs - negative_total bs = sumQc bs.
Proof.
  unfold positive_total, negative_total.
  induction bs as [|b bs IH]; [done|].
  rewrite sumQc_cons, <-IH, !filter_cons.
  destruct (decide (0 < b)) as [Hpos|Hpos].
  - rewrite decide_False
      by (apply Qcle_not_lt; by apply Qclt_le_weak).
    rewrite sumQc_cons. ring.
  - apply Qcnot_lt_le in Hpos.
    destruct (decide (b < 0)) as [Hneg|Hneg].
    + rewrite fmap_cons, sumQc_cons, (Qc_abs_neg b) by done. ring.
    + apply Qcnot_lt_le in Hneg.
      assert (b = 0) as -> by (by apply Qcle_antisym). ring.
Qed.

(** Leaving out balances equal to zero changes no total. *)
Lemma printed_all gl_balances :
  (∀ k b, gl_balances !! k = Some b →
          b = 0 ∨ Qc_of_dec 1 2 ≤ Qc_abs b) →
  positive_total (printed gl_balances)
  = positive_total (balances_of gl_balances)
  ∧ negative_total (printed gl_balances)
    = negative_total (balances_of gl_balances).
Proof.
  intros Hgl. unfold printed, balances_of.
  assert (Hbs : Forall (λ b, b = 0 ∨ Qc_of_dec 1 2 ≤ Qc_abs b)
                       (map_to_list gl_balances).*2).
  { apply list.Forall_forall. intros b Hb.
    apply list_elem_of_fmap in Hb as ([k b'] & -> & Hkb).
    apply elem_of_map_to_list in Hkb. by eapply Hgl. }
  induction Hbs as [|b bs Hb _ [IH1 IH2]]; [done|].
  unfold positive_total, negative_total in *. rewrite !filter_cons.
  destruct Hb as [->|Hb].
  - rewrite decide_False by (intros Hn; apply Hn, small_zero).
    rewrite !decide_False by (by apply Qcle_not_lt). done.
  - rewrite decide_True by (by apply Qcle_not_lt).
    rewrite !filter_cons.
    destruct (decide (0 < b)), (decide (b < 0));
      rewrite ?fmap_cons, ?sumQc_cons; split; congruence.
Qed.

(** The loop over a range of account numbers. *)
Lemma range_loop gl_balances (f : Qc → Qc) (ks : list Z) (a : Qc) :
  foldl (λ acc acct,
           if decide (is_Some (gl_balances !! acct))
           then acc + f (balance gl_balances acct) else acc) a ks
  = a + sumQc (f <$> (balance gl_balances
                        <$> filter (λ k, is_Some (gl_balances !! k)) ks)).
Proof.
  revert a. induction ks as [|k ks IH]; intros a.
  - cbn [foldl]. rewrite filter_nil, !fmap_nil, sumQc_nil. ring.
  - cbn [foldl]. rewrite IH, filter_cons.
    destruct (decide (is_Some (gl_balances !! k))).
    + rewrite !fmap_cons, sumQc_cons. ring.
    + done.
Qed.

Lemma accounts_in_range gl_balances (lo n : Z) :
  filter (λ k, is_Some (gl_balances !! k)) (seqZ lo n)
  ≡ₚ (filter (λ e : Z * Qc, (lo ≤ e.1 ≤ lo + n - 1)%Z)
             (map_to_list gl_balances)).*1.
Proof.
  apply NoDup_Permutation.
  - apply list.NoDup_filter, NoDup_seqZ.
  - eapply sublist_NoDup; [apply (NoDup_fst_map_to_list gl_balances)|].
    apply fmap_sublist, sublist_filter.
  - intros k. rewrite list_elem_of_filter, elem_of_seqZ, list_elem_of_fmap.
    split.
    + intros [[b Hb] Hk]. exists (k, b). split; [done|].
      apply list_elem_of_filter. split; [cbn; lia|].
      by apply elem_of_map_to_list.
    + intros ([k' b] & -> & Hkb). apply list_elem_of_filter in Hkb as [Hk Hkb].
      apply elem_of_map_to_list in Hkb. cbn in *. split; [by eexists|lia].
Qed.

Lemma range_balances gl_balances (lo n : Z) :
  balance gl_balances <$> filter (λ k, is_Some (gl_balances !! k)) (seqZ lo n)
  ≡ₚ balances_in lo (lo + n - 1) gl_balances.
Proof.
  rewrite accounts_in_range. unfold balances_in.
  rewrite balance_fmap_items; [done|].
  intros e. rewrite list_elem_of_filter. tauto.
Qed.

Lemma revenue_total gl_balances :
  revenue gl_balances = - sumQc (balances_in 4000 4999 gl_balances).
Proof.
  unfold revenue. qc_ops.
  rewrite (range_loop gl_balances Qcopp), sumQc_opp.
  rewrite (range_balances gl_balances 4000 1000).
  change (4000 + 1000 - 1)%Z with 4999%Z. ring.
Qed.

Lemma expenses_total gl_balances :
  expenses gl_balances = sumQc (balances_in 5000 7999 gl_balances).
Proof.
  unfold expenses. qc_ops.
  rewrite (range_loop gl_balances id), list_fmap_id.
  rewrite (range_balances gl_balances 5000 3000).
  change (5000 + 3000 - 1)%Z with 7999%Z. ring.
Qed.

End reporter.





(** *** Claim C3: the balance checker *)

Section balance_checker.
Import Constants.
Local Open Scope Qc_scope.
Implicit Types (t : list (string * (Qc * Qc))) (ls : list je_reading).

Lemma je_totals_step_read (r : row) t :
  je_totals_step r t
  = (l <- read_je_line r; Ok (totals_add l.1 l.2.1 l.2.2 t)).
Proof.
  unfold je_totals_step, read_je_line.
  destruct (float_or_zero r "debit"); cbn; [|done].
  destruct (float_or_zero r "credit"); cbn; [|done].
  by destruct (Py.getitem r "entry_number").
Qed.

Lemma for_each_je_totals_read (rows : list row) t :
  Py.for_each je_totals_step rows t
  = (ls <- read_all read_je_line rows; Ok (tally t ls)).
Proof.
  revert t. induction rows as [|r rows IH]; intros t; [done|].
  cbn. rewrite je_totals_step_read.
  destruct (read_je_line r) as [l|e]; cbn; [|done].
  rewrite IH. by destruct (read_all read_je_line rows).
Qed.

Lemma read_all_is_ok {A B} (f : A → result B) (P : A → Prop) (l : list A) :
  (∀ x, P x → is_ok (f x)) → Forall P l → is_ok (read_all f l).
Proof.
  intros Hf. induction 1 as [|x l Hx _ [ys IH]]; [by eexists|].
  destruct (Hf x Hx) as [y Hy]. cbn. rewrite Hy, IH. by eexists.
Qed.

Lemma read_je_line_is_ok (r : row) : journal_line_ok r → is_ok (read_je_line r).
Proof.
  intros ([id Hid] & _ & Hdr & Hcr). unfold read_je_line.
  destruct (float_or_zero_is_ok (F:=Qc) r "debit" Hdr) as [dr ->].
  destruct (float_or_zero_is_ok (F:=Qc) r "credit" Hcr) as [cr ->].
  unfold Py.getitem. rewrite Hid. by eexists.
Qed.

Lemma read_all_perm {A B} (f : A → result B) (l l' : list A) :
  l ≡ₚ l' →
  ∀ ys, read_all f l = Ok ys → ∃ ys', read_all f l' = Ok ys' ∧ ys ≡ₚ ys'.
Proof.
  induction 1 as [|x l l' _ IH|x y l|l l' l'' _ IH1 _ IH2]; intros ys.
  - intros [= <-]. by exists [].
  - cbn. destruct (f x) as [b|]; cbn; [|done].
    destruct (read_all f l) as [bs|]; cbn; [|done]. intros [= <-].
    destruct (IH bs eq_refl) as (bs' & -> & Hbs). cbn.
    exists (b :: bs'). split; [done|]. by constructor.
  - cbn. destruct (f y) as [b|]; cbn; [|done].
    destruct (f x) as [a|]; cbn; [|done].
    destruct (read_all f l) as [bs|]; cbn; [|done]. intros [= <-].
    exists (a :: b :: bs). split; [done|]. apply perm_swap.
  - intros Hys. destruct (IH1 ys Hys) as (ys' & Hys' & Hp1).
    destruct (IH2 ys' Hys') as (ys'' & Hys'' & Hp2).
    exists ys''. split; [done|]. by etrans.
Qed.

(** The keys of the totals after one line. *)
Lemma totals_add_keys k dr cr t :
  (totals_add k dr cr t).*1
  = if decide (k ∈ t.*1) then t.*1 else t.*1 ++ [k].
Proof.
  induction t as [|[k' [d c]] t IH]; [done|]. cbn.
  destruct (decide (k' = k)) as [->|Hne].
  - rewrite decide_True by left. done.
  - cbn. rewrite IH. destruct (decide (k ∈ t.*1)).
    + rewrite decide_True by (by right). done.
    + rewrite decide_False; [done|].
      rewrite elem_of_cons. naive_solver.
Qed.

Lemma totals_add_NoDup k dr cr t :
  NoDup t.*1 → NoDup (totals_add k dr cr t).*1.
Proof.
  intros Ht. rewrite totals_add_keys. case_decide; [done|].
  apply list.NoDup_app. split; [done|]. split; [|apply NoDup_singleton].
  intros x Hx ->%list_elem_of_singleton. done.
Qed.

Lemma totals_add_elem_of k dr cr t id :
  id ∈ (totals_add k dr cr t).*1 ↔ id = k ∨ id ∈ t.*1.
Proof.
  rewrite totals_add_keys. case_decide.
  - naive_solver.
  - rewrite elem_of_app, list_elem_of_singleton. naive_solver.
Qed.

(** The totals of an entry after one line. *)
Lemma totals_of_add k dr cr t id :
  totals_of id (totals_add k dr cr t)
  = if decide (k = id) then
      Some match totals_of k t with
           | Some (d, c) => (d + dr, c + cr)
           | None => (0 + dr, 0 + cr)
           end
    else totals_of id t.
Proof.
  induction t as [|[k' [d c]] t IH].
  - cbn. by case_decide.
  - cbn. destruct (decide (k' = k)) as [->|Hne].
    + cbn. destruct (decide (k = id)) as [->|?]; by rewrite ?decide_True.
    + cbn. rewrite IH.
      destruct (decide (k' = id)) as [->|?];
        [by rewrite decide_False by done|done].
Qed.

Lemma totals_of_elem_of t id p :
  NoDup t.*1 → (id, p) ∈ t ↔ totals_of id t = Some p.
Proof.
  induction t as [|[k q] t IH]; intros Ht.
  - cbn. by rewrite elem_of_nil.
  - apply list.NoDup_cons in Ht as [Hk Ht]. cbn.
    rewrite elem_of_cons, (IH Ht).
    destruct (decide (k = id)) as [->|Hne].
    + split; [|naive_solver]. intros [[= ->]|Hid]; [done|].
      exfalso. apply Hk. apply (IH Ht) in Hid.
      apply list_elem_of_fmap. by exists (id, p).
    + naive_solver.
Qed.

Lemma totals_of_None t id : totals_of id t = None ↔ id ∉ t.*1.
Proof.
  induction t as [|[k q] t IH]; cbn.
  - split; [intros _; apply not_elem_of_nil|done].
  - rewrite not_elem_of_cons, <-IH. case_decide; naive_solver.
Qed.

Lemma totals_of_Some t id p : totals_of id t = Some p → id ∈ t.*1.
Proof.
  intros Hp. destruct (decide (id ∈ t.*1)) as [|Hout]; [done|].
  apply totals_of_None in Hout. congruence.
Qed.

Lemma entry_debits_snoc id ls l :
  entry_debits id (ls ++ [l])
  = entry_debits id ls + (if decide (l.1 = id) then l.2.1 else 0).
Proof.
  unfold entry_debits. rewrite list.filter_app, fmap_app, sumQc_app.
  f_equal. rewrite filter_cons, filter_nil.
  case_decide; [|done].
  rewrite fmap_cons, sumQc_cons, fmap_nil, sumQc_nil. ring.
Qed.

Lemma entry_credits_snoc id ls l :
  entry_credits id (ls ++ [l])
  = entry_credits id ls + (if decide (l.1 = id) then l.2.2 else 0).
Proof.
  unfold entry_credits. rewrite list.filter_app, fmap_app, sumQc_app.
  f_equal. rewrite filter_cons, filter_nil.
  case_decide; [|done].
  rewrite fmap_cons, sumQc_cons, fmap_nil, sumQc_nil. ring.
Qed.

Lemma entry_sums_absent id ls :
  id ∉ ls.*1 → entry_debits id ls = 0 ∧ entry_credits id ls = 0.
Proof.
  intros Hid. unfold entry_debits, entry_credits.
  assert (filter (λ l : je_reading, l.1 = id) ls = []) as ->; [|done].
  induction ls as [|l ls IH]; [done|].
  apply not_elem_of_cons in Hid as [Hl Hid].
  rewrite filter_cons, decide_False by done. by apply IH.
Qed.

(** After the lines [ls], the totals hold an entry for each identifier
of [ls], with the sums of its debits and of its credits. *)
Lemma tally_spec ls :
  NoDup (tally [] ls).*1
  ∧ (∀ id, id ∈ (tally [] ls).*1 ↔ id ∈ ls.*1)
  ∧ (∀ id, id ∈ ls.*1 →
           totals_of id (tally [] ls)
           = Some (entry_debits id ls, entry_credits id ls)).
Proof.
  induction ls as [|l ls (Hnd & Hkeys & Hsums)] using rev_ind.
  - split; [constructor|]. split; [done|]. intros id Hid. by inversion Hid.
  - unfold tally in *. rewrite foldl_app. cbn [foldl].
    split; [by apply totals_add_NoDup|]. split.
    + intros id. rewrite totals_add_elem_of, Hkeys, fmap_app, elem_of_app.
      cbn. rewrite list_elem_of_singleton. naive_solver.
    + intros id Hid. rewrite totals_of_add, entry_debits_snoc,
        entry_credits_snoc.
      destruct (decide (l.1 = id)) as [<-|Hne].
      * f_equal. destruct (decide (l.1 ∈ ls.*1)) as [Hin|Hout].
        -- rewrite (Hsums _ Hin). done.
        -- destruct (entry_sums_absent _ _ Hout) as [-> ->].
           rewrite <-Hkeys in Hout.
           apply totals_of_None in Hout. rewrite Hout. done.
      * rewrite fmap_app, elem_of_app in Hid. cbn in Hid.
        rewrite list_elem_of_singleton in Hid.
        destruct Hid as [Hin|?]; [|done].
        rewrite (Hsums _ Hin). f_equal. f_equal; ring.
Qed.

Lemma check_entries_count t (st : list (line Qc) * nat) :
  (foldl check_entry st t).2
  = (st.2 + length (filter (λ e : string * (Qc * Qc),
                              out_of_balance e.2.1 e.2.2 = true) t))%nat.
Proof.
  revert st. induction t as [|[k [d c]] t IH]; intros st.
  - rewrite filter_nil. cbn. lia.
  - cbn [foldl]. rewrite IH, filter_cons. unfold check_entry. cbn [fst snd].
    destruct (out_of_balance d c);
      [rewrite decide_True by done|rewrite decide_False by done];
      cbn [snd length]; lia.
Qed.

Lemma unbalanced_filter t :
  unbalanced t
  = length (filter (λ e : string * (Qc * Qc),
                      out_of_balance e.2.1 e.2.2 = true) t).
Proof. unfold unbalanced, check_entries. by rewrite check_entries_count. Qed.

Lemma entry_sums_perm ls ls' id :
  ls ≡ₚ ls' →
  entry_debits id ls = entry_debits id ls'
  ∧ entry_credits id ls = entry_credits id ls'.
Proof.
  intros Hls. unfold entry_debits, entry_credits. by rewrite Hls.
Qed.

Lemma unbalanced_ids_perm ls ls' :
  ls ≡ₚ ls' → unbalanced_ids ls ≡ₚ unbalanced_ids ls'.
Proof.
  intros Hls. unfold unbalanced_ids.
  rewrite (list_filter_iff _
    (λ id, out_of_balance (entry_debits id ls') (entry_credits id ls')
           = true)).
  - apply filter_Permutation. unfold entry_ids.
    apply NoDup_Permutation; [apply NoDup_remove_dups..|].
    intros id. rewrite !elem_of_remove_dups. by rewrite Hls.
  - intros id. by destruct (entry_sums_perm ls ls' id Hls) as [-> ->].
Qed.

(** The unbalanced entries of the totals are the unbalanced identifiers
of the lines. *)
Lemma unbalanced_tally ls :
  unbalanced (tally [] ls) = length (unbalanced_ids ls).
Proof.
  destruct (tally_spec ls) as (Hnd & Hkeys & Hsums).
  rewrite unbalanced_filter.
  assert (Hids : (tally [] ls).*1 ≡ₚ entry_ids ls).
  { apply NoDup_Permutation; [done|apply NoDup_remove_dups|].
    intros id. unfold entry_ids. by rewrite elem_of_remove_dups. }
  unfold unbalanced_ids. rewrite <-Hids.
  assert (Hval : Forall (λ e : string * (Qc * Qc),
                           e.2 = (entry_debits e.1 ls, entry_credits e.1 ls))
                        (tally [] ls)).
  { apply list.Forall_forall. intros [id p] Hid. cbn.
    apply totals_of_elem_of in Hid; [|done].
    rewrite Hsums in Hid; [congruence|].
    by eapply Hkeys, totals_of_Some. }
  clear Hnd Hkeys Hsums Hids.
  induction Hval as [|[id p] t Hp _ IH]; [done|].
  cbn in Hp. subst p. rewrite fmap_cons, !filter_cons. cbn [fst snd].
  destruct (decide (out_of_balance _ _ = true)); cbn [length];
    by rewrite IH.
Qed.

End balance_checker.


Lemma balanced_lines_ok : Forall journal_line_ok balanced_lines.
Proof.
  repeat constructor; try by eexists.
  - eexists. split; [reflexivity|integer_literal].
  - eexists. split; [reflexivity|]. right. by eexists.
  - eexists. split; [reflexivity|]. by left.
  - eexists. split; [reflexivity|integer_literal].
  - eexists. split; [reflexivity|]. by left.
  - eexists. split; [reflexivity|]. right. by eexists.
Qed.


(** *** Printing an integer and reading it back *)

Section decimal_strings.
Import Decimal.

Lemma str_digits (z : Z) :
  0 ≤ z →
  ∃ d, d ≠ Nil ∧ Py.str z = NilEmpty.string_of_uint d ∧ Z.of_uint d = z.
Proof.
  intros Hz. destruct z as [|p|p]; [| |lia].
  - by exists (D0 Nil).
  - exists (Pos.to_uint p).
    pose proof (DecimalPos.Unsigned.to_uint_nonnil p) as Hnil.
    split; [done|]. split.
    + unfold Py.str. cbn. by destruct (Pos.to_uint p).
    + unfold Z.of_uint. by rewrite DecimalPos.Unsigned.of_to.
Qed.

Lemma digits_no_dot (d : uint) :
  Py.split_dot (NilEmpty.string_of_uint d)
  = (NilEmpty.string_of_uint d, None).
Proof. induction d; cbn; by rewrite ?IHd. Qed.

Lemma digits_head (d : uint) :
  d ≠ Nil →
  ∃ c s, NilEmpty.string_of_uint d = String c s
         ∧ Ascii.eqb c "-"%char = false.
Proof. destruct d; [done|..]; intros _; by eexists _, _. Qed.

Lemma decimal_of_str (z : Z) :
  0 ≤ z → Py.decimal_of_string (Py.str z) = Some (z, 0%nat).
Proof.
  intros Hz. destruct (str_digits z Hz) as (d & Hnil & -> & Hd).
  destruct (digits_head d Hnil) as (c & s & Hs & Hc).
  unfold Py.decimal_of_string. rewrite Hs, Hc, <-Hs, digits_no_dot.
  replace (NilEmpty.string_of_uint d) with (NilZero.string_of_uint d)
    by (by destruct d).
  rewrite NilZero.usu by done. by rewrite Hd.
Qed.

Lemma float_str (z : Z) : 0 ≤ z → float (Py.str z) = Ok (Qc_of_dec z 0).
Proof. intros Hz. unfold float. by rewrite decimal_of_str. Qed.

Lemma truthy_str (z : Z) : Py.truthy (Py.str z) = true.
Proof.
  unfold Py.str. destruct z as [|p|p]; [done| |done]. cbn.
  pose proof (DecimalPos.Unsigned.to_uint_nonnil p).
  by destruct (Pos.to_uint p).
Qed.

End decimal_strings.

(** *** Claim C6: the trial balance of the generated data *)

Section generated_invoices.
Import Constants Financials.
Local Open Scope Qc_scope.

Lemma neutralb_neutral (inv : row) : neutralb inv = true → neutral inv.
Proof.
  unfold neutralb, neutral. destruct (read_invoice inv) as [i|]; [|done].
  intros Hsum. exists i. split; [done|].
  apply Qc_is_canon. by apply Qeq_bool_eq.
Qed.

(** Neutral invoices leave the sum of the balances as it was. *)
Lemma for_each_neutral (invs : list row) (m : gmap Z Qc) :
  Forall neutral invs →
  ∃ m', Py.for_each invoice_step invs m = Ok m'
        ∧ sum_balances m' = sum_balances m.
Proof.
  intros Hinvs. revert m.
  induction Hinvs as [|inv invs (i & Hi & Hsum) _ IH]; intros m.
  - by exists m.
  - cbn. unfold invoice_step at 1. rewrite Hi. cbn.
    destruct (IH (project i m)) as (m' & -> & Hm'). exists m'.
    split; [done|].
    rewrite Hm', project_postings, sum_balances_post_all, Hsum. ring.
Qed.

(** A receivable or payable invoice with a gl_account other than 0 and
a retainage that is not negative is neutral. *)
Lemma postings_neutral (i : invoice Qc) (g : Z) :
  gl i = Some g → g ≠ 0%Z → 0 ≤ ret i →
  sumQc (postings i).*2 = 0.
Proof.
  intros Hgl Hg Hret. unfold postings, gl_set. rewrite Hgl.
  destruct (decide (g = 0%Z)) as [?|_]; [done|]. qc_ops.
  assert (Hzero : Qc_ltb 0 (ret i) = false → ret i = 0).
  { intros Hle%Qc_ltb_ge. by apply Qcle_antisym. }
  repeat case_decide; [| |reflexivity].
  - destruct (Qc_ltb 0 (ret i)) eqn:Hpos, (is_paid i);
      cbn [app fmap list_fmap snd];
      rewrite ?sumQc_cons, ?sumQc_nil; try rewrite (Hzero eq_refl); ring.
  - destruct (Qc_ltb 0 (ret i)) eqn:Hpos, (is_paid i);
      cbn [app fmap list_fmap snd];
      rewrite ?sumQc_cons, ?sumQc_nil; try rewrite (Hzero eq_refl); ring.
Qed.

Lemma Qc_of_dec_nonneg (z : Z) (e : nat) : (0 ≤ z)%Z → 0 ≤ Qc_of_dec z e.
Proof.
  intros Hz. unfold Qcle, Qc_of_dec. cbn [this Q2Qc].
  rewrite !Qred_correct. unfold Qle. cbn. lia.
Qed.

Lemma round_half_even_nonneg (x : Qc) : 0 ≤ x → (0 ≤ round_half_even x)%Z.
Proof.
  intros Hx. unfold round_half_even.
  assert (0 ≤ Qfloor x)%Z as Hf.
  { change 0%Z with (Qfloor 0). by apply Qfloor_resp_le. }
  destruct (_ ?= _); [destruct (Z.even _)|..]; lia.
Qed.

Lemma retainage_nonneg (amt pct : Z) :
  (0 ≤ amt)%Z → (0 ≤ pct)%Z →
  ∃ r, retainage amt pct = Py.str r ∧ (0 ≤ r)%Z.
Proof.
  intros Hamt Hpct. eexists. split; [reflexivity|].
  apply round_half_even_nonneg.
  rewrite <-(Qcmult_0_r (Qc_of_Z amt)).
  apply Qcmult_le_mono_nonneg_l.
  - apply (Z2Qc_inj_le 0 amt) in Hamt. by rewrite Z2Qc_inj_0 in Hamt.
  - by apply Qc_of_dec_nonneg.
Qed.

(** Reading a generated row. *)
Lemma read_invoice_row
    (number ty date amount due desc status vendor client project gl pct held
     : string) (a r : Qc) (g : Z) :
  float amount = Ok a →
  Py.truthy held = true → float held = Ok r →
  Py.truthy gl = true → Py.int gl = Ok g →
  read_invoice (invoice_row number ty date amount due desc status vendor
                  client project gl pct held)
  = Ok {| amt := a; ret := r; gl := Some g;
          is_paid := bool_decide (status = "paid"); invoice_type := ty |}.
Proof.
  intros Ha Hheld Hr Hgl Hg. unfold read_invoice, Py.getitem, Py.get.
  set (inv := invoice_row _ _ _ _ _ _ _ _ _ _ _ _ _).
  assert (inv !! "amount" = Some amount) as -> by (vm_compute; reflexivity).
  assert (inv !! "retainage_held" = Some held) as ->
    by (vm_compute; reflexivity).
  assert (inv !! "gl_account" = Some gl) as -> by (vm_compute; reflexivity).
  assert (inv !! "status" = Some status) as -> by (vm_compute; reflexivity).
  assert (inv !! "invoice_type" = Some ty) as -> by (vm_compute; reflexivity).
  cbn [bind]. rewrite Ha. cbn [bind]. rewrite Hheld, Hr. cbn [bind].
  rewrite Hgl, Hg. reflexivity.
Qed.

(** A generated payable row is neutral. *)
Lemma payable_row_neutral
    (number date due desc status vendor client project : string)
    (amt gl_acct : Z) :
  (0 ≤ amt)%Z → (0 < gl_acct)%Z → Py.int (Py.str gl_acct) = Ok gl_acct →
  neutral (invoice_row number "payable" date (Py.str amt) due desc status
             vendor client project (Py.str gl_acct) "5" (retainage amt 5)).
Proof.
  intros Hamt Hgl Hint.
  destruct (retainage_nonneg amt 5 Hamt) as (r & -> & Hr); [lia|].
  eexists. split.
  - apply read_invoice_row.
    + by apply float_str.
    + apply truthy_str.
    + by apply float_str.
    + apply truthy_str.
    + exact Hint.
  - apply (postings_neutral _ gl_acct); cbn [gl ret]; [done|lia|].
    by apply Qc_of_dec_nonneg.
Qed.

Lemma push_neutral (mk : Z → row) (st : inv_state) :
  (∀ n, neutral (mk n)) → Forall neutral st.1 → Forall neutral (push mk st).1.
Proof.
  intros Hmk Hst. unfold push. cbn [fst].
  apply Forall_app. split; [done|]. by repeat constructor.
Qed.

Lemma for_each_invariant {A S} (P : A → Prop) (I : S → Prop)
    (body : A → S → result S) (l : list A) :
  (∀ x s, P x → I s → ∃ s', body x s = Ok s' ∧ I s') →
  Forall P l → ∀ s, I s → ∃ s', Py.for_each body l s = Ok s' ∧ I s'.
Proof.
  intros Hbody Hl. induction Hl as [|x l Hx _ IH]; intros s Hs.
  - by exists s.
  - destruct (Hbody x s Hx Hs) as (s' & Hs' & HI). cbn. rewrite Hs'.
    by apply IH.
Qed.

Lemma index_elem_of {A} (l : list A) (i : nat) :
  (i < length l)%nat → ∃ x, Py.index l i = Ok x ∧ x ∈ l.
Proof.
  intros Hi. destruct (lookup_lt_is_Some_2 l i Hi) as [x Hx].
  exists x. unfold Py.index. rewrite Hx. split; [done|].
  by eapply list_elem_of_lookup_2.
Qed.

Lemma sumQc_pos (l : list Qc) : Forall (λ x, 0 < x) l → l ≠ [] → 0 < sumQc l.
Proof.
  intros Hl Hne. destruct Hl as [|x l Hx Hl]; [done|].
  rewrite sumQc_cons. apply Qcplus_pos_nonneg; [done|].
  clear Hne. induction Hl as [|y l Hy _ IH]; [done|].
  rewrite sumQc_cons. apply Qcplus_nonneg_nonneg; [|done].
  by apply Qclt_le_weak.
Qed.

(** Every vendor has a positive share and a positive account number,
which [int] reads back from its print. *)
Lemma vendor_splits_positive :
  Forall (λ v : vendor,
            0 < v.2 ∧ (0 < v.1.2)%Z ∧ Py.int (Py.str v.1.2) = Ok v.1.2)
         vendor_splits.
Proof.
  assert (Hb : Forall (λ v : vendor,
                 Is_true (Qc_ltb 0 v.2 && bool_decide (0 < v.1.2)%Z
                          && reads_back v.1.2))
                 vendor_splits)
    by (apply forallb_True; vm_compute; exact I).
  revert Hb. apply Forall_impl.
  intros v [[Hpct Hgl]%andb_prop_elim Hint]%andb_prop_elim.
  split; [|split].
  - by apply Qc_ltb_lt, Is_true_true.
  - by apply bool_decide_unpack in Hgl.
  - unfold reads_back in Hint.
    destruct (Py.int (Py.str v.1.2)) as [g|]; [|done].
    by apply bool_decide_unpack in Hint as ->.
Qed.

(** Every month end has a due date. *)
Lemma due_dates_ok :
  Forall (λ d, is_ok (due_in_30_days d)) MONTH_ENDS.
Proof.
  assert (Hb : Forall (λ d, Is_true (Py.is_okb (due_in_30_days d)))
                      MONTH_ENDS)
    by (apply forallb_True; vm_compute; exact I).
  revert Hb. apply Forall_impl. intros d Hd.
  destruct (due_in_30_days d); [by eexists|done].
Qed.

Lemma payable_vendor_neutral (rnd : draws) (mi : nat) (d mname : string)
    (month_total total_pct : Qc) (kv : nat * vendor) (st : inv_state) :
  kv.2 ∈ vendor_splits → total_pct ≠ 0 → is_ok (due_in_30_days d) →
  Forall neutral st.1 →
  ∃ st', payable_vendor rnd mi d mname month_total total_pct kv st = Ok st'
         ∧ Forall neutral st'.1.
Proof.
  destruct kv as [k [[vendor_name gl_acct] pct]].
  intros Hv Hpct [due Hdue] Hst. unfold payable_vendor.
  rewrite decide_False by done. cbv zeta.
  case_decide as Hamt; [by exists st|].
  rewrite Hdue. cbn [bind]. eexists. split; [reflexivity|].
  pose proof vendor_splits_positive as Hpos.
  rewrite list.Forall_forall in Hpos.
  destruct (Hpos _ Hv) as (_ & Hgl & Hint).
  apply push_neutral; [|done]. intros n.
  apply payable_row_neutral; [lia|done..].
Qed.

Lemma monthly_direct_ok :
  allocate_to_months INVOICE_DIRECT_TOTAL monthly_rev_totals
  = Ok monthly_direct.
Proof. apply is_okb_value_or. vm_compute. reflexivity. Qed.

Lemma payable_month_neutral (rnd : draws) (mi : nat) (st : inv_state) :
  (mi < 12)%nat → sample_ok (sample rnd mi) → Forall neutral st.1 →
  ∃ st', payable_month rnd monthly_direct mi st = Ok st'
         ∧ Forall neutral st'.1.
Proof.
  intros Hmi (Hsub & _ & Hlen) Hst. unfold payable_month.
  destruct (index_elem_of MONTH_ENDS mi) as (d & -> & Hd); [done|].
  destruct (index_elem_of MONTH_NAMES mi) as (mname & -> & _); [done|].
  destruct (index_elem_of monthly_direct mi) as (month_total & -> & _);
    [done|].
  cbn [bind]. cbv zeta.
  apply (for_each_invariant (λ kv : nat * vendor, kv.2 ∈ vendor_splits)
           (λ st : inv_state, Forall neutral st.1)); [| |done].
  - intros kv st' Hkv Hst'. apply payable_vendor_neutral; [done| | |done].
    + intros Heq. apply (Qclt_not_eq 0 0); [|done]. rewrite <-Heq at 2.
      apply sumQc_pos.
      * apply Forall_fmap, list.Forall_forall. intros v Hv.
        pose proof vendor_splits_positive as Hpos.
        rewrite list.Forall_forall in Hpos.
        by destruct (Hpos v (Hsub v Hv)).
      * destruct (sample rnd mi); [cbn in Hlen; lia|done].
    + pose proof due_dates_ok as Hdue.
      rewrite list.Forall_forall in Hdue. by apply Hdue.
  - apply list.Forall_forall. intros [k v] Hkv. cbn.
    apply Hsub. apply elem_of_zip_r in Hkv. done.
Qed.

Lemma receivables_ok :
  Py.for_each receivable_month (seq 0 12) opening_state
  = Ok receivables_state.
Proof. apply is_okb_value_or. vm_compute. reflexivity. Qed.

Lemma receivables_neutral : Forall neutral receivables_state.1.
Proof.
  assert (Hb : Forall (λ inv, Is_true (neutralb inv)) receivables_state.1)
    by (apply forallb_True; vm_compute; exact I).
  revert Hb. apply Forall_impl. intros inv Hinv.
  by apply neutralb_neutral, Is_true_true.
Qed.

(** The generator returns, and every invoice it returns is neutral. *)
Lemma generate_invoices_neutral (rnd : draws) :
  (∀ mi, (mi < 12)%nat → sample_ok (sample rnd mi)) →
  ∃ invs, generate_invoices rnd = Ok invs ∧ Forall neutral invs.
Proof.
  intros Hrnd. unfold generate_invoices, invoices. cbv zeta.
  fold opening_state. rewrite receivables_ok. cbn [bind].
  rewrite monthly_direct_ok. cbn [bind].
  destruct (for_each_invariant (λ mi, (mi < 12)%nat)
              (λ st : inv_state, Forall neutral st.1)
              (payable_month rnd monthly_direct) (seq 0 12))
    with (s := receivables_state) as (st & -> & Hst).
  - intros mi st Hmi Hst. apply payable_month_neutral; auto.
  - apply list.Forall_forall. intros mi Hmi%elem_of_seq. lia.
  - apply receivables_neutral.
  - by exists st.1.
Qed.

End generated_invoices.

(** C6, in exact arithmetic.  Whatever vendors and coin flips the
    generator draws, it returns journal lines and invoices, and the
    accumulator built from all the journal lines and then all the invoices
    has balances that sum to 0, which is within $1.00. *)
Theorem full_dataset_trial_balance (rnd : Financials.draws) :
  (∀ mi, (mi < 12)%nat → Financials.sample_ok (Financials.sample rnd mi)) →
  ∃ je_rows invoices gl_balances,
    Financials.generate_journal_entries = Ok je_rows
    ∧ Financials.generate_invoices rnd = Ok invoices
    ∧ trial_balance je_rows invoices = Ok gl_balances
    ∧ sum_balances gl_balances = fzero
    ∧ flt (fabs (sum_balances gl_balances)) (of_dec 10 1) = true.
Proof.
  intros Hrnd.
  destruct (generate_invoices_neutral rnd Hrnd) as (invs & Hinvs & Hneutral).
  destruct (for_each_neutral invs journal_balances Hneutral)
    as (gl_balances & Hgl & Hsum).
  assert (Hzero : sum_balances gl_balances = fzero).
  { rewrite Hsum. apply Qc_is_canon. vm_compute. reflexivity. }
  exists generated_journal, invs, gl_balances.
  split; [apply generate_journal_entries_ok|]. split; [done|].
  split.
  { unfold trial_balance. by rewrite journal_balances_generated. }
  split; [done|]. by rewrite Hzero.
Qed.

Lemma first_vendors_ok (mi : nat) :
  Financials.sample_ok (Financials.sample first_vendors mi).
Proof.
  unfold Financials.sample_ok, first_vendors. cbn [Financials.sample].
  assert (Hsub : take (4 + mi mod 2) Financials.vendor_splits
                 `sublist_of` Financials.vendor_splits)
    by apply sublist_take.
  split; [by apply sublist_subseteq|]. split.
  - eapply sublist_NoDup; [|exact Hsub].
    apply (NoDup_fmap_1 (λ v : Financials.vendor, v.1.1)).
    apply (bool_decide_unpack _). vm_compute. exact I.
  - rewrite length_take.
    change (length Financials.vendor_splits) with 13%nat.
    pose proof (Nat.mod_upper_bound mi 2). lia.
Qed.

Lemma full_dataset_trial_balance_witness :
  (∀ mi, (mi < 12)%nat →
         Financials.sample_ok (Financials.sample first_vendors mi))
  ∧ ∃ je_rows invoices gl_balances,
      Financials.generate_journal_entries = Ok je_rows
      ∧ Financials.generate_invoices first_vendors = Ok invoices
      ∧ trial_balance je_rows invoices = Ok gl_balances
      ∧ sum_balances gl_balances = fzero
      ∧ flt (fabs (sum_balances gl_balances)) (of_dec 10 1) = true.
Proof.
  split; [intros mi _; apply first_vendors_ok|].
  apply (full_dataset_trial_balance first_vendors).
  intros mi _. apply first_vendors_ok.
Defined.

(** ** Further properties of the code *)

Import Constants Financials Props.

(** Order and equality of [Qc] as those of [Q]. *)
Ltac Qc_unfold :=
  unfold Qcle, Qclt, Qc_of_dec;
  repeat match goal with
    | |- context [pow10 ?e] =>
        let p := eval compute in (pow10 e) in change (pow10 e) with p
    end;
  cbn [this Qcplus Qcminus Qcopp Qcmult Q2Qc Qc_of_Z].

Ltac Qc_to_Q :=
  repeat match goal with
    | |- _ ∧ _ => split
    | |- @eq Qc _ _ => apply Qc_is_canon
    end;
  Qc_unfold; rewrite ?Qred_correct.

Ltac Qc_to_Q_in H :=
  unfold Qcle, Qclt, Qc_of_dec in H;
  repeat match type of H with
    | context [pow10 ?e] =>
        let p := eval compute in (pow10 e) in change (pow10 e) with p in H
    end;
  cbn [this Qcplus Qcminus Qcopp Qcmult Q2Qc Qc_of_Z] in H;
  rewrite ?Qred_correct in H.

Section allocation.
Local Open Scope Qc_scope.

Lemma for_each_app {A S} (body : A → S → result S) (l k : list A) (s : S) :
  Py.for_each body (l ++ k) s
  = (s' <- Py.for_each body l s; Py.for_each body k s').
Proof.
  revert s. induction l as [|x l IH]; intros s; [done|].
  cbn. destruct (body x s); [apply IH|done].
Qed.

Lemma Qc_eq_Qeq (x y : Qc) : x = y → (this x == this y)%Q.
Proof. by intros ->. Qed.

Lemma round_half_even_bounds (x : Qc) :
  Qc_of_Z (round_half_even x) - Q2Qc (1 # 2) ≤ x
  ∧ x ≤ Qc_of_Z (round_half_even x) + Q2Qc (1 # 2).
Proof.
  unfold round_half_even.
  pose proof (Qfloor_le x) as Hlo. pose proof (Qlt_floor x) as Hhi.
  rewrite inject_Z_plus in Hhi. change (inject_Z 1) with 1%Q in Hhi.
  destruct (_ ?= _) eqn:Hc;
    [apply Qceq_alt, Qc_eq_Qeq in Hc|apply Qclt_alt in Hc
    |apply Qcgt_alt in Hc];
    Qc_to_Q_in Hc; [destruct (Z.even _)|..];
    Qc_to_Q; rewrite ?inject_Z_plus; change (inject_Z 1) with 1%Q;
    set (f := inject_Z (Qfloor x)) in *; clearbody f;
    set (y := this x) in *; clearbody y; lra.
Qed.

Lemma round_half_even_Z (z : Z) : round_half_even (Qc_of_Z z) = z.
Proof.
  unfold round_half_even.
  cbn [this Qc_of_Z]. rewrite Qfloor_Z.
  replace (Qc_of_Z z - Qc_of_Z z) with (Q2Qc 0) by ring.
  reflexivity.
Qed.

Lemma round2_cents (x : Qc) : cents x → round2 x = x.
Proof.
  intros [z ->]. unfold round2.
  replace (Qc_of_dec z 2 * Qc_of_Z 100) with (Qc_of_Z z).
  - by rewrite round_half_even_Z.
  - Qc_to_Q. unfold Qeq. cbn. lia.
Qed.

Lemma cents_round2 (x : Qc) : cents (round2 x).
Proof. by eexists. Qed.

Lemma cents_Z (z : Z) : cents (Qc_of_Z z).
Proof. exists (100 * z)%Z. Qc_to_Q. unfold Qeq. cbn. lia. Qed.

Lemma cents_0 : cents 0.
Proof. exists 0%Z. Qc_to_Q. reflexivity. Qed.

Lemma cents_add (x y : Qc) : cents x → cents y → cents (x + y).
Proof.
  intros [a ->] [b ->]. exists (a + b)%Z. Qc_to_Q. unfold Qeq. cbn. lia.
Qed.

Lemma cents_opp (x : Qc) : cents x → cents (- x).
Proof. intros [a ->]. exists (- a)%Z. Qc_to_Q. unfold Qeq. cbn. lia. Qed.

Lemma cents_sub (x y : Qc) : cents x → cents y → cents (x - y).
Proof. intros Hx Hy. apply cents_add; [done|by apply cents_opp]. Qed.

Lemma cents_sum (l : list Qc) : Forall cents l → cents (sumQc l).
Proof.
  induction 1 as [|x l Hx _ IH]; [apply cents_0|].
  rewrite sumQc_cons. by apply cents_add.
Qed.

Lemma allocate_prefix (annual : Z) (weights : list Z) (n : nat) :
  (n ≤ 11)%nat → (n ≤ length weights)%nat → sumZ weights ≠ 0%Z →
  Py.for_each (allocate_step annual weights (sumZ weights)) (seq 0 n) ([], 0)
  = Ok (share annual (sumZ weights) <$> take n weights,
        sumQc (share annual (sumZ weights) <$> take n weights)).
Proof.
  intros Hn Hlen HW. induction n as [|n IH]; [done|].
  rewrite seq_S, for_each_app, IH by lia. cbn [bind Py.for_each plus].
  destruct (lookup_lt_is_Some_2 weights n) as [w Hw]; [lia|].
  unfold allocate_step, Py.index. rewrite Hw.
  rewrite decide_True by lia. cbn [bind]. rewrite decide_False by done.
  rewrite (take_S_r _ _ _ Hw), fmap_app. cbn [fmap list_fmap].
  rewrite sumQc_app, sumQc_cons, sumQc_nil. cbn [bind]. unfold share.
  f_equal. f_equal. ring.
Qed.

Lemma allocate_to_months_value (annual : Z) (weights : list Z) :
  (11 ≤ length weights)%nat → sumZ weights ≠ 0%Z →
  let shares := share annual (sumZ weights) <$> take 11 weights in
  allocate_to_months annual weights
  = Ok (shares ++ [Qc_of_Z annual - sumQc shares]).
Proof.
  intros Hlen HW shares. unfold allocate_to_months.
  change (seq 0 12) with (seq 0 11 ++ [11%nat]).
  rewrite for_each_app, allocate_prefix by (done || lia).
  cbn [bind Py.for_each allocate_step]. rewrite decide_False by lia.
  cbn [bind fst]. fold shares. do 3 f_equal.
  apply round2_cents, cents_sub; [apply cents_Z|].
  apply cents_sum, Forall_fmap, Forall_true. intros w. apply cents_round2.
Qed.




Lemma round2_bounds (x : Qc) :
  round2 x - Qc_of_dec 5 3 ≤ x ∧ x ≤ round2 x + Qc_of_dec 5 3.
Proof.
  destruct (round_half_even_bounds (x * Qc_of_Z 100)) as [Hlo Hhi].
  unfold round2. set (r := round_half_even _) in *. clearbody r.
  Qc_to_Q_in Hlo. Qc_to_Q_in Hhi. Qc_to_Q.
  all: rewrite (Qmake_Qdiv r 100); unfold Qdiv;
    change (/ inject_Z 100)%Q with (1 # 100)%Q;
    change (inject_Z 100) with (100 # 1)%Q in Hlo, Hhi;
    set (y := this x) in *; clearbody y;
    set (f := inject_Z r) in *; clearbody f; lra.
Qed.




End allocation.

Section formatting.
Import Decimal.

Lemma zfill_zeros w s : zfill w s = zeros (w - String.length s) +:+ s.
Proof. reflexivity. Qed.

Lemma uint_of_zeros (k : nat) (s : string) (d : uint) :
  NilEmpty.uint_of_string s = Some d →
  ∃ d', NilEmpty.uint_of_string (zeros k +:+ s) = Some d'
        ∧ Z.of_uint d' = Z.of_uint d.
Proof.
  intros Hs. induction k as [|k (d' & Hd' & Hz)]; [by exists d|].
  exists (D0 d'). split; [|done].
  change (zeros (S k) +:+ s) with (String "0" (zeros k +:+ s)).
  cbn [NilEmpty.uint_of_string]. by rewrite Hd'.
Qed.

(** The digits of [zfill w (str z)] read back as [z]. *)
Lemma uint_of_zfill (w : nat) (z : Z) :
  0 ≤ z →
  ∃ d, NilEmpty.uint_of_string (zfill w (Py.str z)) = Some d
       ∧ Z.of_uint d = z.
Proof.
  intros Hz. destruct (str_digits z Hz) as (d & _ & Hstr & Hd).
  rewrite zfill_zeros, Hstr, <-Hd.
  apply uint_of_zeros, NilEmpty.usu.
Qed.

Lemma zfill_inj (w : nat) (n m : Z) :
  0 ≤ n → 0 ≤ m → zfill w (Py.str n) = zfill w (Py.str m) → n = m.
Proof.
  intros Hn Hm Heq.
  destruct (uint_of_zfill w n Hn) as (d & Hd & <-).
  destruct (uint_of_zfill w m Hm) as (d' & Hd' & <-).
  rewrite Heq in Hd. congruence.
Qed.

(** X5.  The entry numbers [f"JE-{num:04d}"]
    that [add_je] writes for two counters that are not negative are equal
    only if the counters are: distinct entries are never merged by the
    balance checker, also beyond JE-9999. *)
Theorem entry_number_injective (n m : Z) :
  0 ≤ n → 0 ≤ m → entry_number n = entry_number m → n = m.
Proof.
  intros Hn Hm Heq. apply (zfill_inj 4); [done..|].
  unfold entry_number in Heq. cbn [String.append] in Heq. by simplify_eq.
Qed.

Lemma split_dot_digits (d : uint) (f : string) :
  Py.split_dot (NilEmpty.string_of_uint d +:+ String "." f)
  = (NilEmpty.string_of_uint d, Some f).
Proof.
  induction d; simpl; [done|..]; by rewrite IHd.
Qed.

Lemma two_digits (r : Z) :
  0 ≤ r < 100 →
  ∃ u, NilZero.uint_of_string (zfill 2 (Py.str r)) = Some u
       ∧ Z.of_uint u = r
       ∧ String.length (zfill 2 (Py.str r)) = 2%nat.
Proof.
  intros Hr.
  assert (forallb two_digits_ok (seqZ 0 100) = true) as Hall
    by (vm_compute; reflexivity).
  rewrite forallb_forall in Hall.
  specialize (Hall r). unfold two_digits_ok in Hall.
  destruct (NilZero.uint_of_string _) as [u|].
  - exists u. split; [done|].
    apply andb_prop in Hall as [H1 H2].
    + apply bool_decide_eq_true in H1, H2. done.
    + apply list_elem_of_In, elem_of_seqZ. lia.
  - discriminate Hall. apply list_elem_of_In, elem_of_seqZ. lia.
Qed.

Lemma round_half_even_nonpos (x : Qc) :
  (x ≤ 0)%Qc → round_half_even x ≤ 0.
Proof.
  intros Hx. destruct (round_half_even_bounds x) as [Hlo _].
  set (r := round_half_even x) in *. clearbody r.
  Qc_to_Q_in Hlo. Qc_to_Q_in Hx.
  assert (inject_Z r <= 1 # 2)%Q as Hr by lra.
  unfold Qle in Hr. cbn in Hr. lia.
Qed.

Lemma decimal_of_string_minus (a : ascii) (s : string) (m : Z) (e : nat) :
  Ascii.eqb a "-"%char = false →
  Py.decimal_of_string (String a s) = Some (m, e) →
  Py.decimal_of_string (String "-" (String a s)) = Some (- m, e).
Proof.
  intros Ha. unfold Py.decimal_of_string. cbv beta iota. rewrite Ha.
  change (Ascii.eqb "-" "-") with true. cbv beta iota.
  destruct (Py.split_dot (String a s)) as [ip [f|]];
    destruct (NilZero.uint_of_string ip); try done;
    [destruct (NilZero.uint_of_string f); try done|];
    intros [= <- <-]; reflexivity.
Qed.

Lemma decimal_of_format_2f (x : Qc) :
  Py.decimal_of_string (format_2f x)
  = Some (round_half_even (x * Qc_of_Z 100)%Qc, 2%nat).
Proof.
  unfold format_2f.
  set (c := round_half_even _). set (n := Z.abs c).
  assert (0 ≤ n / 100) as Hq by (apply Z.div_pos; lia).
  assert (0 ≤ n mod 100 < 100) as Hr by (apply Z.mod_pos_bound; lia).
  destruct (str_digits _ Hq) as (d & Hnil & Hstr & Hd).
  destruct (two_digits _ Hr) as (u & Hu & Hur & Hlen).
  destruct (digits_head d Hnil) as (a & s & Hs & Ha).
  assert (Py.decimal_of_string
            (Py.str (n / 100) +:+ "." +:+ zfill 2 (Py.str (n mod 100)))
          = Some (n, 2%nat)) as Hbody.
  { unfold Py.decimal_of_string. rewrite Hstr, Hs.
    change (String a s +:+ ?t) with (String a (s +:+ t)).
    cbv beta iota. rewrite Ha.
    change (String a (s +:+ "." +:+ ?f)) with (String a s +:+ String "." f).
    rewrite <-Hs, split_dot_digits.
    replace (NilEmpty.string_of_uint d) with (NilZero.string_of_uint d)
      by (by destruct d).
    rewrite NilZero.usu by done. rewrite Hu, Hlen, Hd, Hur.
    do 2 f_equal. change (10 ^ Z.of_nat 2) with 100.
    pose proof (Z.div_mod n 100). lia. }
  assert (Py.str (n / 100) +:+ "." +:+ zfill 2 (Py.str (n mod 100))
          = String a (s +:+ "." +:+ zfill 2 (Py.str (n mod 100)))) as Hcons
    by (by rewrite Hstr, Hs).
  destruct (Qc_ltb x 0) eqn:Hneg.
  - change ("-" +:+ ?t) with (String "-" t).
    rewrite Hcons in Hbody |- *.
    rewrite (decimal_of_string_minus _ _ _ _ Ha Hbody).
    do 2 f_equal. apply Qc_ltb_lt in Hneg.
    assert (c ≤ 0); [|lia].
    apply round_half_even_nonpos.
    rewrite <-(Qcmult_0_l (Qc_of_Z 100)).
    apply Qcmult_le_compat_r; [by apply Qclt_le_weak|done].
  - change (EmptyString +:+ ?t) with t. rewrite Hbody.
    do 2 f_equal. apply Qc_ltb_ge in Hneg.
    assert (0 ≤ c); [|lia].
    apply round_half_even_nonneg.
    rewrite <-(Qcmult_0_l (Qc_of_Z 100)).
    by apply Qcmult_le_compat_r.
Qed.

Lemma float_format_2f (x : Qc) : float (format_2f x) = Ok (round2 x).
Proof. unfold float. by rewrite decimal_of_format_2f. Qed.

Lemma truthy_format_2f (x : Qc) : Py.truthy (format_2f x) = true.
Proof.
  unfold format_2f. destruct (Qc_ltb x 0); [done|].
  change (EmptyString +:+ ?t) with t.
  set (q := _ / 100).
  pose proof (truthy_str q) as Hq. by destruct (Py.str q).
Qed.

(** Reading back a cell written by [fmt]. *)
Lemma float_or_zero_fmt (r : row) (k : string) (amount : Qc) :
  r !! k = Some (fmt amount) → float_or_zero r k = Ok (round2 amount).
Proof.
  intros Hk. unfold float_or_zero, Py.getitem. rewrite Hk. cbn [bind].
  unfold fmt. case_decide as H0.
  - subst. cbn [Py.truthy]. f_equal. symmetry.
    apply round2_cents, cents_0.
  - by rewrite truthy_format_2f, float_format_2f.
Qed.


Lemma entry_number_injective_witness :
  0 ≤ 7 ∧ 0 ≤ 7 ∧ entry_number 7 = entry_number 7 ∧ 7 = 7.
Proof.
  assert (0 ≤ 7) as H7 by lia.
  split; [exact H7|]. split; [exact H7|]. split; [reflexivity|].
  exact (entry_number_injective 7 7 H7 H7 eq_refl).
Defined.


End formatting.

Section journal_rows.
Local Open Scope Qc_scope.

Lemma je_row_cells (num : Z) (je_date desc ref : string) (l : je_line) :
  let r := je_row num je_date desc ref l in
  r !! "entry_number" = Some (entry_number num)
  ∧ r !! "account_number" = Some (Py.str l.1.1.1)
  ∧ r !! "debit" = Some (fmt (line_dr l))
  ∧ r !! "credit" = Some (fmt (line_cr l)).
Proof.
  destruct l as [[[acct dr] cr] ldesc]. unfold je_row, line_dr, line_cr.
  cbn [fst snd].
  generalize (entry_number num) (Py.str acct) (fmt dr) (fmt cr).
  intros. repeat split; vm_compute; reflexivity.
Qed.

(** What the balance checker reads in a row written by [add_je]. *)
Lemma read_je_row (num : Z) (je_date desc ref : string) (l : je_line) :
  read_je_line (je_row num je_date desc ref l)
  = Ok (entry_number num, (round2 (line_dr l), round2 (line_cr l))).
Proof.
  destruct (je_row_cells num je_date desc ref l) as (Hn & _ & Hdr & Hcr).
  unfold read_je_line.
  rewrite (float_or_zero_fmt _ "debit" _ Hdr).
  rewrite (float_or_zero_fmt _ "credit" _ Hcr).
  cbn [bind]. unfold Py.getitem. by rewrite Hn.
Qed.

Lemma read_all_je_rows num je_date desc ref (lines : list je_line) :
  read_all read_je_line (je_row num je_date desc ref <$> lines)
  = Ok ((λ l, (entry_number num, (round2 (line_dr l), round2 (line_cr l))))
        <$> lines).
Proof.
  induction lines as [|l lines IH]; [done|].
  cbn [fmap list_fmap read_all]. rewrite read_je_row. cbn [bind].
  fold (fmap (M:=list) (je_row num je_date desc ref) lines).
  rewrite IH. reflexivity.
Qed.

(** The totals of lines that all belong to one entry. *)
Lemma tally_one_entry (k : string) (d c : Qc) (ls : list (Qc * Qc)) :
  tally [(k, (d, c))] ((λ p, (k, p)) <$> ls)
  = [(k, (d + sumQc ls.*1, c + sumQc ls.*2))].
Proof.
  revert d c. induction ls as [|[dr cr] ls IH]; intros d c.
  - cbn [fmap list_fmap]. rewrite sumQc_nil. unfold tally. cbn [foldl].
    f_equal. f_equal. f_equal; ring.
  - unfold tally in *. cbn [fmap list_fmap foldl totals_add fst snd].
    rewrite decide_True by done. rewrite IH. qc_ops.
    cbn [fmap list_fmap fst snd]. rewrite !sumQc_cons.
    f_equal. f_equal. f_equal; ring.
Qed.

Lemma je_totals_add_je num je_date desc ref (lines : list je_line) :
  je_totals (je_row num je_date desc ref <$> lines)
  = Ok match lines with
       | [] => []
       | _ => [(entry_number num,
                (sumQc (round2 ∘ line_dr <$> lines),
                 sumQc (round2 ∘ line_cr <$> lines)))]
       end.
Proof.
  unfold je_totals. rewrite for_each_je_totals_read, read_all_je_rows.
  cbn [bind]. f_equal. destruct lines as [|l lines]; [done|].
  cbn [fmap list_fmap]. unfold tally at 1. cbn [foldl totals_add fst snd].
  fold (tally [(entry_number num,
                (fadd fzero (round2 (line_dr l)),
                 fadd fzero (round2 (line_cr l))))]).
  change (λ l : je_line,
            (entry_number num, (round2 (line_dr l), round2 (line_cr l))))
    with ((λ p : Qc * Qc, (entry_number num, p))
          ∘ (λ l : je_line, (round2 (line_dr l), round2 (line_cr l)))).
  rewrite list_fmap_compose, tally_one_entry. qc_ops. rewrite !sumQc_cons.
  rewrite <-!list_fmap_compose.
  change (fst ∘ _) with (round2 ∘ line_dr).
  change (snd ∘ _) with (round2 ∘ line_cr).
  change ((round2 ∘ ?f) l) with (round2 (f l)).
  f_equal. f_equal. f_equal; ring.
Qed.

Lemma round2_cents_fmap {A} (f : A → Qc) (l : list A) :
  Forall (λ x, cents (f x)) l → round2 ∘ f <$> l = f <$> l.
Proof.
  induction 1 as [|x l Hx _ IH]; [done|].
  cbn [fmap list_fmap compose]. rewrite round2_cents by done.
  f_equal. apply IH.
Qed.



End journal_rows.

Section exceptions.
Context {F : Type} {AF : Arith F}.

Lemma for_each_raise {A S} (P : A → Prop) (body : A → S → result S)
    (pre post : list A) (x : A) (e : exn) :
  (∀ y s, P y → is_ok (body y s)) →
  (∀ s, body x s = Raise e) →
  Forall P pre →
  ∀ s, Py.for_each body (pre ++ x :: post) s = Raise e.
Proof.
  intros Hok Hx Hpre s. rewrite for_each_app.
  destruct (for_each_is_ok P body pre Hok Hpre s) as [s' ->].
  cbn [bind Py.for_each]. by rewrite Hx.
Qed.

(** X8.  [verify_financials] raises
    [KeyError] when a row lacks a column it indexes: [KeyError("debit")]
    at the first journal line without a debit column, when the lines
    before it are well formed; and [KeyError("amount")] at the first
    invoice without an amount, when the journal lines and the invoices
    before it are well formed. *)
Theorem verify_financials_missing_key
    (je_rows pre post invoices : list row) (r : row) :
  (Forall journal_line_ok pre → r !! "debit" = None →
   verify_financials (F:=F) (pre ++ r :: post) invoices
   = Raise (KeyError "debit"))
  ∧ (Forall journal_line_ok je_rows → Forall invoice_ok pre →
     r !! "amount" = None →
     verify_financials (F:=F) je_rows (pre ++ r :: post)
     = Raise (KeyError "amount")).
Proof.
  split.
  - intros Hpre Hr. unfold verify_financials, je_totals.
    rewrite (for_each_raise journal_line_ok _ pre post r (KeyError "debit"));
      [reflexivity| | |done].
    + intros y s. apply je_totals_step_is_ok.
    + intros s. unfold je_totals_step, float_or_zero, Py.getitem.
      by rewrite Hr.
  - intros Hje Hpre Hr. unfold verify_financials.
    destruct (for_each_is_ok journal_line_ok je_totals_step je_rows
                je_totals_step_is_ok Hje []) as [t Ht].
    unfold je_totals. rewrite Ht. cbn [bind]. unfold trial_balance.
    destruct (for_each_is_ok journal_line_ok je_balance_step je_rows
                je_balance_step_is_ok Hje ∅) as [gl Hgl].
    rewrite Hgl. cbn [bind].
    rewrite (for_each_raise invoice_ok _ pre post r (KeyError "amount"));
      [reflexivity| | |done].
    + intros y s. apply invoice_step_is_ok.
    + intros s. unfold invoice_step, read_invoice, Py.getitem.
      by rewrite Hr.
Qed.

Lemma read_invoice_type (inv : row) (i : invoice F) :
  read_invoice inv = Ok i → inv !! "invoice_type" = Some (invoice_type i).
Proof.
  unfold read_invoice. intros H.
  repeat match type of H with
    | Py.bind ?r _ = Ok _ =>
        destruct r eqn:?; cbn [bind] in H; [|discriminate H]
    end.
  injection H as <-. cbn [invoice_type].
  unfold Py.getitem in *. destruct (inv !! "invoice_type"); by simplify_eq.
Qed.

(** An invoice that is neither a receivable nor a payable. *)
Lemma invoice_step_other_type (inv : row) (ty : string)
    (gl_balances : gmap Z F) :
  invoice_ok inv → inv !! "invoice_type" = Some ty →
  ty ≠ "receivable" → ty ≠ "payable" →
  invoice_step inv gl_balances = Ok gl_balances.
Proof.
  intros Hok Hty Hr Hp. unfold invoice_step.
  destruct (read_invoice_is_ok inv Hok) as [i Hi]. rewrite Hi. cbn [bind].
  apply read_invoice_type in Hi. rewrite Hty in Hi. injection Hi as Hi.
  unfold project. rewrite <-Hi. by rewrite !decide_False by done.
Qed.

(** X9.  An invoice whose [invoice_type]
    is neither "receivable" nor "payable" (the comparison is exact, case
    included) is read, so its cells must be well formed, but changes no
    balance: the accumulator and the whole report are those of the run
    without it. *)
Theorem other_invoice_types_ignored
    (je_rows pre post : list row) (inv : row) (ty : string) :
  invoice_ok inv → inv !! "invoice_type" = Some ty →
  ty ≠ "receivable" → ty ≠ "payable" →
  trial_balance (F:=F) je_rows (pre ++ inv :: post)
  = trial_balance je_rows (pre ++ post)
  ∧ verify_financials (F:=F) je_rows (pre ++ inv :: post)
    = verify_financials je_rows (pre ++ post).
Proof.
  intros Hok Hty Hr Hp.
  assert (trial_balance (F:=F) je_rows (pre ++ inv :: post)
          = trial_balance je_rows (pre ++ post)) as Htb.
  { unfold trial_balance.
    destruct (Py.for_each je_balance_step je_rows ∅) as [gl|]; [|done].
    cbn [bind]. rewrite !for_each_app.
    destruct (Py.for_each invoice_step pre gl) as [gl'|]; [|done].
    cbn [bind Py.for_each].
    by rewrite (invoice_step_other_type inv ty gl' Hok Hty Hr Hp). }
  split; [done|]. unfold verify_financials. by rewrite Htb.
Qed.

End exceptions.

Lemma verify_financials_missing_key_witness :
  Forall journal_line_ok [unbalanced_line]
  ∧ (∅ : row) !! "debit" = None
  ∧ verify_financials (F:=Qc) ([unbalanced_line] ++ [∅]) []
    = Raise (KeyError "debit").
Proof.
  assert (Forall journal_line_ok [unbalanced_line]) as Hpre
    by (constructor; [apply unbalanced_line_ok|constructor]).
  split; [exact Hpre|]. split; [reflexivity|].
  exact (proj1 (verify_financials_missing_key (F:=Qc) [] [unbalanced_line]
                  [] [] ∅) Hpre eq_refl).
Defined.

Lemma other_invoice_types_ignored_witness :
  invoice_ok credit_memo
  ∧ credit_memo !! "invoice_type" = Some "credit_memo"
  ∧ trial_balance (F:=Qc) [] ([receivable_example] ++ credit_memo :: [])
    = trial_balance [] ([receivable_example] ++ []).
Proof.
  assert (invoice_ok credit_memo) as Hok.
  { split; [eexists; split; [reflexivity|by eexists]|].
    split; [by intros s [=]|].
    split; [intros s [= <-]; right; integer_literal|].
    split; by eexists. }
  split; [exact Hok|]. split; [reflexivity|].
  refine (proj1 (other_invoice_types_ignored (F:=Qc) [] [receivable_example]
                   [] credit_memo "credit_memo" Hok eq_refl _ _));
    discriminate.
Defined.

#[local] Existing Instance sumQc_perm.

Section sums_of_balances.
Local Open Scope Qc_scope.

Lemma postings_imbalance (i : invoice Qc) :
  sumQc (postings i).*2 = imbalance i.
Proof.
  unfold postings, imbalance. qc_ops.
  destruct (decide (invoice_type i = "receivable"));
    [|destruct (decide (invoice_type i = "payable"))];
    destruct (gl_set (gl i)), (Qc_ltb 0 (ret i)), (is_paid i);
    cbn [app fmap list_fmap snd];
    rewrite ?sumQc_cons, ?sumQc_nil; ring.
Qed.


Lemma net_debits_add k dr cr t :
  net_debits (totals_add k dr cr t) = net_debits t + (dr - cr).
Proof.
  unfold net_debits. induction t as [|[k' [d c]] t IH].
  - cbn [totals_add fmap list_fmap fst snd]. qc_ops.
    rewrite sumQc_cons, !sumQc_nil. ring.
  - cbn [totals_add]. case_decide.
    + cbn [fmap list_fmap fst snd]. qc_ops. rewrite !sumQc_cons. ring.
    + cbn [fmap list_fmap fst snd]. rewrite !sumQc_cons.
      cbn [fmap list_fmap fst snd] in IH. rewrite IH. ring.
Qed.

Lemma journal_steps_sum (rows : list row) t t' (gl gl' : gmap Z Qc) :
  Py.for_each je_totals_step rows t = Ok t' →
  Py.for_each je_balance_step rows gl = Ok gl' →
  sum_balances gl' - sum_balances gl = net_debits t' - net_debits t.
Proof.
  revert t gl. induction rows as [|r rows IH]; intros t gl.
  - intros [= <-] [= <-]. ring.
  - cbn [Py.for_each].
    destruct (je_totals_step r t) as [t1|] eqn:Ht; [|done].
    destruct (je_balance_step r gl) as [gl1|] eqn:Hgl; [|done].
    cbn [bind]. intros Ht' Hgl'. specialize (IH _ _ Ht' Hgl').
    unfold je_totals_step in Ht. unfold je_balance_step in Hgl.
    destruct (Py.getitem r "account_number") as [a|]; [|done].
    cbn [bind] in Hgl.
    destruct (Py.int a) as [acct|]; [|done]. cbn [bind] in Hgl.
    destruct (float_or_zero r "debit") as [dr|]; [|done].
    destruct (float_or_zero r "credit") as [cr|]; [|done].
    cbn [bind] in Ht, Hgl.
    destruct (Py.getitem r "entry_number"); [|done]. cbn [bind] in Ht.
    injection Ht as <-. injection Hgl as <-.
    rewrite sum_balances_post in IH. rewrite net_debits_add in IH.
    qc_ops.
    transitivity (sum_balances gl' - (sum_balances gl + (dr - cr))
                  + (dr - cr)); [ring|].
    rewrite IH. ring.
Qed.



End sums_of_balances.

Section report_rows.
Context {F : Type} {AF : Arith F}.

Lemma tb_loop_rows (gl_balances : gmap Z F) (ks : list Z)
    (st : list (line F) * F * F) :
  (foldl (tb_step gl_balances) st ks).1.1
  = st.1.1 ++ (tb_row gl_balances
               <$> filter (λ k, shown gl_balances k = true) ks).
Proof.
  revert st. induction ks as [|k ks IH]; intros [[lines dr] cr].
  - cbn. by rewrite app_nil_r.
  - cbn [foldl]. rewrite IH, filter_cons.
    unfold tb_step, shown. cbn [fst].
    destruct (flt (fabs (balance gl_balances k)) (of_dec 1 2));
      cbn [negb].
    + by rewrite decide_False by done.
    + rewrite decide_True by done.
      destruct (flt fzero (balance gl_balances k)) eqn:Hpos;
        cbn [fst fmap list_fmap]; rewrite <-app_assoc; cbn [app];
        do 2 f_equal; unfold tb_row; by rewrite Hpos.
Qed.

Lemma StronglySorted_le_lt (l : list Z) :
  StronglySorted Z.le l → NoDup l → StronglySorted Z.lt l.
Proof.
  induction 1 as [|x l _ IH Hx]; [constructor|].
  intros [Hnin Hnd]%list.NoDup_cons. constructor; [by apply IH|].
  rewrite list.Forall_forall in Hx |- *. intros y Hy.
  specialize (Hx y Hy). assert (x ≠ y) by (by intros ->). lia.
Qed.

Lemma StronglySorted_filter {A} (R : relation A) (P : A → Prop)
    `{∀ x, Decision (P x)} (l : list A) :
  StronglySorted R l → StronglySorted R (filter P l).
Proof.
  induction 1 as [|x l _ IH Hx]; [constructor|].
  rewrite filter_cons. case_decide; [|done].
  constructor; [done|].
  rewrite list.Forall_forall in Hx |- *.
  intros y [_ Hy]%list_elem_of_filter. by apply Hx.
Qed.

Lemma sorted_accounts_sorted (gl_balances : gmap Z F) :
  StronglySorted Z.lt (sorted_accounts gl_balances).
Proof.
  apply StronglySorted_le_lt.
  - apply (StronglySorted_merge_sort _).
  - unfold sorted_accounts. rewrite merge_sort_Permutation.
    apply NoDup_elements.
Qed.

(** X12.  The rows of the printed trial balance are
    one row per account of the accumulator whose balance is not within
    0.01 of zero, in strictly ascending order of account number; a row
    shows the balance in the debit column when it is positive, else its
    opposite in the credit column. *)
Theorem trial_balance_rows (gl_balances : gmap Z F) :
  let accts := filter (λ k, shown gl_balances k = true)
                      (sorted_accounts gl_balances) in
  (tb_loop gl_balances).1.1 = tb_row gl_balances <$> accts
  ∧ StronglySorted Z.lt accts
  ∧ (∀ acct, acct ∈ accts
             ↔ is_Some (gl_balances !! acct)
               ∧ flt (fabs (balance gl_balances acct)) (of_dec 1 2) = false).
Proof.
  intros accts. split; [|split].
  - unfold tb_loop. by rewrite tb_loop_rows.
  - apply StronglySorted_filter, sorted_accounts_sorted.
  - intros acct. unfold accts. rewrite list_elem_of_filter.
    unfold sorted_accounts. rewrite merge_sort_Permutation.
    rewrite elem_of_elements, elem_of_dom. unfold shown.
    rewrite negb_true_iff. tauto.
Qed.

End report_rows.

#[local] Existing Instance sumQc_perm.

Section payable_amounts.
Local Open Scope Qc_scope.

Lemma Qc_of_dec_0 (z : Z) : Qc_of_dec z 0 = Qc_of_Z z.
Proof. Qc_to_Q. reflexivity. Qed.

Lemma foldl_Zadd (a : Z) (l : list Z) : foldl Z.add a l = (a + sumZ l)%Z.
Proof.
  unfold sumZ. revert a. induction l as [|x l IH]; intros a; cbn [foldl].
  - lia.
  - rewrite (IH (a + x)%Z), (IH (0 + x)%Z). lia.
Qed.

Lemma sumZ_cons (x : Z) (l : list Z) : sumZ (x :: l) = (x + sumZ l)%Z.
Proof. unfold sumZ at 1. cbn [foldl]. by rewrite foldl_Zadd. Qed.

Lemma sumZ_app (l k : list Z) : sumZ (l ++ k) = (sumZ l + sumZ k)%Z.
Proof.
  unfold sumZ at 1. rewrite foldl_app, foldl_Zadd. done.
Qed.

Lemma Qc_of_Z_sumZ (l : list Z) : Qc_of_Z (sumZ l) = sumQc (Qc_of_Z <$> l).
Proof.
  unfold sumZ, sumQc. rewrite <-Z2Qc_inj_0.
  generalize 0%Z. induction l as [|x l IH]; intros a; [done|].
  cbn [foldl fmap list_fmap]. rewrite IH. by rewrite Z2Qc_inj_add.
Qed.

(** The rounded shares of a total add up to it within half a unit per
    share. *)
Lemma rounded_shares (M P : Qc) (ps : list Qc) :
  P ≠ 0 →
  let amts := (λ p, round_half_even (M * p / P)) <$> ps in
  M * sumQc ps / P - Qc_of_Z (Z.of_nat (length ps)) * Q2Qc (1 # 2)
  ≤ Qc_of_Z (sumZ amts)
  ∧ Qc_of_Z (sumZ amts)
    ≤ M * sumQc ps / P + Qc_of_Z (Z.of_nat (length ps)) * Q2Qc (1 # 2).
Proof.
  intros HP amts. unfold amts. rewrite Qc_of_Z_sumZ, <-list_fmap_compose.
  clear amts. induction ps as [|p ps [IHlo IHhi]].
  - cbn [fmap list_fmap length]. rewrite !sumQc_nil.
    replace (M * 0 / P) with (Q2Qc 0) by (field; done).
    change (Z.of_nat 0) with 0%Z.
    split; Qc_to_Q; change (inject_Z 0) with 0%Q; lra.
  - cbn [fmap list_fmap length compose]. rewrite !sumQc_cons.
    destruct (round_half_even_bounds (M * p / P)) as [Hlo Hhi].
    set (r := Qc_of_Z (round_half_even (M * p / P))) in *. clearbody r.
    set (S := sumQc (Qc_of_Z ∘ _ <$> ps)) in *. clearbody S.
    rewrite Nat2Z.inj_succ, <-Z.add_1_r, Z2Qc_inj_add.
    set (n := Qc_of_Z (Z.of_nat (length ps))) in *. clearbody n.
    replace (M * (p + sumQc ps) / P) with (M * p / P + M * sumQc ps / P)
      by (field; done).
    set (x := M * p / P) in *. clearbody x.
    set (y := M * sumQc ps / P) in *. clearbody y.
    Qc_to_Q_in Hlo. Qc_to_Q_in Hhi. Qc_to_Q_in IHlo. Qc_to_Q_in IHhi.
    split; Qc_to_Q; change (inject_Z 1) with 1%Q; lra.
Qed.

Lemma vendor_splits_bounds :
  Forall (λ v : vendor,
            Qc_of_dec 2 2 ≤ v.2 ∧ v.2 ≤ Qc_of_dec 22 2
            ∧ (5000 ≤ v.1.2 ≤ 5130)%Z ∧ Py.int (Py.str v.1.2) = Ok v.1.2)
         vendor_splits.
Proof.
  assert (Hb : Forall (λ v : vendor,
                 Is_true (negb (Qc_ltb v.2 (Qc_of_dec 2 2))
                          && negb (Qc_ltb (Qc_of_dec 22 2) v.2)
                          && bool_decide (5000 ≤ v.1.2 ≤ 5130)%Z
                          && reads_back v.1.2))
                 vendor_splits)
    by (apply forallb_True; vm_compute; exact I).
  revert Hb. apply Forall_impl.
  intros v [[[Hlo Hhi]%andb_prop_elim Hgl]%andb_prop_elim Hint]%andb_prop_elim.
  split; [|split; [|split]].
  - apply Qc_ltb_ge, negb_true_iff, Is_true_true, Hlo.
  - apply Qc_ltb_ge, negb_true_iff, Is_true_true, Hhi.
  - by apply bool_decide_unpack in Hgl.
  - unfold reads_back in Hint.
    destruct (Py.int (Py.str v.1.2)) as [g|]; [|done].
    by apply bool_decide_unpack in Hint as ->.
Qed.

Lemma Qcdiv_mult (x y : Qc) : y ≠ 0 → x / y * y = x.
Proof. intros Hy. field. done. Qed.

Lemma payable_amount_large (M P p : Qc) :
  Qc_of_Z 1000000 ≤ M → Qc_of_dec 2 2 ≤ p → 0 < P → P ≤ Qc_of_dec 11 1 →
  (10000 ≤ round_half_even (M * p / P))%Z.
Proof.
  intros HM Hp HP0 HP1.
  assert (P ≠ 0) as HP by (intros ->; by apply (Qclt_not_eq 0 0)).
  pose proof (Qcdiv_mult (M * p) P HP) as Hx.
  destruct (round_half_even_bounds (M * p / P)) as [_ Hhi].
  set (x := M * p / P) in *. clearbody x.
  set (r := round_half_even x) in *. clearbody r.
  apply Qc_eq_Qeq in Hx.
  Qc_to_Q_in Hx. Qc_to_Q_in HM. Qc_to_Q_in Hp. Qc_to_Q_in HP0.
  Qc_to_Q_in HP1. Qc_to_Q_in Hhi.
  change (inject_Z 1000000) with (1000000 # 1)%Q in HM.
  assert (10001 <= x)%Q as Hx1.
  { set (a := this x) in *. set (b := this P) in *. set (c := this M) in *.
    set (e := this p) in *. clearbody a b c e. nra. }
  assert ((20001 # 2) <= inject_Z r)%Q as Hr by lra.
  unfold Qle in Hr. cbn in Hr. lia.
Qed.

Lemma payable_vendor_row (rnd : draws) (mi : nat) (d mname : string)
    (M P : Qc) (k : nat) (v : vendor) (st : inv_state) :
  v ∈ vendor_splits → Qc_of_Z 1000000 ≤ M → 0 < P → P ≤ Qc_of_dec 11 1 →
  is_ok (due_in_30_days d) →
  ∃ r, payable_vendor rnd mi d mname M P (k, v) st
       = Ok (st.1 ++ [r], (st.2 + 1)%Z)
       ∧ payable_invoice st.2 v.1.2 (round_half_even (M * v.2 / P)) r.
Proof.
  destruct v as [[vendor_name gl_acct] pct].
  intros Hv HM HP0 HP1 [due Hdue]. unfold payable_vendor.
  assert (P ≠ 0) as HP by (intros ->; by apply (Qclt_not_eq 0 0)).
  rewrite decide_False by done. cbv zeta. cbn [fst snd].
  pose proof vendor_splits_bounds as Hb.
  rewrite list.Forall_forall in Hb.
  destruct (Hb _ Hv) as (Hpct & _ & Hgl & Hint). cbn [fst snd] in *.
  pose proof (payable_amount_large M P pct HM Hpct HP0 HP1) as Hamt.
  rewrite decide_False by lia. rewrite Hdue. cbn [bind].
  eexists. split; [reflexivity|].
  set (amt := round_half_even _) in *. clearbody amt.
  destruct (retainage_nonneg amt 5) as (held & Hheld & Hheld0); [lia..|].
  rewrite Hheld. clear Hheld.
  generalize (coin rnd mi k). intros flip.
  split; [vm_compute; reflexivity|]. split; [vm_compute; reflexivity|].
  split; [vm_compute; reflexivity|].
  exists held. eexists. split; [done|].
  rewrite <-(Qc_of_dec_0 amt), <-(Qc_of_dec_0 held).
  apply read_invoice_row.
  - apply float_str. lia.
  - apply truthy_str.
  - by apply float_str.
  - apply truthy_str.
  - done.
Qed.

Lemma payable_specs_length n M P vs :
  length (payable_specs n M P vs) = length vs.
Proof. revert n. induction vs; intros n; cbn; by rewrite ?IHvs. Qed.

Lemma payable_specs_numbers n M P vs :
  (payable_specs n M P vs).*1.*1 = seqZ n (Z.of_nat (length vs)).
Proof.
  revert n. induction vs as [|v vs IH]; intros n; [done|].
  cbn [payable_specs fmap list_fmap fst length].
  rewrite (seqZ_cons n) by lia. f_equal.
  fold (fmap (M:=list) (@fst (Z * Z) Z) (payable_specs (n + 1) M P vs)).
  fold (fmap (M:=list) (@fst Z Z) (payable_specs (n + 1) M P vs).*1).
  rewrite IH. f_equal; lia.
Qed.

Lemma payable_specs_amounts n M P vs :
  (payable_specs n M P vs).*2
  = (λ p, round_half_even (M * p / P)) <$> vs.*2.
Proof.
  revert n. induction vs as [|v vs IH]; intros n; [done|].
  cbn [payable_specs fmap list_fmap snd]. f_equal. apply IH.
Qed.

Lemma payable_specs_accounts n M P vs :
  vs ⊆ vendor_splits →
  Forall (λ s : Z * Z * Z, (5000 ≤ s.1.2 ≤ 5130)%Z) (payable_specs n M P vs).
Proof.
  revert n. induction vs as [|v vs IH]; intros n Hvs; [constructor|].
  cbn [payable_specs]. constructor.
  - pose proof vendor_splits_bounds as Hb.
    rewrite list.Forall_forall in Hb. apply Hb, Hvs. by left.
  - apply IH. intros x Hx. apply Hvs. by right.
Qed.

Lemma payable_vendors_rows (rnd : draws) (mi : nat) (d mname : string)
    (M P : Qc) (vs : list vendor) (k0 : nat) (st : inv_state) :
  vs ⊆ vendor_splits → Qc_of_Z 1000000 ≤ M → 0 < P → P ≤ Qc_of_dec 11 1 →
  is_ok (due_in_30_days d) →
  ∃ rows,
    Py.for_each (payable_vendor rnd mi d mname M P)
                (zip (seq k0 (length vs)) vs) st
    = Ok (st.1 ++ rows, (st.2 + Z.of_nat (length vs))%Z)
    ∧ Forall2 is_payable (payable_specs st.2 M P vs) rows.
Proof.
  intros Hvs HM HP0 HP1 Hdue. revert k0 st.
  induction vs as [|v vs IH]; intros k0 [rows0 n].
  - exists []. cbn. rewrite app_nil_r, Z.add_0_r. by split; [|constructor].
  - change (zip (seq k0 (length (v :: vs))) (v :: vs))
      with ((k0, v) :: zip (seq (S k0) (length vs)) vs).
    cbn [Py.for_each].
    destruct (payable_vendor_row rnd mi d mname M P k0 v (rows0, n))
      as (r & -> & Hr); [apply Hvs; by left|done..|].
    cbn [bind fst snd].
    destruct (IH (λ x Hx, Hvs x (list_elem_of_further _ _ _ Hx)) (S k0)
                (rows0 ++ [r], (n + 1)%Z)) as (rows & Hrows & Hall).
    exists (r :: rows). split.
    + rewrite Hrows. cbn [fst snd length].
      rewrite <-app_assoc. do 2 f_equal. lia.
    + cbn [payable_specs]. by constructor.
Qed.

Lemma sumQc_upper (c : Qc) (l : list Qc) :
  Forall (λ x, x ≤ c) l → sumQc l ≤ Qc_of_Z (Z.of_nat (length l)) * c.
Proof.
  induction 1 as [|x l Hx _ IH].
  - rewrite sumQc_nil. cbn [length]. change (Z.of_nat 0) with 0%Z.
    rewrite Z2Qc_inj_0, Qcmult_0_l. apply Qcle_refl.
  - rewrite sumQc_cons. cbn [length].
    rewrite Nat2Z.inj_succ, <-Z.add_1_r, Z2Qc_inj_add, Z2Qc_inj_1.
    replace ((Qc_of_Z (Z.of_nat (length l)) + 1) * c)
      with (c + Qc_of_Z (Z.of_nat (length l)) * c) by ring.
    by apply Qcplus_le_compat.
Qed.

(** The sum of the shares of the selected vendors. *)
Lemma sample_total_pct (selected : list vendor) :
  sample_ok selected →
  0 < sumQc (map (λ s : vendor, s.2) selected)
  ∧ sumQc (map (λ s : vendor, s.2) selected) ≤ Qc_of_dec 11 1.
Proof.
  intros (Hsub & _ & Hlen).
  pose proof vendor_splits_bounds as Hb. rewrite list.Forall_forall in Hb.
  change (map ?f ?l) with (f <$> l). split.
  - apply sumQc_pos.
    + apply Forall_fmap, list.Forall_forall. intros v Hv.
      destruct (Hb v (Hsub v Hv)) as (Hlo & _). cbn.
      eapply Qclt_le_trans; [|exact Hlo]. by apply Qc_ltb_lt.
    + destruct selected; [cbn in Hlen; lia|done].
  - eapply Qcle_trans.
    + apply (sumQc_upper (Qc_of_dec 22 2)).
      apply Forall_fmap, list.Forall_forall. intros v Hv.
      by destruct (Hb v (Hsub v Hv)) as (_ & Hhi & _).
    + rewrite length_fmap. destruct Hlen as [-> | ->]; by apply Qc_ltb_ge.
Qed.

Lemma monthly_direct_large :
  Forall (λ M, Qc_of_Z 1000000 ≤ M) monthly_direct.
Proof.
  assert (Hb : Forall (λ M, Is_true (negb (Qc_ltb M (Qc_of_Z 1000000))))
                      monthly_direct)
    by (apply forallb_True; vm_compute; exact I).
  revert Hb. apply Forall_impl. intros M HM.
  apply Qc_ltb_ge, negb_true_iff, Is_true_true, HM.
Qed.

Lemma payable_month_rows (rnd : draws) (mi : nat) (st : inv_state) :
  (mi < 12)%nat → sample_ok (sample rnd mi) →
  ∃ M rows,
    monthly_direct !! mi = Some M
    ∧ payable_month rnd monthly_direct mi st
      = Ok (st.1 ++ rows, (st.2 + Z.of_nat (length (sample rnd mi)))%Z)
    ∧ ∃ specs,
        Forall2 is_payable specs rows
        ∧ specs.*1.*1 = seqZ st.2 (Z.of_nat (length (sample rnd mi)))
        ∧ Forall (λ s : Z * Z * Z, (5000 ≤ s.1.2 ≤ 5130)%Z) specs
        ∧ M - Qc_of_Z (Z.of_nat (length (sample rnd mi))) * Q2Qc (1 # 2)
          ≤ Qc_of_Z (sumZ specs.*2)
        ∧ Qc_of_Z (sumZ specs.*2)
          ≤ M + Qc_of_Z (Z.of_nat (length (sample rnd mi))) * Q2Qc (1 # 2).
Proof.
  intros Hmi Hok. destruct (sample_total_pct _ Hok) as [HP0 HP1].
  pose proof Hok as (Hsub & _ & Hlen). unfold payable_month.
  destruct (index_elem_of MONTH_ENDS mi) as (d & -> & Hd); [done|].
  destruct (index_elem_of MONTH_NAMES mi) as (mname & -> & _); [done|].
  destruct (index_elem_of monthly_direct mi) as (M & HM & HMin); [done|].
  rewrite HM. cbn [bind]. cbv zeta.
  set (P := sumQc _) in *.
  pose proof monthly_direct_large as Hlarge.
  rewrite list.Forall_forall in Hlarge.
  pose proof due_dates_ok as Hdue. rewrite list.Forall_forall in Hdue.
  destruct (payable_vendors_rows rnd mi d mname M P (sample rnd mi) 0 st)
    as (rows & Hrows & Hall); [done|by apply Hlarge|done|done|by apply Hdue|].
  exists M, rows. split.
  { unfold Py.index in HM. by destruct (monthly_direct !! mi); simplify_eq. }
  split; [done|]. eexists. split; [exact Hall|].
  split; [apply payable_specs_numbers|].
  split; [by apply payable_specs_accounts|].
  rewrite payable_specs_amounts.
  assert (P ≠ 0) as HP by (intros HP; rewrite HP in HP0;
                           by apply (Qclt_not_eq 0 0)).
  pose proof (rounded_shares M P (sample rnd mi).*2 HP) as Hr.
  cbv zeta in Hr. rewrite length_fmap in Hr.
  replace (M * sumQc (sample rnd mi).*2 / P) with M in Hr; [done|].
  change (sumQc (sample rnd mi).*2) with P. field. done.
Qed.

(** A loop over [range(n)] that keeps an invariant of the turn number. *)
Lemma for_each_range {S} (I : nat → S → Prop) (body : nat → S → result S)
    (n : nat) (s : S) :
  I 0%nat s →
  (∀ i s, (i < n)%nat → I i s → ∃ s', body i s = Ok s' ∧ I (Datatypes.S i) s') →
  ∃ s', Py.for_each body (seq 0 n) s = Ok s' ∧ I n s'.
Proof.
  intros H0 Hstep. induction n as [|n IH]; [by exists s|].
  destruct IH as (s1 & Hs1 & HI); [intros i s' Hi; apply Hstep; lia|].
  destruct (Hstep n s1) as (s2 & Hs2 & HI2); [lia|done|].
  exists s2. rewrite seq_S, for_each_app, Hs1. cbn [bind Py.for_each plus].
  rewrite Hs2. by split.
Qed.

Lemma payables_until_S rnd i :
  payables_until rnd (S i)
  = (payables_until rnd i + length (sample rnd i))%nat.
Proof.
  unfold payables_until. rewrite seq_S, sum_list_with_app. cbn. lia.
Qed.

Lemma payables_until_bounds rnd i :
  (∀ mi, (mi < i)%nat → sample_ok (sample rnd mi)) →
  (4 * i ≤ payables_until rnd i ≤ 5 * i)%nat.
Proof.
  intros Hok. induction i as [|i IH]; [done|].
  rewrite payables_until_S.
  destruct (Hok i) as (_ & _ & Hlen); [lia|].
  destruct IH as [IH1 IH2]; [intros mi Hmi; apply Hok; lia|]. lia.
Qed.

Lemma receivables_state_number : receivables_state.2 = 34%Z.
Proof. vm_compute. reflexivity. Qed.

Lemma generate_invoices_payables (rnd : draws) :
  (∀ mi, (mi < 12)%nat → sample_ok (sample rnd mi)) →
  ∃ specs rows,
    generate_invoices rnd = Ok (receivables_state.1 ++ rows)
    ∧ Forall2 is_payable specs rows
    ∧ length rows = payables_until rnd 12
    ∧ specs.*1.*1 = seqZ 34 (Z.of_nat (length rows))
    ∧ Forall (λ s : Z * Z * Z, (5000 ≤ s.1.2 ≤ 5130)%Z) specs
    ∧ sumQc monthly_direct
      - Qc_of_Z (Z.of_nat (length rows)) * Q2Qc (1 # 2)
      ≤ Qc_of_Z (sumZ specs.*2)
    ∧ Qc_of_Z (sumZ specs.*2)
      ≤ sumQc monthly_direct
        + Qc_of_Z (Z.of_nat (length rows)) * Q2Qc (1 # 2).
Proof.
  intros Hrnd. unfold generate_invoices, invoices. cbv zeta.
  fold opening_state. rewrite receivables_ok. cbn [bind].
  rewrite monthly_direct_ok. cbn [bind].
  destruct (for_each_range
    (λ i (st : inv_state),
       ∃ specs rows,
         st = (receivables_state.1 ++ rows, (34 + Z.of_nat (length rows))%Z)
         ∧ Forall2 is_payable specs rows
         ∧ length rows = payables_until rnd i
         ∧ specs.*1.*1 = seqZ 34 (Z.of_nat (length rows))
         ∧ Forall (λ s : Z * Z * Z, (5000 ≤ s.1.2 ≤ 5130)%Z) specs
         ∧ sumQc (take i monthly_direct)
           - Qc_of_Z (Z.of_nat (length rows)) * Q2Qc (1 # 2)
           ≤ Qc_of_Z (sumZ specs.*2)
         ∧ Qc_of_Z (sumZ specs.*2)
           ≤ sumQc (take i monthly_direct)
             + Qc_of_Z (Z.of_nat (length rows)) * Q2Qc (1 # 2))
    (payable_month rnd monthly_direct) 12 receivables_state)
    as (st & Hst & specs & rows & -> & Hall & Hlen & Hnum & Hgl & Hlo & Hhi).
  - exists [], []. rewrite app_nil_r. split.
    { rewrite (surjective_pairing receivables_state) at 1.
      by rewrite receivables_state_number. }
    split; [constructor|]. split; [done|]. split; [done|].
    split; [constructor|]. split; by apply Qc_ltb_ge.
  - intros i st Hi
      (specs & rows & -> & Hall & Hlen & Hnum & Hgl & Hlo & Hhi).
    destruct (payable_month_rows rnd i
                (receivables_state.1 ++ rows,
                 (34 + Z.of_nat (length rows))%Z) Hi (Hrnd i Hi))
      as (M & rows' & HM & -> & specs' & Hall' & Hnum' & Hgl' & Hlo' & Hhi').
    eexists. split; [reflexivity|].
    exists (specs ++ specs'), (rows ++ rows'). cbn [fst snd] in *.
    pose proof (Forall2_length Hall') as Hlen'.
    assert (length specs' = length (sample rnd i)) as Hn.
    { rewrite <-(length_fmap fst), <-(length_fmap fst), Hnum', length_seqZ.
      lia. }
    rewrite !length_app, <-Hlen', Hn.
    split; [rewrite <-app_assoc; f_equal; lia|].
    split; [by apply Forall2_app|].
    split; [rewrite payables_until_S; lia|].
    split.
    { rewrite !fmap_app, Hnum, Hnum', Nat2Z.inj_add.
      rewrite seqZ_app by lia. done. }
    split; [by apply Forall_app|].
    rewrite (take_S_r _ _ _ HM), sumQc_app, sumQc_cons, sumQc_nil.
    rewrite fmap_app.
    rewrite sumZ_app.
    rewrite Nat2Z.inj_add, !Z2Qc_inj_add.
    set (a := Qc_of_Z (sumZ specs.*2)) in *.
    set (b := Qc_of_Z (sumZ specs'.*2)) in *.
    set (n := Qc_of_Z (Z.of_nat (length rows))) in *.
    set (m := Qc_of_Z (Z.of_nat (length (sample rnd i)))) in *.
    set (T := sumQc (take i monthly_direct)) in *.
    clearbody a b n m T.
    Qc_to_Q_in Hlo. Qc_to_Q_in Hhi. Qc_to_Q_in Hlo'. Qc_to_Q_in Hhi'.
    split; Qc_to_Q; lra.
  - exists specs, rows. rewrite Hst. cbn [bind fst].
    change (take 12 monthly_direct) with monthly_direct in Hlo, Hhi.
    done.
Qed.

End payable_amounts.

#[local] Existing Instance sumQc_perm.

Section ranges.
Local Open Scope Qc_scope.
Implicit Types (m gl_balances : gmap Z Qc).

Lemma balances_in_insert_fresh lo hi m k y :
  m !! k = None →
  balances_in lo hi (<[k := y]> m)
  ≡ₚ (if decide (lo ≤ k ≤ hi)%Z then [y] else []) ++ balances_in lo hi m.
Proof.
  intros Hk. unfold balances_in. rewrite map_to_list_insert by done.
  rewrite filter_cons. cbn [fst]. by case_decide.
Qed.

Lemma range_sum_insert lo hi m k y :
  range_sum lo hi (<[k := y]> m)
  = range_sum lo hi m
    + (if decide (lo ≤ k ≤ hi)%Z then y - balance m k else 0).
Proof.
  unfold range_sum, balance.
  destruct (m !! k) as [x|] eqn:Hk; cbn [default from_option].
  - rewrite <-(insert_delete_eq m).
    rewrite <-(insert_delete_id m k x) at 2 by done.
    rewrite !balances_in_insert_fresh by apply lookup_delete_eq.
    case_decide; cbn [app id]; rewrite ?sumQc_cons; ring.
  - rewrite balances_in_insert_fresh by done.
    qc_ops. case_decide; cbn [app]; rewrite ?sumQc_cons; ring.
Qed.

Lemma range_sum_post lo hi m k v :
  range_sum lo hi (post k v m)
  = range_sum lo hi m + (if decide (lo ≤ k ≤ hi)%Z then v else 0).
Proof.
  unfold post. rewrite range_sum_insert. qc_ops. case_decide; ring.
Qed.

Lemma range_sum_post_all lo hi ps m :
  range_sum lo hi (post_all ps m) = range_sum lo hi m + posted_in lo hi ps.
Proof.
  unfold posted_in. revert m. induction ps as [|p ps IH]; intros m.
  - cbn [post_all foldl]. rewrite filter_nil, fmap_nil, sumQc_nil. ring.
  - rewrite post_all_cons, IH, range_sum_post, filter_cons.
    case_decide; rewrite ?fmap_cons, ?sumQc_cons; ring.
Qed.

Lemma all_cents_post m k v : cents v → all_cents m → all_cents (post k v m).
Proof.
  intros Hv Hm j b. rewrite lookup_post. unfold increase_if.
  case_bool_decide.
  - intros [= <-]. qc_ops. apply cents_add; [|done].
    destruct (m !! j) as [x|] eqn:Hj; cbn; [by eapply Hm|apply cents_0].
  - apply Hm.
Qed.

Lemma all_cents_post_all ps m :
  Forall (λ p : Z * Qc, cents p.2) ps → all_cents m →
  all_cents (post_all ps m).
Proof.
  intros Hps. revert m. induction Hps as [|p ps Hp _ IH]; intros m Hm.
  - done.
  - rewrite post_all_cons. by apply IH, all_cents_post.
Qed.

(** What a generated payable invoice does to the accumulator. *)
Lemma payable_effect (s : Z * Z * Z) (inv : row) gl_balances :
  is_payable s inv → (5000 ≤ s.1.2 ≤ 5130)%Z →
  ∃ b, invoice_step inv gl_balances = Ok b
       ∧ sum_balances b = sum_balances gl_balances
       ∧ range_sum 4000 4999 b = range_sum 4000 4999 gl_balances
       ∧ range_sum 5000 7999 b
         = range_sum 5000 7999 gl_balances + Qc_of_Z s.2
       ∧ (all_cents gl_balances → all_cents b).
Proof.
  destruct s as [[number g] a].
  intros (_ & _ & _ & held & paid & Hheld & Hread) Hg. cbn [fst snd] in *.
  unfold invoice_step. rewrite Hread. cbn [bind].
  eexists. split; [reflexivity|]. rewrite project_postings.
  set (i := {| amt := Qc_of_Z a |}).
  assert (postings i
          = [(g, Qc_of_Z a); (2000%Z, - (Qc_of_Z a - Qc_of_Z held))]
            ++ (if Qc_ltb 0 (Qc_of_Z held)
                then [(2010%Z, - Qc_of_Z held)] else [])
            ++ (if paid
                then [(2000%Z, Qc_of_Z a - Qc_of_Z held);
                      (1000%Z, - (Qc_of_Z a - Qc_of_Z held))]
                else [])) as ->.
  { unfold postings, gl_set. cbn [invoice_type i gl amt ret is_paid].
    rewrite decide_False by done. rewrite decide_True by done.
    rewrite decide_False by lia. reflexivity. }
  split; [|split; [|split]].
  - rewrite sum_balances_post_all.
    destruct (Qc_ltb 0 (Qc_of_Z held)) eqn:Hpos.
    + destruct paid; cbn [app fmap list_fmap snd];
        rewrite ?sumQc_cons, ?sumQc_nil; ring.
    + apply Qc_ltb_ge in Hpos. rewrite <-Z2Qc_inj_0 in Hpos.
      apply Z2Qc_inj_le in Hpos.
      assert (held = 0%Z) as -> by lia. rewrite Z2Qc_inj_0.
      destruct paid; cbn [app fmap list_fmap snd];
        rewrite ?sumQc_cons, ?sumQc_nil; ring.
  - rewrite range_sum_post_all. unfold posted_in.
    rewrite !list.filter_app, !filter_cons, filter_nil. cbn [fst].
    rewrite (decide_False (P:=(4000 ≤ g ≤ 4999)%Z)) by lia.
    rewrite (decide_False (P:=(4000 ≤ 2000 ≤ 4999)%Z)) by lia.
    destruct (Qc_ltb 0 (Qc_of_Z held)), paid;
      rewrite ?filter_cons, ?filter_nil; cbn [fst];
      rewrite ?(decide_False (P:=(4000 ≤ 2000 ≤ 4999)%Z)) by lia;
      rewrite ?(decide_False (P:=(4000 ≤ 2010 ≤ 4999)%Z)) by lia;
      rewrite ?(decide_False (P:=(4000 ≤ 1000 ≤ 4999)%Z)) by lia;
      cbn [app fmap list_fmap]; rewrite sumQc_nil; ring.
  - rewrite range_sum_post_all. unfold posted_in.
    rewrite !list.filter_app, !filter_cons, filter_nil. cbn [fst].
    rewrite (decide_True (P:=(5000 ≤ g ≤ 7999)%Z)) by lia.
    rewrite (decide_False (P:=(5000 ≤ 2000 ≤ 7999)%Z)) by lia.
    destruct (Qc_ltb 0 (Qc_of_Z held)), paid;
      rewrite ?filter_cons, ?filter_nil; cbn [fst];
      rewrite ?(decide_False (P:=(5000 ≤ 2000 ≤ 7999)%Z)) by lia;
      rewrite ?(decide_False (P:=(5000 ≤ 2010 ≤ 7999)%Z)) by lia;
      rewrite ?(decide_False (P:=(5000 ≤ 1000 ≤ 7999)%Z)) by lia;
      cbn [app fmap list_fmap snd]; rewrite sumQc_cons, sumQc_nil; ring.
  - apply all_cents_post_all.
    assert (cents (Qc_of_Z a)) as Ha by apply cents_Z.
    assert (cents (Qc_of_Z held)) as Hh by apply cents_Z.
    assert (cents (Qc_of_Z a - Qc_of_Z held)) as Hn by (by apply cents_sub).
    destruct (Qc_ltb 0 (Qc_of_Z held)), paid; cbn [app];
      repeat constructor; cbn [snd]; try done; by apply cents_opp.
Qed.

Lemma payables_effect (specs : list (Z * Z * Z)) (rows : list row)
    gl_balances :
  Forall2 is_payable specs rows →
  Forall (λ s : Z * Z * Z, (5000 ≤ s.1.2 ≤ 5130)%Z) specs →
  ∃ b, Py.for_each invoice_step rows gl_balances = Ok b
       ∧ sum_balances b = sum_balances gl_balances
       ∧ range_sum 4000 4999 b = range_sum 4000 4999 gl_balances
       ∧ range_sum 5000 7999 b
         = range_sum 5000 7999 gl_balances + Qc_of_Z (sumZ specs.*2)
       ∧ (all_cents gl_balances → all_cents b).
Proof.
  intros Hall. revert gl_balances.
  induction Hall as [|s r specs rows Hs _ IH]; intros gl Hgl.
  - exists gl. cbn. rewrite Z2Qc_inj_0. repeat split; try done; ring.
  - apply list.Forall_cons in Hgl as [Hg Hgl].
    destruct (payable_effect s r gl Hs Hg) as (b1 & Hb1 & Hs1 & Hr1 & He1 & Hc1).
    destruct (IH b1 Hgl) as (b & Hb & Hs2 & Hr2 & He2 & Hc2).
    exists b. cbn [Py.for_each]. rewrite Hb1. cbn [bind].
    split; [done|]. split; [congruence|]. split; [congruence|].
    split; [|auto].
    rewrite He2, He1, fmap_cons.
    rewrite sumZ_cons, Z2Qc_inj_add. ring.
Qed.

End ranges.

#[local] Existing Instance sumQc_perm.

Section generated_dataset.
Local Open Scope Qc_scope.

Lemma centsb_cents (b : Qc) : centsb b = true → cents b.
Proof.
  intros Hb. apply Qeq_bool_eq, Qc_is_canon in Hb. rewrite <-Hb.
  apply cents_round2.
Qed.

Lemma receivables_balances_ok :
  Py.for_each invoice_step receivables_state.1 journal_balances
  = Ok receivables_balances.
Proof. apply is_okb_value_or. vm_compute. reflexivity. Qed.

Lemma receivables_balances_sums :
  sum_balances receivables_balances = 0
  ∧ range_sum 4000 4999 receivables_balances = Qc_of_Z (-264400000)
  ∧ range_sum 5000 7999 receivables_balances = Qc_of_Z 40700000.
Proof. repeat split; apply Qc_is_canon; vm_compute; reflexivity. Qed.

Lemma all_cents_check (m : gmap Z Qc) :
  forallb (λ e : Z * Qc, centsb e.2) (map_to_list m) = true → all_cents m.
Proof.
  intros Hall k b Hkb. rewrite forallb_forall in Hall.
  apply centsb_cents, (Hall (k, b)), list_elem_of_In.
  by apply elem_of_map_to_list.
Qed.

Lemma receivables_balances_cents : all_cents receivables_balances.
Proof. apply all_cents_check. vm_compute. reflexivity. Qed.

Lemma generated_totals_balanced :
  unbalanced generated_totals = 0%nat ∧ length generated_totals = 90%nat.
Proof. split; vm_compute; reflexivity. Qed.

Lemma monthly_direct_total : sumQc monthly_direct = Qc_of_Z 214500000.
Proof. apply Qc_is_canon. vm_compute. reflexivity. Qed.

Lemma cents_zero_or_large (b : Qc) :
  cents b → b = 0 ∨ Qc_of_dec 1 2 ≤ Qc_abs b.
Proof.
  intros [z ->]. destruct (decide (z = 0%Z)) as [->|Hz].
  - left. Qc_to_Q. reflexivity.
  - right. unfold Qc_abs. destruct (Qc_ltb _ 0) eqn:Hneg.
    + apply Qc_ltb_lt in Hneg. Qc_to_Q_in Hneg. Qc_to_Q.
      unfold Qlt in Hneg. unfold Qle. cbn in *. lia.
    + apply Qc_ltb_ge in Hneg. Qc_to_Q_in Hneg. Qc_to_Q.
      unfold Qle in *. cbn in *. lia.
Qed.

(** The verdict of the trial balance when every balance is a whole number
    of cents. *)
Lemma diff_cents (gl_balances : gmap Z Qc) :
  all_cents gl_balances → diff gl_balances = sum_balances gl_balances.
Proof.
  intros Hc. unfold diff. rewrite total_dr_printed, total_cr_printed.
  destruct (printed_all gl_balances) as [-> ->].
  - intros k b Hkb. by apply cents_zero_or_large, (Hc k).
  - qc_ops. apply positive_minus_negative.
Qed.

(** The lines of the report when the three checks pass. *)
Lemma report_all_ok (je_rows invoices : list row)
    (t : list (string * (Qc * Qc))) (gl_balances : gmap Z Qc) :
  je_totals je_rows = Ok t →
  trial_balance je_rows invoices = Ok gl_balances →
  unbalanced t = 0%nat →
  balanced gl_balances = true →
  net_income_within_target (of_dec NET_INCOME 0) gl_balances = true →
  ∃ report,
    verify_financials je_rows invoices = Ok report
    ∧ AllBalance (length t) ∈ report
    ∧ BalanceOk ∈ report
    ∧ NetIncomeOk (fsub (net_income gl_balances) (of_dec NET_INCOME 0))
      ∈ report.
Proof.
  intros Ht Htb Hunb Hbal Hwithin. eexists. split.
  { unfold verify_financials. rewrite Ht, Htb. reflexivity. }
  rewrite !elem_of_app. split; [|split].
  - right; right; left. unfold balance_summary.
    rewrite decide_True by done. by apply list_elem_of_singleton.
  - right; right; right; left. unfold trial_balance_report. rewrite Hbal.
    rewrite !elem_of_app. right; right. rewrite !elem_of_cons. auto.
  - right; right; right; right. unfold income_statement_report.
    rewrite Hwithin. rewrite !elem_of_cons. auto 10.
Qed.

(** X16, in exact arithmetic.
    Whatever vendors and coin flips [generate_invoices] draws,
    [verify_financials] run on the generated journal and invoices returns
    and passes its three checks: all 90 journal entries balance, the
    trial balance is within $1.00, and the net income is within $100K of
    the target; revenue is [TOTAL_REVENUE] exactly and the net income is
    within $30 of [NET_INCOME]. *)
Theorem generated_dataset_passes_verification (rnd : draws) :
  (∀ mi, (mi < 12)%nat → sample_ok (sample rnd mi)) →
  ∃ je_rows invoices t gl_balances report,
    generate_journal_entries = Ok je_rows
    ∧ generate_invoices rnd = Ok invoices
    ∧ je_totals je_rows = Ok t
    ∧ trial_balance je_rows invoices = Ok gl_balances
    ∧ verify_financials je_rows invoices = Ok report
    ∧ unbalanced t = 0%nat
    ∧ balanced gl_balances = true
    ∧ net_income_within_target (of_dec NET_INCOME 0) gl_balances = true
    ∧ AllBalance 90 ∈ report
    ∧ BalanceOk ∈ report
    ∧ NetIncomeOk (fsub (net_income gl_balances) (of_dec NET_INCOME 0))
      ∈ report
    ∧ revenue gl_balances = Qc_of_Z TOTAL_REVENUE
    ∧ Qc_of_Z (-30) ≤ net_income gl_balances - Qc_of_Z NET_INCOME
    ∧ net_income gl_balances - Qc_of_Z NET_INCOME ≤ Qc_of_Z 30.
Proof.
  intros Hrnd.
  destruct (generate_invoices_payables rnd Hrnd)
    as (specs & rows & Hinvs & Hall & Hlen & _ & Hgl & Hlo & Hhi).
  destruct (payables_effect specs rows receivables_balances Hall Hgl)
    as (gl & Hgl' & Hsum & Hrev & Hexp & Hcents).
  destruct receivables_balances_sums as (Hs0 & Hr0 & He0).
  rewrite Hs0 in Hsum. rewrite Hr0 in Hrev. rewrite He0 in Hexp.
  specialize (Hcents receivables_balances_cents).
  destruct generated_totals_balanced as [Hunb Hlen_t].
  pose proof (payables_until_bounds rnd 12 Hrnd) as [_ Hmax].
  rewrite <-Hlen in Hmax. rewrite monthly_direct_total in Hlo, Hhi.
  assert (Htb : trial_balance generated_journal (receivables_state.1 ++ rows)
                = Ok gl).
  { unfold trial_balance. rewrite journal_balances_generated. cbn [bind].
    by rewrite for_each_app, receivables_balances_ok. }
  assert (Hbal : balanced gl = true).
  { unfold balanced. rewrite (diff_cents gl Hcents), Hsum. reflexivity. }
  assert (Hrevenue : revenue gl = Qc_of_Z TOTAL_REVENUE).
  { rewrite revenue_total. fold (range_sum 4000 4999 gl). rewrite Hrev.
    apply Qc_is_canon. reflexivity. }
  assert (Hni : Qc_of_Z (-30) ≤ net_income gl - Qc_of_Z NET_INCOME
                ∧ net_income gl - Qc_of_Z NET_INCOME ≤ Qc_of_Z 30).
  { unfold net_income. rewrite Hrevenue, expenses_total.
    fold (range_sum 5000 7999 gl). rewrite Hexp. qc_ops.
    set (a := Qc_of_Z (sumZ specs.*2)) in *. clearbody a.
    assert (Qc_of_Z (Z.of_nat (length rows)) ≤ Qc_of_Z 60) as Hn.
    { apply (proj1 (Z2Qc_inj_le _ _)). lia. }
    set (n := Qc_of_Z (Z.of_nat (length rows))) in *. clearbody n.
    Qc_to_Q_in Hlo. Qc_to_Q_in Hhi. Qc_to_Q_in Hn.
    change (inject_Z 214500000) with (214500000 # 1)%Q in *.
    change (inject_Z 60) with (60 # 1)%Q in *.
    split; Qc_to_Q;
      change (inject_Z TOTAL_REVENUE) with (264400000 # 1)%Q;
      change (inject_Z NET_INCOME) with (9200000 # 1)%Q;
      change (inject_Z 40700000) with (40700000 # 1)%Q;
      change (inject_Z (-30)) with (-30 # 1)%Q;
      change (inject_Z 30) with (30 # 1)%Q; lra. }
  assert (Hwithin : net_income_within_target (of_dec NET_INCOME 0) gl = true).
  { unfold net_income_within_target. qc_ops. rewrite Qc_of_dec_0.
    destruct Hni as [Hni1 Hni2].
    set (x := net_income gl - Qc_of_Z NET_INCOME) in *. clearbody x.
    apply Qc_ltb_lt. unfold Qc_abs.
    destruct (Qc_ltb x 0); Qc_to_Q_in Hni1; Qc_to_Q_in Hni2; Qc_to_Q;
      change (inject_Z (-30)) with (-30 # 1)%Q in *;
      change (inject_Z 30) with (30 # 1)%Q in *; lra. }
  destruct (report_all_ok generated_journal (receivables_state.1 ++ rows)
              generated_totals gl je_totals_generated Htb Hunb Hbal Hwithin)
    as (report & Hreport & H1 & H2 & H3).
  rewrite Hlen_t in H1.
  exists generated_journal, (receivables_state.1 ++ rows), generated_totals,
    gl, report.
  destruct Hni as [Hni1 Hni2].
  split; [exact generate_journal_entries_ok|]. split; [exact Hinvs|].
  split; [exact je_totals_generated|].
  exact (conj Htb (conj Hreport (conj Hunb (conj Hbal (conj Hwithin
           (conj H1 (conj H2 (conj H3 (conj Hrevenue
              (conj Hni1 Hni2)))))))))).
Qed.

Lemma generated_dataset_passes_verification_witness :
  (∀ mi, (mi < 12)%nat → sample_ok (sample first_vendors mi))
  ∧ ∃ je_rows invoices report,
      generate_journal_entries = Ok je_rows
      ∧ generate_invoices first_vendors = Ok invoices
      ∧ verify_financials (F:=Qc) je_rows invoices = Ok report
      ∧ AllBalance 90 ∈ report
      ∧ BalanceOk ∈ report.
Proof.
  assert (∀ mi, (mi < 12)%nat → sample_ok (sample first_vendors mi)) as Hok
    by (intros mi _; apply first_vendors_ok).
  split; [exact Hok|].
  destruct (generated_dataset_passes_verification first_vendors Hok)
    as (je_rows & invoices & t & gl_balances & report & Hje & Hinv & _ & _
        & Hreport & _ & _ & _ & Hall & Hbal & _).
  exists je_rows, invoices, report.
  exact (conj Hje (conj Hinv (conj Hreport (conj Hall Hbal)))).
Defined.

End generated_dataset.

Section invoice_rows.

Lemma numbered_check (rows : list row) :
  forallb (λ kr, numberedb kr.1 kr.2) (zip (seq 0 (length rows)) rows) = true →
  ∀ k r, rows !! k = Some r → numbered k r.
Proof.
  intros Hall k r Hk. rewrite forallb_forall in Hall.
  specialize (Hall (k, r)). unfold numberedb in Hall. cbn [fst snd] in Hall.
  apply bool_decide_eq_true in Hall.
  - apply list_elem_of_fmap in Hall as (p & Hp & Hin). by exists p.
  - apply list_elem_of_In, list_elem_of_lookup. exists k.
    apply lookup_zip_with_Some. exists k, r. split; [done|]. split; [|done].
    apply lookup_seq. split; [done|]. by eapply lookup_lt_Some.
Qed.

Lemma receivables_numbered :
  ∀ k r, receivables_state.1 !! k = Some r → numbered k r.
Proof. apply numbered_check. vm_compute. reflexivity. Qed.

Lemma receivables_length : length receivables_state.1 = 33%nat.
Proof. vm_compute. reflexivity. Qed.

Lemma posted_check (rows : list row) :
  forallb posted_to_revenue_or_costb rows = true →
  Forall posted_to_revenue_or_cost rows.
Proof.
  intros Hall. rewrite forallb_forall in Hall.
  apply list.Forall_forall. intros r Hr%list_elem_of_In%Hall.
  unfold posted_to_revenue_or_costb in Hr.
  destruct (read_invoice r) as [i|] eqn:Hi; [|done].
  destruct (gl i) as [g|] eqn:Hg; [|done].
  apply bool_decide_eq_true in Hr. exists i, g. auto.
Qed.

Lemma receivables_posted : Forall posted_to_revenue_or_cost receivables_state.1.
Proof. apply posted_check. vm_compute. reflexivity. Qed.

(** Strings with different prefixes differ, and after one prefix the
    numbers decide. *)
Lemma invoice_number_inj (p q : string) (n m : Z) :
  p ∈ invoice_prefixes → q ∈ invoice_prefixes → 0 ≤ n → 0 ≤ m →
  p +:+ zfill 3 (Py.str n) = q +:+ zfill 3 (Py.str m) → n = m.
Proof.
  intros Hp Hq Hn Hm.
  destruct (uint_of_zfill 3 n Hn) as (d & Hd & Hdn).
  destruct (uint_of_zfill 3 m Hm) as (d' & Hd' & Hdm).
  unfold invoice_prefixes in Hp, Hq.
  rewrite !elem_of_cons, elem_of_nil in Hp, Hq.
  intros Heq.
  assert (zfill 3 (Py.str n) = zfill 3 (Py.str m)
          ∨ False) as [Hz|[]].
  { destruct Hp as [->|[->|[->|[->|[]]]]], Hq as [->|[->|[->|[->|[]]]]];
      cbn [String.append] in Heq;
      try (left; by simplify_eq); exfalso; simplify_eq. }
  by apply (zfill_inj 3).
Qed.

Lemma is_payable_numbered (specs : list (Z * Z * Z)) (rows : list row)
    (first : nat) :
  Forall2 is_payable specs rows →
  specs.*1.*1 = seqZ (Z.of_nat first + 1) (Z.of_nat (length rows)) →
  ∀ k r, rows !! k = Some r → numbered (first + k) r.
Proof.
  intros Hall Hnum k r Hk.
  destruct (Forall2_lookup_r _ _ _ _ _ Hall Hk) as (s & Hs & Hsr).
  assert (specs.*1.*1 !! k = Some s.1.1) as Hn
    by (by rewrite !list_lookup_fmap, Hs).
  rewrite Hnum in Hn. apply lookup_seqZ in Hn as [Hn _].
  destruct Hsr as (Hnumber & _). exists "INV-P". split.
  - unfold invoice_prefixes. set_solver.
  - rewrite Hnumber, Hn.
    by replace (Z.of_nat first + 1 + Z.of_nat k)
      with (Z.of_nat (first + k) + 1) by lia.
Qed.

Lemma is_payable_posted (specs : list (Z * Z * Z)) (rows : list row) :
  Forall2 is_payable specs rows →
  Forall (λ s : Z * Z * Z, 5000 ≤ s.1.2 ≤ 5130) specs →
  Forall posted_to_revenue_or_cost rows.
Proof.
  induction 1 as [|s r specs rows Hs _ IH]; [constructor|].
  intros [Hg Hgl]%list.Forall_cons. constructor; [|by apply IH].
  destruct Hs as (_ & _ & _ & held & paid & _ & Hread).
  eexists _, _. split; [exact Hread|]. split; [done|]. by right.
Qed.

(** X13.  Whatever [generate_invoices]
    draws, it returns between 81 and 93 invoices: the 33 opening balance
    invoices and progress billings and one payable invoice per selected
    vendor (no amount falls under the 10000 threshold).  The invoice in
    position [k] carries the number [k + 1] after its prefix, and no two
    invoices have the same [invoice_number]. *)
Theorem generated_invoice_numbers (rnd : draws) :
  (∀ mi, (mi < 12)%nat → sample_ok (sample rnd mi)) →
  ∃ invoices,
    generate_invoices rnd = Ok invoices
    ∧ length invoices = (33 + payables_until rnd 12)%nat
    ∧ (81 ≤ length invoices ≤ 93)%nat
    ∧ (∀ k inv, invoices !! k = Some inv → numbered k inv)
    ∧ (∀ j k inv inv',
         invoices !! j = Some inv → invoices !! k = Some inv' →
         inv !! "invoice_number" = inv' !! "invoice_number" → j = k).
Proof.
  intros Hrnd.
  destruct (generate_invoices_payables rnd Hrnd)
    as (specs & rows & Hinvs & Hall & Hlen & Hnum & _).
  pose proof (payables_until_bounds rnd 12 Hrnd) as Hbounds.
  pose proof receivables_length as Hbase.
  exists (receivables_state.1 ++ rows). split; [done|].
  split; [rewrite length_app; lia|]. split; [rewrite length_app; lia|].
  assert (∀ k inv, (receivables_state.1 ++ rows) !! k = Some inv →
                   numbered k inv) as Hnumbered.
  { intros k inv Hk. apply lookup_app_Some in Hk as [Hk|[Hge Hk]].
    - by apply receivables_numbered.
    - replace k with (33 + (k - 33))%nat by lia. rewrite Hbase in Hk.
      by apply (is_payable_numbered specs rows 33). }
  split; [done|]. intros j k inv inv' Hj Hk Heq.
  destruct (Hnumbered j inv Hj) as (p & Hp & Hpn).
  destruct (Hnumbered k inv' Hk) as (q & Hq & Hqn).
  rewrite Hpn, Hqn in Heq. injection Heq as Heq.
  apply invoice_number_inj in Heq; [lia|done|done|lia|lia].
Qed.

(** X14.  Whatever [generate_invoices]
    draws, [verify_financials] reads every invoice it returns, and each
    is posted to account 3010, 4000, 4010 or a direct cost account from
    5000 to 5130: never to account 0, and never to one of the accounts
    1000, 1010, 1020, 2000, 2010 that the projector posts to itself. *)
Theorem generated_invoice_accounts (rnd : draws) :
  (∀ mi, (mi < 12)%nat → sample_ok (sample rnd mi)) →
  ∃ invoices,
    generate_invoices rnd = Ok invoices
    ∧ Forall posted_to_revenue_or_cost invoices.
Proof.
  intros Hrnd.
  destruct (generate_invoices_payables rnd Hrnd)
    as (specs & rows & Hinvs & Hall & _ & _ & Hgl & _).
  exists (receivables_state.1 ++ rows). split; [done|].
  apply Forall_app. split; [apply receivables_posted|].
  by apply (is_payable_posted specs).
Qed.

(** X15, in exact arithmetic.  The loop of the
    subcontractor payments of a month appends one invoice per selected
    vendor, and their amounts add up to the month's share of the direct
    costs within half a dollar per invoice. *)
Theorem payable_month_total (rnd : draws) (mi : nat) (st : inv_state) :
  (mi < 12)%nat → sample_ok (sample rnd mi) →
  ∃ month_total rows amounts,
    monthly_direct !! mi = Some month_total
    ∧ payable_month rnd monthly_direct mi st
      = Ok (st.1 ++ rows, st.2 + Z.of_nat (length rows))
    ∧ length rows = length (sample rnd mi)
    ∧ Forall2 (λ (a : Z) (inv : row), inv !! "amount" = Some (Py.str a))
              amounts rows
    ∧ (month_total - Qc_of_Z (Z.of_nat (length rows)) * Q2Qc (1 # 2)
       ≤ Qc_of_Z (sumZ amounts))%Qc
    ∧ (Qc_of_Z (sumZ amounts)
       ≤ month_total + Qc_of_Z (Z.of_nat (length rows)) * Q2Qc (1 # 2))%Qc.
Proof.
  intros Hmi Hok.
  destruct (payable_month_rows rnd mi st Hmi Hok)
    as (M & rows & HM & Hrows & specs & Hall & Hnum & _ & Hlo & Hhi).
  assert (length rows = length (sample rnd mi)) as Hlen.
  { rewrite <-(Forall2_length Hall).
    rewrite <-(length_fmap fst), <-(length_fmap fst), Hnum, length_seqZ.
    lia. }
  exists M, rows, specs.*2. rewrite Hlen.
  split; [done|]. split; [done|]. split; [done|]. split; [|done].
  clear -Hall. induction Hall as [|s r specs rows Hs _ IH]; [constructor|].
  rewrite fmap_cons. constructor; [|done]. by destruct Hs as (_ & _ & ? & _).
Qed.

Lemma first_vendors_all (mi : nat) :
  (mi < 12)%nat → sample_ok (sample first_vendors mi).
Proof. intros _. apply first_vendors_ok. Qed.

Lemma generated_invoice_numbers_witness :
  (∀ mi, (mi < 12)%nat → sample_ok (sample first_vendors mi))
  ∧ ∃ invoices,
      generate_invoices first_vendors = Ok invoices
      ∧ (81 ≤ length invoices ≤ 93)%nat.
Proof.
  split; [exact first_vendors_all|].
  destruct (generated_invoice_numbers first_vendors first_vendors_all)
    as (invoices & Hinv & _ & Hlen & _).
  exists invoices. exact (conj Hinv Hlen).
Defined.

Lemma generated_invoice_accounts_witness :
  (∀ mi, (mi < 12)%nat → sample_ok (sample first_vendors mi))
  ∧ ∃ invoices,
      generate_invoices first_vendors = Ok invoices
      ∧ Forall posted_to_revenue_or_cost invoices.
Proof.
  split; [exact first_vendors_all|].
  exact (generated_invoice_accounts first_vendors first_vendors_all).
Defined.

Lemma payable_month_total_witness :
  (0 < 12)%nat
  ∧ sample_ok (sample first_vendors 0)
  ∧ ∃ month_total rows,
      monthly_direct !! 0%nat = Some month_total
      ∧ payable_month first_vendors monthly_direct 0 ([], 34)
        = Ok ([] ++ rows, 34 + Z.of_nat (length rows))
      ∧ length rows = length (sample first_vendors 0).
Proof.
  assert (0 < 12)%nat as H0 by lia.
  split; [exact H0|]. split; [exact (first_vendors_ok 0)|].
  destruct (payable_month_total first_vendors 0 ([], 34) H0
              (first_vendors_ok 0))
    as (month_total & rows & amounts & HM & Hrows & Hlen & _).
  exists month_total, rows. exact (conj HM (conj Hrows Hlen)).
Defined.

End invoice_rows.

Section control.

Lemma off_control_check (rows : list row) :
  forallb off_controlb rows = true → Forall off_control rows.
Proof.
  intros Hall. rewrite forallb_forall in Hall.
  apply list.Forall_forall. intros r Hr%list_elem_of_In%Hall.
  unfold off_controlb in Hr.
  destruct (r !! "account_number") as [a|] eqn:Ha; [|done].
  destruct (Py.int a) as [acct|] eqn:Hacct; [|done].
  apply bool_decide_eq_true in Hr. by exists a, acct.
Qed.

(** X7.  The journal entries never
    touch the accounts 1010, 1020, 2000 and 2010: no opening balance line
    is made for them, whatever the opening balance table holds; the plug
    goes to account 3010 only; and in the rows that
    [generate_journal_entries] returns no [account_number] is one of
    them, so that the accumulator built from the journal has no balance
    for these accounts. *)
Theorem journal_avoids_control_accounts :
  (∀ (e : Z * Z) (l : je_line), l ∈ ob_line e → l.1.1.1 ∉ control_accounts)
  ∧ (∀ (lines : list je_line) (l : je_line),
       l ∈ with_plug lines → l ∈ lines ∨ l.1.1.1 = 3010)
  ∧ ∃ rows gl_balances,
      generate_journal_entries = Ok rows
      ∧ Forall off_control rows
      ∧ Py.for_each je_balance_step rows ∅ = Ok gl_balances
      ∧ ∀ acct, acct ∈ control_accounts →
                (gl_balances : gmap Z Qc) !! acct = None.
Proof.
  split; [|split].
  - intros [acct bal] l. unfold ob_line.
    case_decide as Hc; [by intros ?%elem_of_nil|].
    repeat case_decide; intros Hl; try by apply elem_of_nil in Hl.
    + apply list_elem_of_singleton in Hl as ->. exact Hc.
    + apply list_elem_of_singleton in Hl as ->. exact Hc.
  - intros lines l. unfold with_plug.
    repeat case_match; rewrite ?elem_of_app, ?list_elem_of_singleton;
      intros Hl; try (by left).
    + destruct Hl as [Hl| ->]; [by left|by right].
    + destruct Hl as [Hl| ->]; [by left|by right].
  - exists generated_journal, journal_balances.
    split; [exact generate_journal_entries_ok|].
    split; [apply off_control_check; vm_compute; reflexivity|].
    split; [exact journal_balances_generated|].
    intros acct Hacct. unfold control_accounts in Hacct.
    rewrite !elem_of_cons, elem_of_nil in Hacct.
    destruct Hacct as [->|[->|[->|[->|[]]]]]; vm_compute; reflexivity.
Qed.

End control.

Section income.
Local Open Scope Qc_scope.


(** What the invoices add to the sum of all balances. *)
Lemma invoices_sum (invoices : list row) (gl_balances b : gmap Z Qc) :
  Py.for_each invoice_step invoices gl_balances = Ok b →
  ∃ read, read_all read_invoice invoices = Ok read
          ∧ sum_balances b
            = sum_balances gl_balances + sumQc (imbalance <$> read).
Proof.
  revert gl_balances. induction invoices as [|inv invoices IH]; intros gl.
  - intros [= <-]. exists []. split; [done|].
    change (sumQc (imbalance <$> [])) with (Q2Qc 0). ring.
  - cbn [Py.for_each]. unfold invoice_step at 1.
    destruct (read_invoice inv) as [i|] eqn:Hi; [|done]. cbn [bind].
    intros Hb. destruct (IH _ Hb) as (read & Hread & Hsum).
    exists (i :: read). cbn [read_all]. rewrite Hi. cbn [bind].
    rewrite Hread. cbn [bind]. split; [done|].
    rewrite Hsum, project_postings, sum_balances_post_all, postings_imbalance.
    rewrite fmap_cons, sumQc_cons. ring.
Qed.



End income.

(** *** The chart of accounts, the vendors and the projects *)

Section sheets.

Lemma invoice_row_cells
    (number ty date amount due desc status vendor client project gl pct held
     : string) :
  let inv := invoice_row number ty date amount due desc status vendor
               client project gl pct held in
  inv !! "invoice_number" = Some number ∧ inv !! "invoice_type" = Some ty
  ∧ inv !! "vendor_name" = Some vendor ∧ inv !! "client_name" = Some client
  ∧ inv !! "project_name" = Some project ∧ inv !! "gl_account" = Some gl
  ∧ inv !! "status" = Some status ∧ inv !! "invoice_date" = Some date
  ∧ inv !! "due_date" = Some due.
Proof. repeat split; vm_compute; reflexivity. Qed.

Lemma payable_vendor_generated (rnd : draws) (mi : nat) (d mname : string)
    (M P : Qc) (kv : nat * vendor) (st : inv_state) :
  (mi < 12)%nat → MONTH_ENDS !! mi = Some d → MONTH_NAMES !! mi = Some mname →
  kv.2 ∈ vendor_splits → P ≠ 0%Qc →
  ∀ base, with_payables base st.1 →
  ∃ st', payable_vendor rnd mi d mname M P kv st = Ok st'
         ∧ with_payables base st'.1.
Proof.
  destruct kv as [k [[vendor_name gl_acct] pct]].
  intros Hmi Hd Hm Hv HP base (rows & Hst & Hrows). unfold payable_vendor.
  rewrite decide_False by done. cbv zeta.
  case_decide as Hamt; [exists st; split; [done|by exists rows]|].
  pose proof due_dates_ok as Hdue. rewrite list.Forall_forall in Hdue.
  destruct (Hdue d) as [due Hdue']; [by eapply list_elem_of_lookup_2|].
  rewrite Hdue'. cbn [bind]. eexists. split; [reflexivity|].
  unfold push. cbn [fst]. eexists (rows ++ [_]).
  split; [by rewrite Hst, <-app_assoc|].
  apply Forall_app. split; [done|].
  apply Forall_singleton. exists mi, (vendor_name, gl_acct, pct).
  split; [done|]. split; [done|].
  eexists st.2, _, d, mname, due, _.
  split; [done|]. split; [done|]. split; [done|]. split; [|reflexivity].
  destruct (_ || _), (coin rnd mi k); try case_decide;
    by repeat constructor.
Qed.

Lemma generate_invoices_rows (rnd : draws) :
  (∀ mi, (mi < 12)%nat → sample_ok (sample rnd mi)) →
  ∃ invoices, generate_invoices rnd = Ok invoices
              ∧ with_payables receivables_state.1 invoices.
Proof.
  intros Hrnd. unfold generate_invoices, invoices. cbv zeta.
  fold opening_state. rewrite receivables_ok. cbn [bind].
  rewrite monthly_direct_ok. cbn [bind].
  destruct (for_each_invariant (λ mi, (mi < 12)%nat)
              (λ st : inv_state, with_payables receivables_state.1 st.1)
              (payable_month rnd monthly_direct) (seq 0 12))
    with (s := receivables_state) as (st & -> & Hst).
  - intros mi st Hmi Hst. unfold payable_month.
    destruct (Hrnd mi Hmi) as (Hsub & Hnodup & Hlen).
    destruct (sample_total_pct _ (Hrnd mi Hmi)) as [HP0 _].
    destruct (lookup_lt_is_Some_2 MONTH_ENDS mi) as [d Hd]; [done|].
    destruct (lookup_lt_is_Some_2 MONTH_NAMES mi) as [mname Hm]; [done|].
    destruct (index_elem_of monthly_direct mi) as (M & -> & _); [done|].
    unfold Py.index. rewrite Hd, Hm. cbn [bind]. cbv zeta.
    apply (for_each_invariant (λ kv : nat * vendor, kv.2 ∈ vendor_splits)
             (λ st : inv_state, with_payables receivables_state.1 st.1));
      [| |done].
    + intros kv st' Hkv Hst'.
      apply payable_vendor_generated; [done..| |done].
      intros Heq. rewrite Heq in HP0. by apply (Qclt_not_eq 0 0).
    + apply list.Forall_forall. intros [k v] Hkv. cbn.
      apply Hsub. by apply elem_of_zip_r in Hkv.
  - apply list.Forall_forall. intros mi Hmi.
    apply elem_of_seq in Hmi. lia.
  - exists []. by rewrite app_nil_r.
  - exists st.1. split; [done|]. done.
Qed.

(** A property of the rows that holds for the invoices before the
    payables, by evaluation, and for every payable row. *)
Lemma generated_rows_check (Q : row → Prop) (Qb : row → bool)
    (base invoices : list row) :
  (∀ inv, Qb inv = true → Q inv) →
  forallb Qb base = true →
  (∀ mi v inv, (mi < 12)%nat → v ∈ vendor_splits → payable_row mi v inv →
               Q inv) →
  with_payables base invoices → Forall Q invoices.
Proof.
  intros HQb Hbase Hpay (rows & -> & Hrows). apply Forall_app. split.
  - apply list.Forall_forall. intros inv Hin. apply HQb.
    rewrite forallb_forall in Hbase. apply Hbase. by apply list_elem_of_In.
  - revert Hrows. apply Forall_impl.
    intros inv (mi & v & Hmi & Hv & Hrow). by eapply Hpay.
Qed.

Lemma in_chartb_ok k r : in_chartb k r = true → in_chart k r.
Proof.
  unfold in_chartb, in_chart. destruct (r !! k) as [a|]; [|done].
  intros Ha%bool_decide_eq_true. by exists a.
Qed.

Lemma forallb_Forall_check {A} (Q : A → Prop) (Qb : A → bool) (l : list A) :
  (∀ x, Qb x = true → Q x) → forallb Qb l = true → Forall Q l.
Proof.
  intros HQ Hl. apply list.Forall_forall. intros x Hx. apply HQ.
  rewrite forallb_forall in Hl. apply Hl. by apply list_elem_of_In.
Qed.

Lemma vendor_accounts_in_chart :
  Forall (λ v : vendor,
            Py.str v.1.2 ∈ column "account_number" generate_chart_of_accounts)
         vendor_splits.
Proof.
  apply (forallb_Forall_check _
           (λ v : vendor,
              bool_decide
                (Py.str v.1.2
                 ∈ column "account_number" generate_chart_of_accounts))).
  - intros v. apply bool_decide_eq_true.
  - vm_compute. reflexivity.
Qed.

(** X19.  The chart of accounts gives every
    account one row: its account numbers are pairwise distinct.  Every
    line of the journal that [generate_journal_entries] returns names an
    account of the chart, and so does, whatever [generate_invoices]
    draws, the [gl_account] of every invoice it returns. *)
Theorem generated_accounts_in_chart (rnd : draws) :
  (∀ mi, (mi < 12)%nat → sample_ok (sample rnd mi)) →
  length (column "account_number" generate_chart_of_accounts)
  = length generate_chart_of_accounts
  ∧ NoDup (column "account_number" generate_chart_of_accounts)
  ∧ (∃ je_rows, generate_journal_entries = Ok je_rows
                ∧ Forall (in_chart "account_number") je_rows)
  ∧ (∃ invoices, generate_invoices rnd = Ok invoices
                 ∧ Forall (in_chart "gl_account") invoices).
Proof.
  intros Hrnd. split; [vm_compute; reflexivity|].
  split; [apply (bool_decide_unpack _); vm_compute; exact I|].
  split.
  - exists generated_journal. split; [apply generate_journal_entries_ok|].
    apply (forallb_Forall_check _ (in_chartb "account_number"));
      [apply in_chartb_ok|]. vm_compute. reflexivity.
  - destruct (generate_invoices_rows rnd Hrnd) as (invoices & Hinv & Hall).
    exists invoices. split; [done|]. revert Hall.
    apply (generated_rows_check _ (in_chartb "gl_account"));
      [apply in_chartb_ok|vm_compute; reflexivity|].
    intros mi v inv _ Hv (n & amt & d & mname & due & proj & _ & _ & _ & _
                          & ->).
    pose proof vendor_accounts_in_chart as Hc.
    rewrite list.Forall_forall in Hc. specialize (Hc v Hv).
    eexists. split; [|exact Hc]. apply invoice_row_cells.
Qed.

Lemma generated_accounts_in_chart_witness :
  (∃ je_rows, generate_journal_entries = Ok je_rows
              ∧ Forall (in_chart "account_number") je_rows)
  ∧ (∃ invoices, generate_invoices first_vendors = Ok invoices
                 ∧ Forall (in_chart "gl_account") invoices).
Proof.
  apply (generated_accounts_in_chart first_vendors). apply first_vendors_all.
Defined.

Lemma parties_knownb_ok inv : parties_knownb inv = true → parties_known inv.
Proof.
  unfold parties_knownb, parties_known.
  destruct (inv !! "invoice_type") as [ty|]; [|done].
  destruct (inv !! "vendor_name") as [vendor|]; [|done].
  destruct (inv !! "client_name") as [client|]; [|done].
  destruct (inv !! "project_name") as [proj|]; [|done].
  intros [Hp H]%andb_true_iff. apply bool_decide_eq_true in Hp.
  exists ty, vendor, client, proj. do 4 (split; [done|]). split; [done|].
  apply orb_true_iff in H as [H|H].
  - left. apply andb_true_iff in H as [[Hty Hv]%andb_true_iff He].
    apply String.eqb_eq in Hty, Hv. split; [done|]. split; [done|].
    apply existsb_exists in He as (p & Hp' & [H1 H2]%andb_true_iff).
    apply bool_decide_eq_true in H1, H2. exists p.
    split; [by apply list_elem_of_In|]. done.
  - right. apply andb_true_iff in H as [[Hty Hc]%andb_true_iff Hv].
    apply String.eqb_eq in Hty, Hc. apply bool_decide_eq_true in Hv. done.
Qed.

Lemma vendor_names_known :
  Forall (λ v : vendor, v.1.1 ∈ column "company_name" generate_vendors)
         vendor_splits.
Proof.
  apply (forallb_Forall_check _
           (λ v : vendor,
              bool_decide (v.1.1 ∈ column "company_name" generate_vendors))).
  - intros v. apply bool_decide_eq_true.
  - vm_compute. reflexivity.
Qed.

(** X20.  Whatever [generate_invoices] draws,
    every invoice it returns names a project of the projects sheet; a
    receivable invoice names the client of that project and no vendor, a
    payable invoice names a vendor of the vendors sheet and no
    client. *)
Theorem generated_invoice_parties (rnd : draws) :
  (∀ mi, (mi < 12)%nat → sample_ok (sample rnd mi)) →
  ∃ invoices, generate_invoices rnd = Ok invoices
              ∧ Forall parties_known invoices.
Proof.
  intros Hrnd.
  destruct (generate_invoices_rows rnd Hrnd) as (invoices & Hinv & Hall).
  exists invoices. split; [done|]. revert Hall.
  apply (generated_rows_check _ parties_knownb);
    [apply parties_knownb_ok|vm_compute; reflexivity|].
  intros mi v inv _ Hv (n & amt & d & mname & due & proj & _ & _ & _ & Hproj
                        & ->).
  pose proof vendor_names_known as Hc.
  rewrite list.Forall_forall in Hc. specialize (Hc v Hv).
  eexists _, _, _, _.
  split; [apply invoice_row_cells|]. split; [apply invoice_row_cells|].
  split; [apply invoice_row_cells|]. split; [apply invoice_row_cells|].
  split.
  - assert (column "name" generate_projects = [AIRPORT_name; CONDO_name])
      as -> by (vm_compute; reflexivity). done.
  - right. done.
Qed.

Lemma generated_invoice_parties_witness :
  ∃ invoices, generate_invoices first_vendors = Ok invoices
              ∧ Forall parties_known invoices.
Proof.
  apply (generated_invoice_parties first_vendors). apply first_vendors_all.
Defined.

(** A count over rows that all give the test the same answer. *)
Lemma count_where_const (key : string) (test : string → bool) (b : bool)
    (rows : list row) (n : Z) :
  Forall (λ r : row, ∃ v, r !! key = Some v ∧ test v = b) rows →
  Py.for_each (λ (i : row) (n : Z),
                 v <- Py.getitem i key;
                 Ok (if test v then n + 1 else n)) rows n
  = Ok (if b then n + Z.of_nat (length rows) else n).
Proof.
  intros Hrows. revert n.
  induction Hrows as [|r rows (v & Hv & Hb) _ IH]; intros n.
  - cbn. destruct b; [f_equal; lia|done].
  - cbn [Py.for_each]. unfold Py.getitem at 1. rewrite Hv. cbn [bind].
    rewrite Hb, IH. destruct b; [f_equal; cbn [length]; lia|done].
Qed.

Lemma count_where_app (key : string) (test : string → bool) (b : bool)
    (base rows : list row) (c : Z) :
  count_where key test base = Ok c →
  Forall (λ r : row, ∃ v, r !! key = Some v ∧ test v = b) rows →
  count_where key test (base ++ rows)
  = Ok (if b then c + Z.of_nat (length rows) else c).
Proof.
  unfold count_where. intros Hbase Hrows.
  rewrite for_each_app, Hbase. cbn [bind]. by apply count_where_const.
Qed.

Lemma ok_app_inv {A} (r : result (list A)) (base l1 l2 : list A) :
  r = Ok (base ++ l1) → r = Ok (base ++ l2) → l1 = l2.
Proof. intros -> [= Heq]. by apply app_inv_head in Heq. Qed.

Lemma monthly_payable_cells (inv : row) :
  monthly_payable inv →
  (∃ v, inv !! "invoice_type" = Some v
        ∧ String.eqb "receivable" v = false)
  ∧ (∃ v, inv !! "invoice_type" = Some v ∧ String.eqb "payable" v = true)
  ∧ (∃ v, inv !! "invoice_number" = Some v
          ∧ String.prefix "INV-OB" v = false).
Proof.
  intros (mi & v & _ & _ & n & amt & d & mname & due & proj & _ & _ & _ & _
          & ->).
  split; [eexists; split; [apply invoice_row_cells|done]|].
  split; [eexists; split; [apply invoice_row_cells|done]|].
  eexists; split; [apply invoice_row_cells|].
  generalize (zfill 3 (Py.str n)). intros s. reflexivity.
Qed.

(** X21.  Whatever [generate_invoices] draws,
    the three counts that the [__main__] block of part07_financials.py
    prints for its invoices are 9 opening balance invoices, 24 progress
    billings and the payable invoices of the year, and they add up to
    the number of invoices: the offsets 4 and 5 that it subtracts are
    the numbers of opening balance invoices of the two kinds. *)
Theorem invoice_summary_counts (rnd : draws) :
  (∀ mi, (mi < 12)%nat → sample_ok (sample rnd mi)) →
  ∃ invoices payables,
    generate_invoices rnd = Ok invoices
    ∧ invoice_summary invoices
      = Ok (Z.of_nat (length invoices), 9, 24, payables)
    ∧ Z.of_nat (length invoices) = 9 + 24 + payables
    ∧ 48 ≤ payables ≤ 60.
Proof.
  intros Hrnd.
  destruct (generate_invoices_rows rnd Hrnd)
    as (invoices & Hinv & rows & -> & Hrows).
  destruct (generate_invoices_payables rnd Hrnd)
    as (specs & rows' & Hinv' & _ & Hlen & _).
  pose proof (ok_app_inv _ _ _ _ Hinv Hinv') as Heq. subst rows'.
  pose proof (payables_until_bounds rnd 12 Hrnd) as Hbounds.
  exists (receivables_state.1 ++ rows), (Z.of_nat (length rows)).
  split; [done|]. rewrite length_app, receivables_length.
  split; [|lia]. unfold invoice_summary.
  rewrite (count_where_app _ _ false _ rows 28);
    [|vm_compute; reflexivity
     |revert Hrows; apply Forall_impl; intros inv Hp;
      by destruct (monthly_payable_cells inv Hp) as (? & _)].
  rewrite (count_where_app _ _ true _ rows 5);
    [|vm_compute; reflexivity
     |revert Hrows; apply Forall_impl; intros inv Hp;
      by destruct (monthly_payable_cells inv Hp) as (_ & ? & _)].
  rewrite (count_where_app _ _ false _ rows 9);
    [|vm_compute; reflexivity
     |revert Hrows; apply Forall_impl; intros inv Hp;
      by destruct (monthly_payable_cells inv Hp) as (_ & _ & ?)].
  cbn [bind]. rewrite length_app, receivables_length.
  do 2 f_equal. lia.
Qed.

Lemma invoice_summary_counts_witness :
  ∃ invoices payables,
    generate_invoices first_vendors = Ok invoices
    ∧ invoice_summary invoices
      = Ok (Z.of_nat (length invoices), 9, 24, payables)
    ∧ Z.of_nat (length invoices) = 9 + 24 + payables
    ∧ 48 ≤ payables ≤ 60.
Proof.
  apply (invoice_summary_counts first_vendors). apply first_vendors_all.
Defined.

End sheets.

(** *** The condominium units *)

Section units.

Lemma foldl_rel {A S T} (R : S → T → Prop) (f : S → A → S) (g : T → A → T)
    (l : list A) :
  (∀ a s t, R s t → R (f s a) (g t a)) →
  ∀ s t, R s t → R (foldl f s l) (foldl g t l).
Proof.
  intros Hstep. induction l as [|a l IH]; intros s t Hst; [done|].
  cbn. apply IH. by apply Hstep.
Qed.

Lemma iter_rel {S T} (R : S → T → Prop) (f : S → S) (g : T → T) (n : nat) :
  (∀ s t, R s t → R (f s) (g t)) →
  ∀ s t, R s t → R (Nat.iter n f s) (Nat.iter n g t).
Proof.
  intros Hstep. induction n as [|n IH]; intros s t Hst; [done|].
  cbn. apply Hstep. by apply IH.
Qed.

(** The rows are those of the slots. *)
Lemma units_loop_slots (rnd : unit_draws) :
  units_loop rnd = (slot_row rnd <$> unit_slots, slots_loop.2).
Proof.
  set (R2 := λ (st : list row * Z) (sl : list unit_slot * Z),
               st = (slot_row rnd <$> sl.1, sl.2)).
  set (R3 := λ (st : list row * Z * Z) (sl : list unit_slot * Z * Z),
               st = (slot_row rnd <$> sl.1.1, sl.1.2, sl.2)).
  enough (R2 (units_loop rnd) slots_loop) as H by exact H.
  unfold units_loop, slots_loop. apply foldl_rel; [|done].
  intros [floor_range configs] st sl Hst. apply foldl_rel; [|done].
  clear st sl Hst. intros floor st sl Hst.
  assert (R3 (st.1, st.2, 1) (sl.1, sl.2, 1)) as H0
    by (unfold R2 in Hst; unfold R3; by rewrite Hst).
  assert (R3 (foldl (λ st (cfg : unit_config),
                       Nat.iter cfg.2 (unit_step rnd floor cfg) st)
                    (st.1, st.2, 1) configs)
             (foldl (λ st (cfg : unit_config),
                       Nat.iter cfg.2 (slot_step floor cfg) st)
                    (sl.1, sl.2, 1) configs)) as Hfold.
  { apply foldl_rel; [|exact H0]. clear. intros cfg st sl Hst.
    apply iter_rel; [|done]. clear. intros st sl ->.
    destruct sl as [[slots n] idx].
    unfold R3, unit_step, slot_step. cbn [fst snd]. by rewrite fmap_app. }
  unfold R2. cbv zeta. unfold R3 in Hfold. by rewrite Hfold.
Qed.

Lemma unit_dict_cells
    (unit_num utype sqft beds baths floor rent status : string) :
  let u := unit_dict unit_num utype sqft beds baths floor rent status in
  u !! "unit_number" = Some unit_num ∧ u !! "floor_number" = Some floor
  ∧ u !! "sqft" = Some sqft ∧ u !! "market_rent" = Some rent
  ∧ u !! "status" = Some status.
Proof. repeat split; vm_compute; reflexivity. Qed.

Lemma slot_row_status (rnd : unit_draws) (s : unit_slot) :
  slot_row rnd s !! "status"
  = Some (if decide (s.1.1.2 ≤ 33)
          then if occupancy rnd s.1.1.1 then "occupied" else "vacant"
          else "not_ready").
Proof.
  destruct s as [[[n floor] idx] [[[[[utype beds] baths] sqft] rent] c]].
  unfold slot_row, unit_row. cbn [fst snd]. cbv zeta.
  apply unit_dict_cells.
Qed.

Lemma slot_row_number (rnd : unit_draws) (s : unit_slot) :
  slot_row rnd s !! "unit_number"
  = Some (zfill 2 (Py.str s.1.1.2) +:+ zfill 2 (Py.str s.1.2)).
Proof.
  destruct s as [[[n floor] idx] [[[[[utype beds] baths] sqft] rent] c]].
  unfold slot_row, unit_row. cbn [fst snd]. cbv zeta.
  apply unit_dict_cells.
Qed.

(** A count over the rows of a list of slots. *)
Lemma count_where_slots {A} (key : string) (test : string → bool)
    (f : A → row) (tb : A → bool) (l : list A) :
  (∀ x, ∃ v, f x !! key = Some v ∧ test v = tb x) →
  count_where key test (f <$> l) = Ok (Z.of_nat (length (filter tb l))).
Proof.
  intros Hf. unfold count_where.
  enough (∀ n, Py.for_each
                 (λ (i : row) (n : Z),
                    v <- Py.getitem i key;
                    Ok (if test v then n + 1 else n)) (f <$> l) n
               = Ok (n + Z.of_nat (length (filter tb l)))) as H
    by (by rewrite H).
  induction l as [|x l IH]; intros n; [cbn; f_equal; lia|].
  rewrite fmap_cons. cbn [Py.for_each].
  destruct (Hf x) as (v & Hv & Hb). unfold Py.getitem at 1.
  rewrite Hv. cbn [bind]. rewrite Hb, IH, filter_cons.
  destruct (tb x);
    [rewrite decide_True by done|rewrite decide_False by (by intros [])];
    f_equal; cbn [length]; lia.
Qed.

Lemma filter_split {A} (a b : A → bool) (l : list A) :
  (length (filter (λ x, a x && b x) l)
   + length (filter (λ x, a x && negb (b x)) l)
   = length (filter a l))%nat.
Proof.
  induction l as [|x l IH]; [done|]. rewrite !filter_cons.
  destruct (a x), (b x); cbn [andb negb];
    rewrite ?(decide_True (P:=Is_true true)) by done;
    rewrite ?(decide_False (P:=Is_true false)) by (by intros []);
    cbn [length]; lia.
Qed.

Lemma slots_count : slots_loop.2 = 500 ∧ length unit_slots = 500%nat.
Proof. split; vm_compute; reflexivity. Qed.

Lemma slot_status_test (rnd : unit_draws) (s : unit_slot) :
  ∃ status,
    slot_row rnd s !! "status" = Some status
    ∧ String.eqb status "occupied"
      = bool_decide (s.1.1.2 ≤ 33) && occupancy rnd s.1.1.1
    ∧ String.eqb status "vacant"
      = bool_decide (s.1.1.2 ≤ 33) && negb (occupancy rnd s.1.1.1)
    ∧ String.eqb status "not_ready" = negb (bool_decide (s.1.1.2 ≤ 33)).
Proof.
  eexists. split; [apply slot_row_status|]. case_decide.
  - rewrite bool_decide_eq_true_2 by done.
    by destruct (occupancy rnd s.1.1.1).
  - by rewrite bool_decide_eq_false_2 by done.
Qed.

(** The list and the lines of [generate_units], by the slots. *)
Lemma generate_units_slots (rnd : unit_draws) :
  generate_units rnd
  = Ok (slot_row rnd <$> unit_slots,
        ["Generated 500 units";
         "  Occupied: "
         +:+ Py.str (Z.of_nat (length (filter
               (λ s : unit_slot,
                  bool_decide (s.1.1.2 ≤ 33) && occupancy rnd s.1.1.1)
               unit_slots)))
         +:+ ", Vacant: "
         +:+ Py.str (Z.of_nat (length (filter
               (λ s : unit_slot,
                  bool_decide (s.1.1.2 ≤ 33)
                  && negb (occupancy rnd s.1.1.1))
               unit_slots)))
         +:+ ", Not ready: 76"]).
Proof.
  assert (length (filter (λ s : unit_slot, negb (bool_decide (s.1.1.2 ≤ 33)))
                         unit_slots) = 76%nat)
    as Hnot by (vm_compute; reflexivity).
  unfold generate_units. rewrite units_loop_slots.
  rewrite (count_where_slots _ _ _
             (λ s : unit_slot,
                bool_decide (s.1.1.2 ≤ 33) && occupancy rnd s.1.1.1)).
  2:{ intros s. destruct (slot_status_test rnd s) as (st & ? & ? & _).
      exists st. split; assumption. }
  rewrite (count_where_slots _ _ _
             (λ s : unit_slot,
                bool_decide (s.1.1.2 ≤ 33) && negb (occupancy rnd s.1.1.1))).
  2:{ intros s. destruct (slot_status_test rnd s) as (st & ? & _ & ? & _).
      exists st. split; assumption. }
  rewrite (count_where_slots _ _ _
             (λ s : unit_slot, negb (bool_decide (s.1.1.2 ≤ 33)))).
  2:{ intros s. destruct (slot_status_test rnd s) as (st & ? & _ & _ & ?).
      exists st. split; assumption. }
  cbn [bind]. rewrite Hnot. destruct slots_count as [-> _]. reflexivity.
Qed.

Lemma unit_numbers_of_slots (rnd : unit_draws) (l : list unit_slot) :
  column "unit_number" (slot_row rnd <$> l)
  = (λ s : unit_slot, zfill 2 (Py.str s.1.1.2) +:+ zfill 2 (Py.str s.1.2))
    <$> l.
Proof.
  unfold column. induction l as [|s l IH]; [done|].
  rewrite !fmap_cons. cbn [omap list_omap].
  rewrite slot_row_number. by rewrite <-IH.
Qed.

(** X22.  Whatever [generate_units] draws, it
    returns 500 units and prints that number; 76 of them, those above
    floor 33, are not ready, and the occupied and the vacant ones are
    the other 424.  No two units have the same [unit_number]. *)
Theorem generate_units_counts (rnd : unit_draws) :
  ∃ (units : list row) (occupied vacant : Z),
    generate_units rnd
    = Ok (units,
          ["Generated 500 units";
           "  Occupied: " +:+ Py.str occupied +:+ ", Vacant: "
           +:+ Py.str vacant +:+ ", Not ready: 76"])
    ∧ length units = 500%nat
    ∧ 0 ≤ occupied ∧ 0 ≤ vacant ∧ occupied + vacant = 424
    ∧ length (column "unit_number" units) = 500%nat
    ∧ NoDup (column "unit_number" units).
Proof.
  eexists _, _, _. split; [apply generate_units_slots|].
  pose proof (filter_split (λ s : unit_slot, bool_decide (s.1.1.2 ≤ 33))
                (λ s : unit_slot, occupancy rnd s.1.1.1) unit_slots)
    as Hsplit.
  cbv beta in Hsplit.
  assert (length (filter (λ s : unit_slot, bool_decide (s.1.1.2 ≤ 33))
                         unit_slots) = 424%nat) as Hdel
    by (vm_compute; reflexivity).
  pose proof (unit_numbers_of_slots rnd unit_slots) as Hcol.
  rewrite length_fmap. destruct slots_count as [_ Hlen].
  split; [done|]. split; [lia|]. split; [lia|]. split; [lia|].
  rewrite Hcol, length_fmap.
  split; [done|]. apply (bool_decide_unpack _). vm_compute. exact I.
Qed.

Lemma slot_okb_ok (rnd : unit_draws) (s : unit_slot) :
  unit_draws_ok rnd → slot_okb s = true → unit_ok (slot_row rnd s).
Proof.
  destruct s as [[[n floor] idx] [[[[[utype beds] baths] sqft] rent] c]].
  intros Hrnd. unfold slot_okb.
  rewrite !andb_true_iff, !bool_decide_eq_true.
  intros [[[Hfloor Hidx] Hsqft] Hrent].
  destruct (Hrnd n) as [Hs Hr].
  unfold slot_row, unit_row. cbn [fst snd]. cbv zeta.
  eexists floor, idx, (sqft + sqft_delta rnd n), (rent + rent_delta rnd n), _.
  split; [done|]. split; [done|].
  split; [apply unit_dict_cells|]. split; [apply unit_dict_cells|].
  split; [apply unit_dict_cells|]. split; [lia|].
  split; [apply unit_dict_cells|]. split; [lia|].
  split; [apply unit_dict_cells|].
  unfold delivered_max_floor. case_decide; [|done].
  destruct (occupancy rnd n); by repeat constructor.
Qed.

(** X23.  When the draws are in the ranges that
    [random.randint] gives, every unit that [generate_units] returns is
    on a floor from 3 to 44, has the number made of the two digits of
    its floor and the two digits of its index on the floor, a surface
    from 490 to 3530 and a rent from 1750 to 14100; it is occupied or
    vacant up to floor 33 and not ready above. *)
Theorem generate_units_rows (rnd : unit_draws) :
  unit_draws_ok rnd →
  ∃ units printed,
    generate_units rnd = Ok (units, printed) ∧ Forall unit_ok units.
Proof.
  intros Hrnd.
  eexists _, _. split; [apply generate_units_slots|].
  apply Forall_fmap.
  assert (forallb slot_okb unit_slots = true) as Hall
    by (vm_compute; reflexivity).
  apply list.Forall_forall. intros s Hs. apply slot_okb_ok; [done|].
  rewrite forallb_forall in Hall. apply Hall. by apply list_elem_of_In.
Qed.

Lemma generate_units_rows_witness :
  ∃ units printed,
    generate_units steady_units = Ok (units, printed)
    ∧ Forall unit_ok units.
Proof.
  apply (generate_units_rows steady_units). intros n. cbn. lia.
Defined.

End units.

(** *** The leases *)

Section leases.

Lemma int_str_small (z : Z) : 0 ≤ z ≤ 20000 → Py.int (Py.str z) = Ok z.
Proof.
  intros Hz.
  assert (Forall (λ z, Py.int (Py.str z) = Ok z) (seqZ 0 20001)) as Hall.
  { apply (forallb_Forall_check _
             (λ z, match Py.int (Py.str z) with
                   | Ok z' => z' =? z
                   | Raise _ => false
                   end)).
    - intros z'. destruct (Py.int (Py.str z')); [|done].
      by intros ->%Z.eqb_eq.
    - vm_compute. reflexivity. }
  rewrite list.Forall_forall in Hall. apply Hall.
  apply elem_of_seqZ. lia.
Qed.

Lemma lease_days (k : nat) :
  (k ≤ 180)%nat →
  ∃ m d : Z,
    6 ≤ m ≤ 11 ∧ 1 ≤ d ≤ 31
    ∧ Nat.iter k next_day (2025, 6, 1) = (2025, m, d)
    ∧ Nat.iter 365 next_day (2025, m, d) = (2026, m, d).
Proof.
  intros Hk.
  assert (Forall (λ k, ∃ m d : Z,
                    6 ≤ m ≤ 11 ∧ 1 ≤ d ≤ 31
                    ∧ Nat.iter k next_day (2025, 6, 1) = (2025, m, d)
                    ∧ Nat.iter 365 next_day (2025, m, d) = (2026, m, d))
                 (seq 0 181)) as Hall.
  { apply (forallb_Forall_check _
             (λ k, let '(y, m, d) := Nat.iter k next_day (2025, 6, 1) in
                   (y =? 2025) && bool_decide (6 ≤ m ≤ 11)
                   && bool_decide (1 ≤ d ≤ 31)
                   && bool_decide (Nat.iter 365 next_day (2025, m, d)
                                   = (2026, m, d)))).
    - intros k'. destruct (Nat.iter k' next_day (2025, 6, 1)) as [[y m] d].
      rewrite !andb_true_iff, !bool_decide_eq_true.
      intros [[[->%Z.eqb_eq Hm] Hd] He]. by exists m, d.
    - vm_compute. reflexivity. }
  rewrite list.Forall_forall in Hall. apply Hall.
  apply elem_of_seq. lia.
Qed.

Lemma lease_dict_cells
    (tenant_name unit_number email phone rent deposit lease_start lease_end
     : string) :
  let l := lease_dict tenant_name unit_number email phone rent deposit
             lease_start lease_end in
  l !! "unit_number" = Some unit_number ∧ l !! "monthly_rent" = Some rent
  ∧ l !! "security_deposit" = Some deposit
  ∧ l !! "property_name" = Some PROPERTY_name
  ∧ l !! "lease_start" = Some lease_start
  ∧ l !! "lease_end" = Some lease_end.
Proof. repeat split; vm_compute; reflexivity. Qed.

(** The comprehension keeps the occupied units, in their order. *)
Lemma select_occupied (units : list row) :
  Forall unit_readable units →
  select "status" (λ v, String.eqb v "occupied") units
  = Ok (filter (λ u, Is_true (is_occupied u)) units).
Proof.
  intros Hunits. unfold select.
  enough (∀ acc, Py.for_each
                   (λ (u : row) (acc : list row),
                      v <- Py.getitem u "status";
                      Ok (if String.eqb v "occupied" then acc ++ [u]
                          else acc)) units acc
                 = Ok (acc ++ filter (λ u, Is_true (is_occupied u)) units))
    as H by apply (H []).
  induction Hunits as [|u units (status & Hs & _) _ IH]; intros acc.
  - cbn. by rewrite app_nil_r.
  - cbn [Py.for_each]. unfold Py.getitem at 1. rewrite Hs. cbn [bind].
    rewrite IH, filter_cons.
    assert (is_occupied u = String.eqb status "occupied") as ->.
    { unfold is_occupied. rewrite Hs.
      destruct (String.eqb_spec status "occupied") as [->|Hne].
      - by rewrite bool_decide_eq_true_2.
      - rewrite bool_decide_eq_false_2; [done|congruence]. }
    destruct (String.eqb status "occupied").
    + rewrite decide_True by done. by rewrite <-app_assoc.
    + by rewrite decide_False by (by intros []).
Qed.

(** The [while] loop ends when a turn within the fuel draws a name that
    is not used, and gives a name that is not used. *)
Lemma fresh_tenant_ends (draw : nat → string * string)
    (used_names : gset string) (fuel j0 j : nat) :
  (j0 ≤ j < j0 + fuel)%nat → name_key (draw j) ∉ used_names →
  ∃ j1, (j0 ≤ j1 ≤ j)%nat
        ∧ fresh_tenant draw used_names fuel j0 = Some (draw j1)
        ∧ name_key (draw j1) ∉ used_names.
Proof.
  revert j0. induction fuel as [|fuel IH]; intros j0 Hj Hfresh; [lia|].
  cbn [fresh_tenant]. case_decide as Hused.
  - destruct (IH (S j0)) as (j1 & Hj1 & -> & Hn); [|done|].
    + destruct (decide (j = j0)) as [->|]; [done|lia].
    + exists j1. split; [lia|done].
  - exists j0. split; [lia|done].
Qed.

(** The main loop: one lease per unit of its list, each one of its
    unit. *)
Lemma lease_loop_rows (rnd : lease_draws) (fuel : nat)
    (occupied : list row) (i0 : nat) (st : list row * gset string) :
  lease_draws_ok rnd →
  Forall (λ u, unit_readable u ∧ Is_true (is_occupied u)) occupied →
  (∀ i, (i0 ≤ i < i0 + length occupied)%nat →
     ∃ j, (j < fuel)%nat
          ∧ ∀ i' j', (i' < i)%nat →
              name_key (tenant rnd i' j') ≠ name_key (tenant rnd i j)) →
  (∀ k, k ∈ st.2 → ∃ i' j', (i' < i0)%nat ∧ k = name_key (tenant rnd i' j')) →
  ∃ rows,
    lease_loop rnd fuel (zip (seq i0 (length occupied)) occupied) st
    = Some (Ok (st.1 ++ rows))
    ∧ Forall2 lease_of occupied rows ∧ Forall lease_dates rows.
Proof.
  intros Hrnd Hocc. revert i0 st.
  induction Hocc as [|u occupied [(status & Hs & Hu) Ho] _ IH];
    intros i0 st Hfresh Hused.
  - exists []. cbn. rewrite app_nil_r. by repeat constructor.
  - change (zip (seq i0 (length (u :: occupied))) (u :: occupied))
      with ((i0, u) :: zip (seq (S i0) (length occupied)) occupied).
    cbn [lease_loop].
    destruct (Hfresh i0) as (j & Hj & Hne); [cbn [length]; lia|].
    destruct (fresh_tenant_ends (tenant rnd i0) st.2 fuel 0 j)
      as (j1 & _ & -> & Hnew); [lia| |].
    { intros (i' & j' & Hi' & Heq)%Hused. by apply (Hne i' j'). }
    unfold is_occupied in Ho. apply bool_decide_unpack in Ho.
    assert (status = "occupied") as -> by congruence.
    destruct Hu as (rent & num & Hrent & Hbound & Hnum); [done|].
    destruct (Hrnd i0) as (_ & Hoff & _).
    destruct (lease_days _ Hoff) as (m & d & Hm & Hd & Hstart & Hend).
    assert (∃ r, lease_row rnd i0 u (tenant rnd i0 j1) = Ok r
                 ∧ lease_of u r ∧ lease_dates r) as (r & -> & Hr & Hdate).
    { unfold lease_row. destruct (tenant rnd i0 j1) as [first last].
      unfold Py.getitem. rewrite Hrent, Hnum. cbn [bind].
      rewrite (int_str_small rent Hbound). cbn [bind]. cbv zeta.
      rewrite Hstart, Hend. eexists. split; [reflexivity|].
      split.
      - unfold lease_of. rewrite Hrent, Hnum.
        split; [apply lease_dict_cells|]. split; [apply lease_dict_cells|].
        split; apply lease_dict_cells.
      - exists m, d. split; [done|]. split; [done|].
        split; apply lease_dict_cells. }
    destruct (IH (S i0) (st.1 ++ [r],
                         {[ name_key (tenant rnd i0 j1) ]} ∪ st.2))
      as (rows & -> & Hrows & Hdates).
    + intros i Hi. apply Hfresh. cbn [length]. lia.
    + cbn [snd]. intros k [Hk%elem_of_singleton|Hk]%elem_of_union.
      * exists i0, j1. split; [lia|done].
      * destruct (Hused k Hk) as (i' & j' & Hi' & ->).
        exists i', j'. split; [lia|done].
    + exists (r :: rows). cbn [fst]. rewrite <-app_assoc.
      split; [done|]. split; by constructor.
Qed.

(** The leases of a list of units, with the occupied units they are
    for. *)
Lemma generate_leases_rows (rnd : lease_draws) (fuel : nat)
    (units : list row) :
  lease_draws_ok rnd → Forall unit_readable units →
  names_fresh rnd fuel (length (filter (λ u, Is_true (is_occupied u)) units)) →
  ∃ leases,
    generate_leases rnd fuel units = Some (Ok leases)
    ∧ Forall2 lease_of (filter (λ u, Is_true (is_occupied u)) units) leases
    ∧ Forall lease_dates leases.
Proof.
  intros Hrnd Hunits Hfresh. unfold generate_leases.
  rewrite select_occupied by done.
  destruct (lease_loop_rows rnd fuel
              (filter (λ u, Is_true (is_occupied u)) units) 0 ([], ∅))
    as (rows & -> & Hrows); [done| | | |by exists rows].
  - apply list.Forall_forall. intros u [Ho Hu]%list_elem_of_filter.
    rewrite list.Forall_forall in Hunits. split; [by apply Hunits|done].
  - intros i Hi. apply Hfresh. lia.
  - intros k Hk. cbn in Hk. set_solver.
Qed.

(** X24.  When every unit has a
    status and every occupied unit a number and a rent, and every
    [while] loop meets within [fuel] turns a name that no earlier unit
    has drawn, [generate_leases] returns one lease per occupied unit, in
    the order of the units: the lease has the number of the unit, and
    its rent as monthly rent and as security deposit.  The units that
    are not occupied get no lease. *)
Theorem generate_leases_per_occupied_unit (rnd : lease_draws) (fuel : nat)
    (units : list row) :
  lease_draws_ok rnd → Forall unit_readable units →
  names_fresh rnd fuel (length (filter (λ u, Is_true (is_occupied u)) units)) →
  ∃ leases,
    generate_leases rnd fuel units = Some (Ok leases)
    ∧ Forall2 lease_of (filter (λ u, Is_true (is_occupied u)) units) leases.
Proof.
  intros Hrnd Hunits Hfresh.
  destruct (generate_leases_rows rnd fuel units Hrnd Hunits Hfresh)
    as (leases & Hl & Hof & _).
  by exists leases.
Qed.

(** X25.  Under the same conditions, every lease
    starts between 2025-06-01 and 2025-11-30 and ends on the same day
    of the same month of 2026: the 365 days of a lease never span a
    29th of February. *)
Theorem generate_leases_dates (rnd : lease_draws) (fuel : nat)
    (units : list row) :
  lease_draws_ok rnd → Forall unit_readable units →
  names_fresh rnd fuel (length (filter (λ u, Is_true (is_occupied u)) units)) →
  ∃ leases,
    generate_leases rnd fuel units = Some (Ok leases)
    ∧ Forall lease_dates leases.
Proof.
  intros Hrnd Hunits Hfresh.
  destruct (generate_leases_rows rnd fuel units Hrnd Hunits Hfresh)
    as (leases & Hl & _ & Hd).
  by exists leases.
Qed.

(** X26.  [generate_leases] raises
    [KeyError] when a unit has no status, before it draws any name. *)
Theorem generate_leases_no_status (rnd : lease_draws) (fuel : nat)
    (units : list row) :
  Exists (λ u : row, u !! "status" = None) units →
  generate_leases rnd fuel units = Some (Raise (KeyError "status")).
Proof.
  intros Hex. unfold generate_leases, select.
  enough (∀ acc, Py.for_each
                   (λ (u : row) (acc : list row),
                      v <- Py.getitem u "status";
                      Ok (if String.eqb v "occupied" then acc ++ [u]
                          else acc)) units acc
                 = Raise (KeyError "status")) as H by (by rewrite H).
  induction Hex as [u units Hu|u units _ IH]; intros acc.
  - cbn [Py.for_each]. unfold Py.getitem at 1. by rewrite Hu.
  - cbn [Py.for_each]. unfold Py.getitem at 1.
    destruct (u !! "status"); [|done]. cbn [bind]. apply IH.
Qed.

Lemma by_position_ok : lease_draws_ok by_position.
Proof.
  intros i. cbn [by_position tenant start_offset email_domain phone_numbers
                 second_tenant fst snd].
  assert (∀ (l : list string) n, (n < length l)%nat → nth n l EmptyString ∈ l)
    as Hnth by (intros l n Hn; by apply list_elem_of_In, nth_In).
  split.
  { intros _. split; apply Hnth.
    - change (length FIRST_NAMES) with 198%nat.
      apply Nat.mod_upper_bound. done.
    - change (length LAST_NAMES) with 135%nat.
      apply Nat.mod_upper_bound. done. }
  split; [pose proof (Nat.mod_upper_bound i 181); lia|].
  split; [by repeat constructor|]. split; [lia|].
  split; apply (bool_decide_unpack _); vm_compute; exact I.
Qed.

Lemma two_units_readable : Forall unit_readable two_units.
Proof.
  repeat apply Forall_cons; [| | |constructor].
  - exists "occupied". split; [vm_compute; reflexivity|]. intros _.
    exists 1850, "0301". split; [vm_compute; reflexivity|].
    split; [lia|]. vm_compute. reflexivity.
  - exists "vacant". split; [vm_compute; reflexivity|]. intros [=].
  - exists "occupied". split; [vm_compute; reflexivity|]. intros _.
    exists 1800, "0303". split; [vm_compute; reflexivity|].
    split; [lia|]. vm_compute. reflexivity.
Qed.

Lemma by_position_fresh :
  names_fresh by_position 1
    (length (filter (λ u, Is_true (is_occupied u)) two_units)).
Proof.
  change (length (filter (λ u, Is_true (is_occupied u)) two_units))
    with 2%nat.
  intros i Hi. exists 0%nat. split; [lia|]. intros i' j' Hi'.
  assert (i = 1%nat ∧ i' = 0%nat) as [-> ->] by lia.
  vm_compute. discriminate.
Qed.

Lemma generate_leases_per_occupied_unit_witness :
  ∃ leases,
    generate_leases by_position 1 two_units = Some (Ok leases)
    ∧ Forall2 lease_of (filter (λ u, Is_true (is_occupied u)) two_units)
              leases.
Proof.
  exact (generate_leases_per_occupied_unit by_position 1 two_units
           by_position_ok two_units_readable by_position_fresh).
Defined.

Lemma generate_leases_dates_witness :
  ∃ leases,
    generate_leases by_position 1 two_units = Some (Ok leases)
    ∧ Forall lease_dates leases.
Proof.
  exact (generate_leases_dates by_position 1 two_units
           by_position_ok two_units_readable by_position_fresh).
Defined.

Lemma generate_leases_no_status_witness :
  generate_leases by_position 1 [∅] = Some (Raise (KeyError "status")).
Proof.
  apply (generate_leases_no_status by_position 1 [∅]).
  apply Exists_cons_hd. reflexivity.
Defined.

Lemma filter_fmap_bool {A B} (f : A → B) (p : B → bool) (l : list A) :
  filter (λ y, Is_true (p y)) (f <$> l)
  = f <$> filter (λ x, Is_true (p (f x))) l.
Proof.
  induction l as [|x l IH]; [done|].
  rewrite fmap_cons, !filter_cons, IH. by destruct (p (f x)).
Qed.

Lemma filter_ext_bool {A} (p q : A → bool) (l : list A) :
  (∀ x, p x = q x) →
  filter (λ x, Is_true (p x)) l = filter (λ x, Is_true (q x)) l.
Proof.
  intros Hpq. induction l as [|x l IH]; [done|].
  by rewrite !filter_cons, IH, Hpq.
Qed.

Lemma slot_row_readable (urnd : unit_draws) (s : unit_slot) :
  unit_draws_ok urnd → slot_okb s = true → unit_readable (slot_row urnd s).
Proof.
  intros Hrnd Hs.
  destruct (slot_okb_ok urnd s Hrnd Hs)
    as (floor & idx & sqft & rent & status & _ & _ & _ & Hnum & _ & _
        & Hrent & Hbound & Hstatus & _).
  exists status. split; [done|]. intros _. eexists rent, _.
  split; [done|]. split; [lia|done].
Qed.

Lemma names_fresh_le (rnd : lease_draws) (fuel n m : nat) :
  (n ≤ m)%nat → names_fresh rnd fuel m → names_fresh rnd fuel n.
Proof. intros Hnm Hm i Hi. apply Hm. lia. Qed.

Lemma lease_numbers (occupied leases : list row) :
  Forall (λ u : row, is_Some (u !! "unit_number")) occupied →
  Forall2 lease_of occupied leases →
  column "unit_number" leases = column "unit_number" occupied.
Proof.
  intros Hnum Hof. induction Hof as [|u l occ ls Hl _ IH]; [done|].
  apply list.Forall_cons in Hnum as [[num Hu] Hnum].
  destruct Hl as (Hn & _). unfold column in *. cbn [omap list_omap].
  rewrite Hn, Hu. by rewrite IH.
Qed.

(** X27.  When [generate_leases] is given the
    units of [generate_units], as in [main], it returns as many leases
    as [generate_units] has printed occupied units, at most 424, and no
    two leases are for the same unit: whatever the two functions draw,
    provided every [while] loop meets a new name within [fuel]
    turns. *)
Theorem leases_of_generated_units (urnd : unit_draws) (rnd : lease_draws)
    (fuel : nat) :
  unit_draws_ok urnd → lease_draws_ok rnd → names_fresh rnd fuel 424 →
  ∃ (units leases : list row) (vacant : Z),
    generate_units urnd
    = Ok (units,
          ["Generated 500 units";
           "  Occupied: " +:+ Py.str (Z.of_nat (length leases))
           +:+ ", Vacant: " +:+ Py.str vacant +:+ ", Not ready: 76"])
    ∧ generate_leases rnd fuel units = Some (Ok leases)
    ∧ (length leases ≤ 424)%nat
    ∧ NoDup (column "unit_number" leases)
    ∧ column "unit_number" leases ⊆ column "unit_number" units.
Proof.
  intros Hurnd Hrnd Hfresh.
  assert (forallb slot_okb unit_slots = true) as Hall
    by (vm_compute; reflexivity).
  rewrite forallb_forall in Hall.
  assert (Forall unit_readable (slot_row urnd <$> unit_slots)) as Hread.
  { apply Forall_fmap, list.Forall_forall. intros s Hs.
    apply slot_row_readable; [done|]. by apply Hall, list_elem_of_In. }
  assert (filter (λ u, Is_true (is_occupied u)) (slot_row urnd <$> unit_slots)
          = slot_row urnd
            <$> filter (λ s : unit_slot,
                          Is_true (bool_decide (s.1.1.2 ≤ 33)
                                   && occupancy urnd s.1.1.1)) unit_slots)
    as Hocc.
  { rewrite filter_fmap_bool. f_equal. apply filter_ext_bool. intros s.
    unfold is_occupied. rewrite slot_row_status. case_decide.
    - rewrite (bool_decide_eq_true_2 (s.1.1.2 ≤ 33)) by done.
      by destruct (occupancy urnd s.1.1.1).
    - by rewrite (bool_decide_eq_false_2 (s.1.1.2 ≤ 33)) by done. }
  pose proof (filter_split (λ s : unit_slot, bool_decide (s.1.1.2 ≤ 33))
                (λ s : unit_slot, occupancy urnd s.1.1.1) unit_slots)
    as Hsplit.
  cbv beta in Hsplit.
  assert (length (filter (λ s : unit_slot, bool_decide (s.1.1.2 ≤ 33))
                         unit_slots) = 424%nat) as Hdel
    by (vm_compute; reflexivity).
  destruct (generate_leases_rows rnd fuel (slot_row urnd <$> unit_slots))
    as (leases & Hleases & Hof & _); [done|done| |].
  { eapply names_fresh_le; [|done]. rewrite Hocc, length_fmap. lia. }
  pose proof (Forall2_length Hof) as Hlen.
  rewrite Hocc, length_fmap in Hlen.
  assert (column "unit_number" (slot_row urnd <$> unit_slots)
          = (λ s : unit_slot,
               zfill 2 (Py.str s.1.1.2) +:+ zfill 2 (Py.str s.1.2))
            <$> unit_slots) as Hcol.
  { apply unit_numbers_of_slots. }
  assert (column "unit_number" leases
          = (λ s : unit_slot,
               zfill 2 (Py.str s.1.1.2) +:+ zfill 2 (Py.str s.1.2))
            <$> filter (λ s : unit_slot,
                          Is_true (bool_decide (s.1.1.2 ≤ 33)
                                   && occupancy urnd s.1.1.1)) unit_slots)
    as Hnums.
  { assert (Forall (λ u : row, is_Some (u !! "unit_number"))
                   (filter (λ u, Is_true (is_occupied u))
                           (slot_row urnd <$> unit_slots))) as Hsome.
    { rewrite Hocc. apply Forall_fmap, list.Forall_forall. intros s _.
      cbn. rewrite slot_row_number. by eexists. }
    rewrite (lease_numbers _ _ Hsome Hof), Hocc.
    apply unit_numbers_of_slots. }
  eexists (slot_row urnd <$> unit_slots), leases, _.
  split; [rewrite <-Hlen; apply generate_units_slots|].
  split; [done|]. split; [lia|].
  rewrite Hnums, Hcol. split.
  - eapply sublist_NoDup; [|apply fmap_sublist, sublist_filter].
    apply (bool_decide_unpack _). vm_compute. exact I.
  - apply sublist_subseteq, fmap_sublist, sublist_filter.
Qed.

Lemma steady_units_ok : unit_draws_ok steady_units.
Proof. intros n. cbn. lia. Qed.

Lemma by_position_fresh_all : names_fresh by_position 1 424.
Proof.
  assert (NoDup ((λ i, name_key (tenant by_position i 0)) <$> seq 0 424))
    as Hnodup by (apply (bool_decide_unpack _); vm_compute; exact I).
  intros i Hi. exists 0%nat. split; [lia|]. intros i' j' Hi' Heq.
  assert (i' = i); [|lia].
  apply (NoDup_lookup _ i' i (name_key (tenant by_position i 0)) Hnodup).
  - rewrite list_lookup_fmap, lookup_seq_lt by lia.
    cbn [fmap option_fmap option_map Nat.add]. f_equal. exact Heq.
  - rewrite list_lookup_fmap, lookup_seq_lt by lia. reflexivity.
Qed.

Lemma leases_of_generated_units_witness :
  ∃ (units leases : list row) (vacant : Z),
    generate_units steady_units
    = Ok (units,
          ["Generated 500 units";
           "  Occupied: " +:+ Py.str (Z.of_nat (length leases))
           +:+ ", Vacant: " +:+ Py.str vacant +:+ ", Not ready: 76"])
    ∧ generate_leases by_position 1 units = Some (Ok leases)
    ∧ (length leases ≤ 424)%nat
    ∧ NoDup (column "unit_number" leases)
    ∧ column "unit_number" leases ⊆ column "unit_number" units.
Proof.
  exact (leases_of_generated_units steady_units by_position 1
           steady_units_ok by_position_ok by_position_fresh_all).
Defined.

End leases.
